(** * Comment attachment rules of [src/language-js/comments.js]

    A shallow embedding of the three handler chains
    ([handleOwnLineComment], [handleEndOfLineComment],
    [handleRemainingComment]) and of every handler they consult.

    - AST nodes and comments are records of the properties the handlers
      read; node identity ([===]) is the node's [nid].
    - The mutable part (comment lists of the nodes, the [prettierIgnore]
      and [unignore] flags) is an explicit [Store] threaded through a
      state-and-error monad [M]; reading a property of [undefined] or
      [null] is the [TypeError] outcome.
    - The functions that [comments.js] imports from other files are the
      fields of the class [JsUtils]; the handlers are written against this
      interface, and [Reference] gives one instance for running them on
      concrete sources. *)

From Stdlib Require Import ZArith String Ascii List Bool Lia.
From stdpp Require Import base option gmap list.
Import ListNotations.

Local Open Scope string_scope.
Local Open Scope Z_scope.
Local Open Scope list_scope.

(** ** JavaScript values reachable from a node *)

(** A node carries its identity, its [type] tag, its byte range, the
    line of [loc.start], and its remaining properties.  A property holds
    [undefined], [null], a boolean, a child node or an array of nodes. *)
Inductive node : Type :=
  | Node (nid : nat) (ntype : string) (nrange : Z * Z) (nline : Z)
         (props : list (string * value))
with value : Type :=
  | VUndefined
  | VNull
  | VBool (b : bool)
  | VNode (n : node)
  | VArr (l : list node).

Definition nid (n : node) : nat := let 'Node i _ _ _ _ := n in i.
Definition ntype (n : node) : string := let 'Node _ t _ _ _ := n in t.
Definition nrange (n : node) : Z * Z := let 'Node _ _ r _ _ := n in r.
Definition nline (n : node) : Z := let 'Node _ _ _ l _ := n in l.
Definition props (n : node) : list (string * value) :=
  let 'Node _ _ _ _ p := n in p.

(** A plain object: the exported [options] table and the [options] of a
    context. *)
Definition obj : Type := list (string * value).

Fixpoint lookup_prop (k : string) (o : obj) : value :=
  match o with
  | [] => VUndefined
  | (k', v) :: o' => if String.eqb k k' then v else lookup_prop k o'
  end.

(** [n.k] for a node [n]. *)
Definition prop (k : string) (n : node) : value := lookup_prop k (props n).

(** Truthiness of a value (used by [if], [&&], [||], [!]). *)
Definition truthy (v : value) : bool :=
  match v with
  | VUndefined | VNull => false
  | VBool b => b
  | VNode _ | VArr _ => true
  end.

(** An absent context node is [undefined]. *)
Definition ov (o : option node) : value :=
  match o with Some n => VNode n | None => VUndefined end.

(** Strict equality [===]: identity on nodes. Two arrays are never the
    same object here, since every array is owned by one property. *)
Definition strict_eq (a b : value) : bool :=
  match a, b with
  | VUndefined, VUndefined => true
  | VNull, VNull => true
  | VBool x, VBool y => Bool.eqb x y
  | VNode x, VNode y => Nat.eqb (nid x) (nid y)
  | _, _ => false
  end.

(** [o?.type === t] and [o?.type !== t] for a context node. *)
Definition type_is (o : option node) (t : string) : bool :=
  match o with Some n => String.eqb (ntype n) t | None => false end.

(** ** Comments *)

Record Comment : Type := mkComment {
  cid : nat;             (* identity of the comment object *)
  ctype : string;        (* [comment.type] *)
  cvalue : string;       (* [comment.value] *)
  crange : Z * Z;        (* byte range *)
  cline_start : Z;       (* [comment.loc.start.line] *)
  cline_end : Z          (* [comment.loc.end.line] *)
}.

(** ** The context handed to every handler (typedef [CommentContext]) *)

Record CommentContext : Type := mkContext {
  comment : Comment;
  precedingNode : option node;
  enclosingNode : option node;
  followingNode : option node;
  text : string;
  context_options : obj;
  ast : option node;
  isLastComment : bool
}.

(** ** The attachment store *)

Inductive Role : Type := Leading | Trailing | Dangling.

Global Instance Role_eq_dec : EqDecision Role.
Proof. solve_decision. Defined.

(** One entry of a node's comment list: the comment and its marker. *)
Record Entry : Type := mkEntry {
  e_comment : nat;
  e_marker : option string
}.

(** Per node (by identity) the ordered leading, trailing and dangling
    lists, the nodes flagged [prettierIgnore = true] and the comments
    flagged [unignore = true]. *)
Record Store : Type := mkStore {
  leading : gmap nat (list Entry);
  trailing : gmap nat (list Entry);
  dangling : gmap nat (list Entry);
  prettierIgnore : gset nat;
  unignore : gset nat
}.

Definition empty_store : Store := mkStore ∅ ∅ ∅ ∅ ∅.

Definition slot (r : Role) (st : Store) : gmap nat (list Entry) :=
  match r with
  | Leading => leading st
  | Trailing => trailing st
  | Dangling => dangling st
  end.

(** The list of role [r] of node [n] (empty when never written). *)
Definition node_comments (st : Store) (r : Role) (n : nat) : list Entry :=
  default [] (slot r st !! n).

(** Append one entry to the list of role [r] of node [n]. *)
Definition attach (r : Role) (n : nat) (e : Entry) (st : Store) : Store :=
  let l := node_comments st r n ++ [e] in
  match r with
  | Leading =>
      mkStore (<[n := l]> (leading st)) (trailing st) (dangling st)
              (prettierIgnore st) (unignore st)
  | Trailing =>
      mkStore (leading st) (<[n := l]> (trailing st)) (dangling st)
              (prettierIgnore st) (unignore st)
  | Dangling =>
      mkStore (leading st) (trailing st) (<[n := l]> (dangling st))
              (prettierIgnore st) (unignore st)
  end.

(** [node.prettierIgnore = true] *)
Definition flag_prettierIgnore (n : nat) (st : Store) : Store :=
  mkStore (leading st) (trailing st) (dangling st)
          ({[n]} ∪ prettierIgnore st) (unignore st).

(** [comment.unignore = true] *)
Definition flag_unignore (c : nat) (st : Store) : Store :=
  mkStore (leading st) (trailing st) (dangling st)
          (prettierIgnore st) ({[c]} ∪ unignore st).

(** ** State and error monad *)

Inductive result (A : Type) : Type :=
  | Ok (a : A)
  | TypeError.
Arguments Ok {A} a.
Arguments TypeError {A}.

Definition M (A : Type) : Type := Store -> result (A * Store).

Definition ret {A} (a : A) : M A := fun st => Ok (a, st).

Definition bind {A B} (m : M A) (k : A -> M B) : M B :=
  fun st =>
    match m st with
    | Ok (a, st') => k a st'
    | TypeError => TypeError
    end.

Definition throw {A} : M A := fun _ => TypeError.

Definition modify (f : Store -> Store) : M unit := fun st => Ok (tt, f st).

Declare Scope js_scope.
Delimit Scope js_scope with js.
Notation "x <- m ;; k" := (bind m (fun x => k))
  (at level 100, m at next level, right associativity) : js_scope.
Notation "m ;;; k" := (bind m (fun _ => k))
  (at level 100, right associativity) : js_scope.

(** [a && b] and [a || b] on conditions, left to right, short-circuit. *)
Definition andM (a b : M bool) : M bool :=
  bind a (fun x => if x then b else ret false).
Definition orM (a b : M bool) : M bool :=
  bind a (fun x => if x then ret true else b).
Definition notM (a : M bool) : M bool := bind a (fun x => ret (negb x)).

Notation "a &&& b" := (andM a b) (at level 40, left associativity) : js_scope.
Notation "a ||| b" := (orM a b) (at level 50, left associativity) : js_scope.

Local Open Scope js_scope.

(** ** Property access on values *)

(** The object of a member expression [v.k]: a node, or a [TypeError]
    when [v] is [undefined] or [null]. Booleans and arrays have none of
    the properties read by the handlers, see [get]. *)
Definition get (k : string) (v : value) : M value :=
  match v with
  | VUndefined | VNull => throw
  | VNode n => ret (prop k n)
  | VBool _ | VArr _ => ret VUndefined
  end.

(** [v.type], compared with a tag. *)
Definition get_type_is (v : value) (t : string) : M bool :=
  match v with
  | VUndefined | VNull => throw
  | VNode n => ret (String.eqb (ntype n) t)
  | VBool _ | VArr _ => ret false
  end.

(** [v.length], [None] standing for [undefined]. *)
Definition get_length (v : value) : M (option Z) :=
  match v with
  | VUndefined | VNull => throw
  | VArr l => ret (Some (Z.of_nat (length l)))
  | VNode _ | VBool _ => ret None
  end.

(** [v[0]] *)
Definition get_first (v : value) : M value :=
  match v with
  | VUndefined | VNull => throw
  | VArr l => ret (ov (head l))
  | VNode _ | VBool _ => ret VUndefined
  end.

(** A node where the code dereferences a context node it has just tested. *)
Definition deref (o : option node) : M node :=
  match o with Some n => ret n | None => throw end.

(** A helper that reads the properties of its argument. *)
Definition as_node (v : value) : M node :=
  match v with VNode n => ret n | _ => throw end.

(** [o.k] for a context node [o]. *)
Definition getp (k : string) (o : option node) : M value :=
  bind (deref o) (fun n => ret (prop k n)).

Definition is_some {A} (o : option A) : bool :=
  match o with Some _ => true | None => false end.

(** [s[0]]: the first character as a string, [None] for [undefined]. *)
Definition first_char (s : string) : option string :=
  match s with
  | EmptyString => None
  | String a _ => Some (String a EmptyString)
  end.

(** [s.slice(a, b)] *)
Definition slice (s : string) (a b : Z) : string :=
  let len := Z.of_nat (String.length s) in
  let norm i := if i <? 0 then Z.max (len + i) 0 else Z.min i len in
  let a' := norm a in
  let b' := norm b in
  substring (Z.to_nat a') (Z.to_nat (b' - a')) s.

(** ** Attaching a comment

    [addLeadingComment], [addTrailingComment] and [addDanglingComment]
    are imported from [../common/util.js]. *)

(** Modelled from the spec: [addLeadingComment] of [../common/util.js],
    a file that is not verified here.  An attachment decision is
    (comment, owner node, role, optional marker); committing it appends
    the comment reference to the owner's ordered list of that role.  The
    owner is dereferenced, so an [undefined] or [null] owner is a
    [TypeError]; only nodes own comments. *)
Definition addLeadingComment (owner : value) (c : Comment) : M unit :=
  bind (as_node owner) (fun n =>
    modify (attach Leading (nid n) (mkEntry (cid c) None))).

(** Modelled from the spec: [addTrailingComment] of [../common/util.js];
    as [addLeadingComment], with the trailing role. *)
Definition addTrailingComment (owner : value) (c : Comment) : M unit :=
  bind (as_node owner) (fun n =>
    modify (attach Trailing (nid n) (mkEntry (cid c) None))).

(** Modelled from the spec: [addDanglingComment] of [../common/util.js];
    as [addLeadingComment], with the dangling role and the optional
    marker tag that the printer reads later. *)
Definition addDanglingComment (owner : value) (c : Comment)
    (marker : option string) : M unit :=
  bind (as_node owner) (fun n =>
    modify (attach Dangling (nid n) (mkEntry (cid c) marker))).

(** [v.prettierIgnore = true] *)
Definition set_prettierIgnore (v : value) : M unit :=
  bind (as_node v) (fun n => modify (flag_prettierIgnore (nid n))).

(** [comment.unignore = true] *)
Definition set_unignore (c : Comment) : M unit :=
  modify (flag_unignore (cid c)).

(** ** The imports of [comments.js]

    Something with a location: [locStart] and [locEnd] are applied to
    comments and to nodes alike. *)
Inductive located : Type :=
  | LComment (c : Comment)
  | LNode (n : node).
Coercion LComment : Comment >-> located.
Coercion LNode : node >-> located.

(** An index into the text, or [false]. *)
Definition index : Type := option Z.

(** The functions and constants that [comments.js] requires from files
    that are not verified here, with the names of the [require]
    statements at the top of the file. *)
Class JsUtils : Type := {
  (* ../common/util.js *)
  getLast : value -> value;
  hasNewline : string -> Z -> bool;
  getNextNonSpaceNonCommentCharacterIndexWithStartIndex :
    string -> Z -> index;
  getNextNonSpaceNonCommentCharacter :
    string -> located -> (located -> Z) -> string;
  hasNewlineInRange : string -> Z -> Z -> bool;
  getNextNonSpaceNonCommentCharacterIndex :
    string -> located -> (located -> Z) -> index;
  isNonEmptyArray : value -> bool;
  (* ./utils/index.js *)
  getFunctionParameters : node -> list node;
  isPrettierIgnoreComment : Comment -> bool;
  isCallLikeExpression : node -> bool;
  getCallArguments : node -> list node;
  isCallExpression : option node -> bool;
  isMemberExpression : option node -> bool;
  isObjectProperty : option node -> bool;
  isLineComment : Comment -> bool;
  markerForIfWithoutBlockAndSameLineComment : string;
  (* ./loc.js *)
  locStart : located -> Z;
  locEnd : located -> Z;
  (* ./utils/is-block-comment.js *)
  isBlockComment : Comment -> bool;
  (* ./options.js: the object bound to the module-level [options] *)
  options : obj
}.

(** [a > i] where [i] may be [false], which the comparison converts
    to [0]. *)
Definition gt_index (a : Z) (i : index) : bool :=
  a >? default 0 i.

(** ** The regular expression [/@type\b/]

    A word character of [\b]: [A-Z], [a-z], [0-9] or [_]. *)
Definition is_word_char (a : ascii) : bool :=
  let n := nat_of_ascii a in
  ((65 <=? n) && (n <=? 90) || (97 <=? n) && (n <=? 122)
   || (48 <=? n) && (n <=? 57) || (n =? 95))%nat.

(** Does the remaining input start with a word boundary after a word
    character: the end of the input or a character that is not a word
    character. *)
Definition boundary_after_word (s : string) : bool :=
  match s with
  | EmptyString => true
  | String a _ => negb (is_word_char a)
  end.

(** The rest of [s] after the literal [p], when [s] starts with [p]. *)
Fixpoint strip_prefix (p s : string) : option string :=
  match p with
  | EmptyString => Some s
  | String a p' =>
      match s with
      | EmptyString => None
      | String b s' => if Ascii.eqb a b then strip_prefix p' s' else None
      end
  end.

(** The match of [/@type\b/] anchored at the start of [s]. *)
Definition match_at_type_here (s : string) : bool :=
  match strip_prefix "@type" s with
  | Some rest => boundary_after_word rest
  | None => false
  end.

(** [/@type\b/.test(s)]: the pattern matches at some position of [s]. *)
Fixpoint test_at_type (s : string) : bool :=
  match s with
  | EmptyString => false
  | String _ s' => match_at_type_here s || test_at_type s'
  end.

Notation "'ifM' c 'then' a 'else' b" :=
  (bind c (fun x : bool => if x then a else b))
  (at level 10, c at level 200, a at level 200, b at level 200) : js_scope.

(** A condition that cannot throw, inside a chain of [&&&] and [|||]. *)
Definition cond (b : bool) : M bool := ret b.

(** [set.has(o?.type)] for a set of type tags. *)
Definition set_has (tags : list string) (o : option node) : bool :=
  match o with
  | Some n => existsb (String.eqb (ntype n)) tags
  | None => false
  end.

(** [v.find(p)] on an array of nodes; calling [find] on anything else
    throws. *)
Definition find_node (p : node -> bool) (v : value) : M (option node) :=
  match v with
  | VArr l => ret (List.find p l)
  | _ => throw
  end.

(** ** The handlers *)

Section Handlers.

Context {U : JsUtils}.

(** [isRealFunctionLikeNode], lines 907-922. *)
Definition isRealFunctionLikeNode (node : node) : bool :=
  String.eqb (ntype node) "ArrowFunctionExpression" ||
  String.eqb (ntype node) "FunctionExpression" ||
  String.eqb (ntype node) "FunctionDeclaration" ||
  String.eqb (ntype node) "ObjectMethod" ||
  String.eqb (ntype node) "ClassMethod" ||
  String.eqb (ntype node) "TSDeclareFunction" ||
  String.eqb (ntype node) "TSCallSignatureDeclaration" ||
  String.eqb (ntype node) "TSConstructSignatureDeclaration" ||
  String.eqb (ntype node) "TSMethodSignature" ||
  String.eqb (ntype node) "TSConstructorType" ||
  String.eqb (ntype node) "TSFunctionType" ||
  String.eqb (ntype node) "TSDeclareMethod".

(** [isTypeCastComment], lines 959-968. *)
Definition isTypeCastComment (comment : Comment) : bool :=
  isBlockComment comment &&
  match first_char (cvalue comment) with
  | Some c => String.eqb c "*"
  | None => false
  end &&
  test_at_type (cvalue comment).

(** [addBlockStatementFirstComment], lines 125-135. *)
Definition addBlockStatementFirstComment (node : value) (comment : Comment)
    : M unit :=
  body <- get "body" node ;;
  stmts <- (if truthy body then ret body else get "properties" node) ;;
  firstNonEmptyNode <-
    find_node (fun n => negb (String.eqb (ntype n) "EmptyStatement")) stmts ;;
  match firstNonEmptyNode with
  | Some first => addLeadingComment (VNode first) comment
  | None => addDanglingComment node comment None
  end.

(** [addBlockOrNotComment], lines 141-147. *)
Definition addBlockOrNotComment (node : value) (comment : Comment) : M unit :=
  ifM get_type_is node "BlockStatement"
  then addBlockStatementFirstComment node comment
  else addLeadingComment node comment.

(** [handleClosureTypeCastComments], lines 149-155. *)
Definition handleClosureTypeCastComments (ctx : CommentContext) : M bool :=
  let 'mkContext comment _ _ followingNode _ _ _ _ := ctx in
  if is_some followingNode && isTypeCastComment comment then
    addLeadingComment (ov followingNode) comment ;;; ret true
  else ret false.

(** [handleIfStatementComments], lines 173-253.  [options] is the
    module-level binding of line 34: the handler does not destructure
    [options] from its context. *)
Definition handleIfStatementComments (ctx : CommentContext) : M bool :=
  let 'mkContext comment precedingNode enclosingNode followingNode text _ _ _
    := ctx in
  if negb (type_is enclosingNode "IfStatement") || negb (is_some followingNode)
  then ret false else
  let nextCharacter := getNextNonSpaceNonCommentCharacter text comment locEnd in
  if String.eqb nextCharacter ")" then
    addTrailingComment (ov precedingNode) comment ;;; ret true
  else
  ifM (consequent <- getp "consequent" enclosingNode ;;
       cond (strict_eq (ov precedingNode) consequent)) &&&
      (alternate <- getp "alternate" enclosingNode ;;
       cond (strict_eq (ov followingNode) alternate))
  then
    (ifM get_type_is (ov precedingNode) "BlockStatement" &&&
         cond (negb (truthy (lookup_prop "breakBeforeElse" options)))
     then addTrailingComment (ov precedingNode) comment
     else
       let isSingleLineComment :=
         String.eqb (ctype comment) "SingleLine" ||
         (cline_start comment =? cline_end comment) in
       preceding <- deref precedingNode ;;
       let isSameLineComment := cline_start comment =? nline preceding in
       if isSingleLineComment && isSameLineComment then
         addDanglingComment (ov precedingNode) comment
           (Some markerForIfWithoutBlockAndSameLineComment)
       else
         addDanglingComment (ov enclosingNode) comment None) ;;;
    ret true
  else
  ifM get_type_is (ov followingNode) "BlockStatement" then
    addBlockStatementFirstComment (ov followingNode) comment ;;; ret true
  else
  ifM get_type_is (ov followingNode) "IfStatement" then
    (consequent <- getp "consequent" followingNode ;;
     addBlockOrNotComment consequent comment) ;;;
    ret true
  else
  ifM (consequent <- getp "consequent" enclosingNode ;;
       cond (strict_eq consequent (ov followingNode)))
  then addLeadingComment (ov followingNode) comment ;;; ret true
  else ret false.

(** [handleWhileComments], lines 255-292. *)
Definition handleWhileComments (ctx : CommentContext) : M bool :=
  let 'mkContext comment precedingNode enclosingNode followingNode text _ _ _
    := ctx in
  if negb (type_is enclosingNode "WhileStatement")
     || negb (is_some followingNode)
  then ret false else
  let nextCharacter := getNextNonSpaceNonCommentCharacter text comment locEnd in
  if String.eqb nextCharacter ")" then
    addTrailingComment (ov precedingNode) comment ;;; ret true
  else
  ifM get_type_is (ov followingNode) "BlockStatement" then
    addBlockStatementFirstComment (ov followingNode) comment ;;; ret true
  else
  ifM (body <- getp "body" enclosingNode ;;
       cond (strict_eq body (ov followingNode)))
  then addLeadingComment (ov followingNode) comment ;;; ret true
  else ret false.

(** [handleTryStatementComments], lines 295-330. *)
Definition handleTryStatementComments (ctx : CommentContext) : M bool :=
  let 'mkContext comment precedingNode enclosingNode followingNode _ _ _ _
    := ctx in
  if (negb (type_is enclosingNode "TryStatement") &&
      negb (type_is enclosingNode "CatchClause"))
     || negb (is_some followingNode)
  then ret false else
  ifM get_type_is (ov enclosingNode) "CatchClause" &&&
      cond (is_some precedingNode)
  then addTrailingComment (ov precedingNode) comment ;;; ret true
  else
  ifM get_type_is (ov followingNode) "BlockStatement" then
    addBlockStatementFirstComment (ov followingNode) comment ;;; ret true
  else
  ifM get_type_is (ov followingNode) "TryStatement" then
    (finalizer <- getp "finalizer" followingNode ;;
     addBlockOrNotComment finalizer comment) ;;;
    ret true
  else
  ifM get_type_is (ov followingNode) "CatchClause" then
    (body <- getp "body" followingNode ;;
     addBlockOrNotComment body comment) ;;;
    ret true
  else ret false.

(** [handleMemberExpressionComments], lines 332-346. *)
Definition handleMemberExpressionComments (ctx : CommentContext) : M bool :=
  let 'mkContext comment _ enclosingNode followingNode _ _ _ _ := ctx in
  if isMemberExpression enclosingNode && type_is followingNode "Identifier"
  then addLeadingComment (ov enclosingNode) comment ;;; ret true
  else ret false.

(** [handleConditionalExpressionComments], lines 348-369. *)
Definition handleConditionalExpressionComments (ctx : CommentContext)
    : M bool :=
  let 'mkContext comment precedingNode enclosingNode followingNode text _ _ _
    := ctx in
  let isSameLineAsPrecedingNode :=
    match precedingNode with
    | Some preceding =>
        negb (hasNewlineInRange text (locEnd preceding) (locStart comment))
    | None => false
    end in
  if (negb (is_some precedingNode) || negb isSameLineAsPrecedingNode) &&
     (type_is enclosingNode "ConditionalExpression" ||
      type_is enclosingNode "TSConditionalType") &&
     is_some followingNode
  then addLeadingComment (ov followingNode) comment ;;; ret true
  else ret false.

(** [handleObjectPropertyAssignment], lines 371-386. *)
Definition handleObjectPropertyAssignment (ctx : CommentContext) : M bool :=
  let 'mkContext comment precedingNode enclosingNode _ _ _ _ _ := ctx in
  ifM cond (isObjectProperty enclosingNode) &&&
      (shorthand <- getp "shorthand" enclosingNode ;;
       cond (truthy shorthand)) &&&
      (key <- getp "key" enclosingNode ;;
       cond (strict_eq key (ov precedingNode))) &&&
      (value <- getp "value" enclosingNode ;;
       get_type_is value "AssignmentPattern")
  then
    (value <- getp "value" enclosingNode ;;
     left <- get "left" value ;;
     addTrailingComment left comment) ;;;
    ret true
  else ret false.

Definition classLikeNodeTypes : list string :=
  [ "ClassDeclaration"; "ClassExpression"; "DeclareClass";
    "DeclareInterface"; "InterfaceDeclaration"; "TSInterfaceDeclaration" ].

(** The loop [for (const prop of ["implements", "extends", "mixins"])]
    of [handleClassComments], lines 430-444: the result tells whether the
    loop body returned. *)
Fixpoint handleClassComments_loop (propNames : list string)
    (comment : Comment) (precedingNode enclosingNode followingNode : option node)
    : M bool :=
  match propNames with
  | [] => ret false
  | prop :: rest =>
      ifM (list <- getp prop enclosingNode ;; cond (truthy list)) &&&
          (list <- getp prop enclosingNode ;;
           first <- get_first list ;;
           cond (strict_eq (ov followingNode) first))
      then
        (ifM cond (is_some precedingNode) &&&
             ((id <- getp "id" enclosingNode ;;
               cond (strict_eq (ov precedingNode) id)) |||
              (typeParameters <- getp "typeParameters" enclosingNode ;;
               cond (strict_eq (ov precedingNode) typeParameters)) |||
              (superClass <- getp "superClass" enclosingNode ;;
               cond (strict_eq (ov precedingNode) superClass)))
         then addTrailingComment (ov precedingNode) comment
         else addDanglingComment (ov enclosingNode) comment (Some prop)) ;;;
        ret true
      else
        handleClassComments_loop rest comment
          precedingNode enclosingNode followingNode
  end.

(** [handleClassComments], lines 396-448. *)
Definition handleClassComments (ctx : CommentContext) : M bool :=
  let 'mkContext comment precedingNode enclosingNode followingNode _ _ _ _
    := ctx in
  if set_has classLikeNodeTypes enclosingNode then
    ifM (decorators <- getp "decorators" enclosingNode ;;
         cond (isNonEmptyArray decorators)) &&&
        cond (negb (is_some followingNode &&
                    type_is followingNode "Decorator"))
    then
      (decorators <- getp "decorators" enclosingNode ;;
       addTrailingComment (getLast decorators) comment) ;;;
      ret true
    else
    ifM (body <- getp "body" enclosingNode ;; cond (truthy body)) &&&
        (body <- getp "body" enclosingNode ;;
         cond (strict_eq (ov followingNode) body))
    then
      (body <- getp "body" enclosingNode ;;
       addBlockStatementFirstComment body comment) ;;;
      ret true
    else
    if is_some followingNode then
      ifM (superClass <- getp "superClass" enclosingNode ;;
           cond (truthy superClass)) &&&
          (superClass <- getp "superClass" enclosingNode ;;
           cond (strict_eq (ov followingNode) superClass)) &&&
          cond (is_some precedingNode) &&&
          ((id <- getp "id" enclosingNode ;;
            cond (strict_eq (ov precedingNode) id)) |||
           (typeParameters <- getp "typeParameters" enclosingNode ;;
            cond (strict_eq (ov precedingNode) typeParameters)))
      then addTrailingComment (ov precedingNode) comment ;;; ret true
      else
        handleClassComments_loop ["implements"; "extends"; "mixins"]
          comment precedingNode enclosingNode followingNode
    else ret false
  else ret false.

Definition propertyLikeNodeTypes : list string :=
  [ "ClassMethod"; "ClassProperty"; "PropertyDefinition";
    "TSAbstractPropertyDefinition"; "TSAbstractMethodDefinition";
    "TSDeclareMethod"; "MethodDefinition" ].

(** [handleMethodNameComments], lines 459-497. *)
Definition handleMethodNameComments (ctx : CommentContext) : M bool :=
  let 'mkContext comment precedingNode enclosingNode _ text _ _ _ := ctx in
  if match enclosingNode, precedingNode with
     | Some enclosing, Some preceding =>
         String.eqb (getNextNonSpaceNonCommentCharacter text comment locEnd)
                    "(" &&
         (String.eqb (ntype enclosing) "Property" ||
          String.eqb (ntype enclosing) "TSDeclareMethod" ||
          String.eqb (ntype enclosing) "TSAbstractMethodDefinition") &&
         String.eqb (ntype preceding) "Identifier" &&
         strict_eq (prop "key" enclosing) (VNode preceding) &&
         negb (String.eqb
                 (getNextNonSpaceNonCommentCharacter text preceding locEnd)
                 ":")
     | _, _ => false
     end
  then addTrailingComment (ov precedingNode) comment ;;; ret true
  else
  if type_is precedingNode "Decorator" &&
     set_has propertyLikeNodeTypes enclosingNode
  then addTrailingComment (ov precedingNode) comment ;;; ret true
  else ret false.

Definition functionLikeNodeTypes : list string :=
  [ "FunctionDeclaration"; "FunctionExpression"; "ClassMethod";
    "MethodDefinition"; "ObjectMethod" ].

(** [handleFunctionNameComments], lines 506-520. *)
Definition handleFunctionNameComments (ctx : CommentContext) : M bool :=
  let 'mkContext comment precedingNode enclosingNode _ text _ _ _ := ctx in
  if negb (String.eqb
             (getNextNonSpaceNonCommentCharacter text comment locEnd) "(")
  then ret false else
  if is_some precedingNode && set_has functionLikeNodeTypes enclosingNode
  then addTrailingComment (ov precedingNode) comment ;;; ret true
  else ret false.

(** [handleCommentAfterArrowParams], lines 522-534. *)
Definition handleCommentAfterArrowParams (ctx : CommentContext) : M bool :=
  let 'mkContext comment _ enclosingNode _ text _ _ _ := ctx in
  if negb (type_is enclosingNode "ArrowFunctionExpression")
  then ret false else
  let index := getNextNonSpaceNonCommentCharacterIndex text comment locEnd in
  if match index with
     | Some index => String.eqb (slice text index (index + 2)) "=>"
     | None => false
     end
  then addDanglingComment (ov enclosingNode) comment None ;;; ret true
  else ret false.

(** [handleCommentInEmptyParens], lines 536-562. *)
Definition handleCommentInEmptyParens (ctx : CommentContext) : M bool :=
  let 'mkContext comment _ enclosingNode _ text _ _ _ := ctx in
  if negb (String.eqb
             (getNextNonSpaceNonCommentCharacter text comment locEnd) ")")
  then ret false else
  if match enclosingNode with
     | Some enclosing =>
         (isRealFunctionLikeNode enclosing &&
          (Z.of_nat (length (getFunctionParameters enclosing)) =? 0)) ||
         (isCallLikeExpression enclosing &&
          (Z.of_nat (length (getCallArguments enclosing)) =? 0))
     | None => false
     end
  then addDanglingComment (ov enclosingNode) comment None ;;; ret true
  else
  ifM cond (type_is enclosingNode "MethodDefinition" ||
            type_is enclosingNode "TSAbstractMethodDefinition") &&&
      (value <- getp "value" enclosingNode ;;
       fn <- as_node value ;;
       cond (Z.of_nat (length (getFunctionParameters fn)) =? 0))
  then
    (value <- getp "value" enclosingNode ;;
     addDanglingComment value comment None) ;;;
    ret true
  else ret false.

(** [handleLastFunctionArgComments], lines 564-625. *)
Definition handleLastFunctionArgComments (ctx : CommentContext) : M bool :=
  let 'mkContext comment precedingNode enclosingNode followingNode text _ _ _
    := ctx in
  (* Flow function type definitions *)
  if type_is precedingNode "FunctionTypeParam" &&
     type_is enclosingNode "FunctionTypeAnnotation" &&
     negb (type_is followingNode "FunctionTypeParam")
  then addTrailingComment (ov precedingNode) comment ;;; ret true
  else
  (* Real functions and TypeScript function type definitions *)
  if (type_is precedingNode "Identifier" ||
      type_is precedingNode "AssignmentPattern") &&
     match enclosingNode with
     | Some enclosing =>
         isRealFunctionLikeNode enclosing &&
         String.eqb (getNextNonSpaceNonCommentCharacter text comment locEnd)
                    ")"
     | None => false
     end
  then addTrailingComment (ov precedingNode) comment ;;; ret true
  else
  if type_is enclosingNode "FunctionDeclaration" &&
     type_is followingNode "BlockStatement"
  then
    functionParamRightParenIndex <-
      (enclosing <- deref enclosingNode ;;
       let parameters := getFunctionParameters enclosing in
       if Z.of_nat (length parameters) >? 0 then
         last <- as_node (getLast (VArr parameters)) ;;
         ret (getNextNonSpaceNonCommentCharacterIndexWithStartIndex
                text (locEnd last))
       else
         id <- as_node (prop "id" enclosing) ;;
         let functionParamLeftParenIndex :=
           getNextNonSpaceNonCommentCharacterIndexWithStartIndex
             text (locEnd id) in
         ret (match functionParamLeftParenIndex with
              | Some leftParenIndex =>
                  getNextNonSpaceNonCommentCharacterIndexWithStartIndex
                    text (leftParenIndex + 1)
              | None => None
              end)) ;;
    if gt_index (locStart comment) functionParamRightParenIndex then
      addBlockStatementFirstComment (ov followingNode) comment ;;; ret true
    else ret false
  else ret false.

(** [handleLabeledStatementComments], lines 627-633. *)
Definition handleLabeledStatementComments (ctx : CommentContext) : M bool :=
  let 'mkContext comment _ enclosingNode _ _ _ _ _ := ctx in
  if type_is enclosingNode "LabeledStatement"
  then addLeadingComment (ov enclosingNode) comment ;;; ret true
  else ret false.

(** [handleBreakAndContinueStatementComments], lines 635-645. *)
Definition handleBreakAndContinueStatementComments (ctx : CommentContext)
    : M bool :=
  let 'mkContext comment _ enclosingNode _ _ _ _ _ := ctx in
  ifM cond (type_is enclosingNode "ContinueStatement" ||
            type_is enclosingNode "BreakStatement") &&&
      (label <- getp "label" enclosingNode ;; cond (negb (truthy label)))
  then addTrailingComment (ov enclosingNode) comment ;;; ret true
  else ret false.

(** [handleCallExpressionComments], lines 647-662. *)
Definition handleCallExpressionComments (ctx : CommentContext) : M bool :=
  let 'mkContext comment precedingNode enclosingNode _ _ _ _ _ := ctx in
  ifM cond (isCallExpression enclosingNode) &&&
      cond (is_some precedingNode) &&&
      (callee <- getp "callee" enclosingNode ;;
       cond (strict_eq callee (ov precedingNode))) &&&
      (arguments <- getp "arguments" enclosingNode ;;
       len <- get_length arguments ;;
       cond (match len with Some n => n >? 0 | None => false end))
  then
    (arguments <- getp "arguments" enclosingNode ;;
     first <- get_first arguments ;;
     addLeadingComment first comment) ;;;
    ret true
  else ret false.

(** [handleUnionTypeComments], lines 664-695. *)
Definition handleUnionTypeComments (ctx : CommentContext) : M bool :=
  let 'mkContext comment precedingNode enclosingNode followingNode _ _ _ _
    := ctx in
  if type_is enclosingNode "UnionTypeAnnotation" ||
     type_is enclosingNode "TSUnionType"
  then
    (if isPrettierIgnoreComment comment then
       set_prettierIgnore (ov followingNode) ;;;
       set_unignore comment
     else ret tt) ;;;
    if is_some precedingNode then
      addTrailingComment (ov precedingNode) comment ;;; ret true
    else ret false
  else
    (if (type_is followingNode "UnionTypeAnnotation" ||
         type_is followingNode "TSUnionType") &&
        isPrettierIgnoreComment comment
     then
       types <- getp "types" followingNode ;;
       first <- get_first types ;;
       set_prettierIgnore first ;;;
       set_unignore comment
     else ret tt) ;;;
    ret false.

(** [handlePropertyComments], lines 697-703. *)
Definition handlePropertyComments (ctx : CommentContext) : M bool :=
  let 'mkContext comment _ enclosingNode _ _ _ _ _ := ctx in
  if isObjectProperty enclosingNode
  then addLeadingComment (ov enclosingNode) comment ;;; ret true
  else ret false.

(** [len === z] for a [length] that may be [undefined]. *)
Definition len_is (len : option Z) (z : Z) : bool :=
  match len with Some n => n =? z | None => false end.

(** [handleOnlyComments], lines 705-745. *)
Definition handleOnlyComments (ctx : CommentContext) : M bool :=
  let 'mkContext comment _ enclosingNode followingNode _ _ ast isLastComment
    := ctx in
  (* With Flow the enclosingNode is undefined so use the AST instead. *)
  ifM cond (is_some ast) &&&
      (body <- getp "body" ast ;; cond (truthy body)) &&&
      (body <- getp "body" ast ;;
       len <- get_length body ;;
       cond (len_is len 0))
  then
    (if isLastComment then addDanglingComment (ov ast) comment None
     else addLeadingComment (ov ast) comment) ;;;
    ret true
  else
  ifM cond (type_is enclosingNode "Program") &&&
      (body <- getp "body" enclosingNode ;;
       len <- get_length body ;;
       cond (len_is len 0)) &&&
      (directives <- getp "directives" enclosingNode ;;
       cond (negb (isNonEmptyArray directives)))
  then
    (if isLastComment then addDanglingComment (ov enclosingNode) comment None
     else addLeadingComment (ov enclosingNode) comment) ;;;
    ret true
  else
  ifM cond (type_is followingNode "Program") &&&
      (body <- getp "body" followingNode ;;
       len <- get_length body ;;
       cond (len_is len 0)) &&&
      cond (type_is enclosingNode "ModuleExpression")
  then addDanglingComment (ov followingNode) comment None ;;; ret true
  else ret false.

(** [handleForComments], lines 747-756. *)
Definition handleForComments (ctx : CommentContext) : M bool :=
  let 'mkContext comment _ enclosingNode _ _ _ _ _ := ctx in
  if type_is enclosingNode "ForInStatement" ||
     type_is enclosingNode "ForOfStatement"
  then addLeadingComment (ov enclosingNode) comment ;;; ret true
  else ret false.

(** [handleModuleSpecifiersComments], lines 758-786. *)
Definition handleModuleSpecifiersComments (ctx : CommentContext) : M bool :=
  let 'mkContext comment precedingNode enclosingNode _ text _ _ _ := ctx in
  if type_is enclosingNode "ImportSpecifier" ||
     type_is enclosingNode "ExportSpecifier"
  then addLeadingComment (ov enclosingNode) comment ;;; ret true
  else
  let isImportDeclaration :=
    type_is precedingNode "ImportSpecifier" &&
    type_is enclosingNode "ImportDeclaration" in
  let isExportDeclaration :=
    type_is precedingNode "ExportSpecifier" &&
    type_is enclosingNode "ExportNamedDeclaration" in
  if (isImportDeclaration || isExportDeclaration) &&
     hasNewline text (locEnd comment)
  then addTrailingComment (ov precedingNode) comment ;;; ret true
  else ret false.

(** [handleAssignmentPatternComments], lines 788-794. *)
Definition handleAssignmentPatternComments (ctx : CommentContext) : M bool :=
  let 'mkContext comment _ enclosingNode _ _ _ _ _ := ctx in
  if type_is enclosingNode "AssignmentPattern"
  then addLeadingComment (ov enclosingNode) comment ;;; ret true
  else ret false.

Definition assignmentLikeNodeTypes : list string :=
  [ "VariableDeclarator"; "AssignmentExpression"; "TypeAlias";
    "TSTypeAliasDeclaration" ].

Definition complexExprNodeTypes : list string :=
  [ "ObjectExpression"; "ArrayExpression"; "TemplateLiteral";
    "TaggedTemplateExpression"; "ObjectTypeAnnotation"; "TSTypeLiteral" ].

(** [handleVariableDeclaratorComments], lines 810-824. *)
Definition handleVariableDeclaratorComments (ctx : CommentContext) : M bool :=
  let 'mkContext comment _ enclosingNode followingNode _ _ _ _ := ctx in
  if set_has assignmentLikeNodeTypes enclosingNode &&
     match followingNode with
     | Some following =>
         existsb (String.eqb (ntype following)) complexExprNodeTypes ||
         isBlockComment comment
     | None => false
     end
  then addLeadingComment (ov followingNode) comment ;;; ret true
  else ret false.

(** [handleTSFunctionTrailingComments], lines 826-843. *)
Definition handleTSFunctionTrailingComments (ctx : CommentContext) : M bool :=
  let 'mkContext comment _ enclosingNode followingNode text _ _ _ := ctx in
  if negb (is_some followingNode) &&
     (type_is enclosingNode "TSMethodSignature" ||
      type_is enclosingNode "TSDeclareFunction" ||
      type_is enclosingNode "TSAbstractMethodDefinition") &&
     String.eqb (getNextNonSpaceNonCommentCharacter text comment locEnd) ";"
  then addTrailingComment (ov enclosingNode) comment ;;; ret true
  else ret false.

(** [handleIgnoreComments], lines 845-856.  The function has no [return]
    after the [if]: it yields [undefined], which [some] treats as
    [false]. *)
Definition handleIgnoreComments (ctx : CommentContext) : M bool :=
  let 'mkContext comment _ enclosingNode followingNode _ _ _ _ := ctx in
  ifM cond (isPrettierIgnoreComment comment) &&&
      cond (type_is enclosingNode "TSMappedType") &&&
      cond (type_is followingNode "TSTypeParameter") &&&
      (constraint <- getp "constraint" followingNode ;;
       cond (truthy constraint))
  then
    set_prettierIgnore (ov enclosingNode) ;;;
    set_unignore comment ;;;
    ret true
  else ret false.

(** [handleTSMappedTypeComments], lines 858-879. *)
Definition handleTSMappedTypeComments (ctx : CommentContext) : M bool :=
  let 'mkContext comment precedingNode enclosingNode followingNode _ _ _ _
    := ctx in
  if negb (type_is enclosingNode "TSMappedType") then ret false else
  ifM cond (type_is followingNode "TSTypeParameter") &&&
      (name <- getp "name" followingNode ;; cond (truthy name))
  then
    (name <- getp "name" followingNode ;; addLeadingComment name comment) ;;;
    ret true
  else
  ifM cond (type_is precedingNode "TSTypeParameter") &&&
      (constraint <- getp "constraint" precedingNode ;;
       cond (truthy constraint))
  then
    (constraint <- getp "constraint" precedingNode ;;
     addTrailingComment constraint comment) ;;;
    ret true
  else ret false.

(** [handleSwitchDefaultCaseComments], lines 881-901. *)
Definition handleSwitchDefaultCaseComments (ctx : CommentContext) : M bool :=
  let 'mkContext comment _ enclosingNode followingNode _ _ _ _ := ctx in
  if match enclosingNode with
     | Some enclosing =>
         negb (String.eqb (ntype enclosing) "SwitchCase") ||
         truthy (prop "test" enclosing)
     | None => true
     end
  then ret false else
  (ifM get_type_is (ov followingNode) "BlockStatement" &&&
       cond (isLineComment comment)
   then addBlockStatementFirstComment (ov followingNode) comment
   else addDanglingComment (ov enclosingNode) comment None) ;;;
  ret true.

(** ** The three chains *)

(** [handlers.some((fn) => fn(context))]: the handlers are called in
    order until one returns a truthy value. *)
Fixpoint some (handlers : list (CommentContext -> M bool))
    (context : CommentContext) : M bool :=
  match handlers with
  | [] => ret false
  | fn :: rest =>
      ifM fn context then ret true else some rest context
  end.

(** [handleOwnLineComment], lines 56-74. *)
Definition handleOwnLineComment (context : CommentContext) : M bool :=
  some
    [ handleIgnoreComments;
      handleLastFunctionArgComments;
      handleMemberExpressionComments;
      handleIfStatementComments;
      handleWhileComments;
      handleTryStatementComments;
      handleClassComments;
      handleForComments;
      handleUnionTypeComments;
      handleOnlyComments;
      handleModuleSpecifiersComments;
      handleAssignmentPatternComments;
      handleMethodNameComments;
      handleLabeledStatementComments;
      handleBreakAndContinueStatementComments ]
    context.

(** [handleEndOfLineComment], lines 80-98. *)
Definition handleEndOfLineComment (context : CommentContext) : M bool :=
  some
    [ handleClosureTypeCastComments;
      handleLastFunctionArgComments;
      handleConditionalExpressionComments;
      handleModuleSpecifiersComments;
      handleIfStatementComments;
      handleWhileComments;
      handleTryStatementComments;
      handleClassComments;
      handleLabeledStatementComments;
      handleCallExpressionComments;
      handlePropertyComments;
      handleOnlyComments;
      handleVariableDeclaratorComments;
      handleBreakAndContinueStatementComments;
      handleSwitchDefaultCaseComments ]
    context.

(** [handleRemainingComment], lines 104-119. *)
Definition handleRemainingComment (context : CommentContext) : M bool :=
  some
    [ handleIgnoreComments;
      handleIfStatementComments;
      handleWhileComments;
      handleObjectPropertyAssignment;
      handleCommentInEmptyParens;
      handleMethodNameComments;
      handleOnlyComments;
      handleCommentAfterArrowParams;
      handleFunctionNameComments;
      handleTSMappedTypeComments;
      handleBreakAndContinueStatementComments;
      handleTSFunctionTrailingComments ]
    context.

End Handlers.

(** ** A reference instance of the imports

    The helpers below stand for the files [../common/util.js],
    [./utils/index.js], [./loc.js], [./utils/is-block-comment.js] and
    [./options.js], none of which is verified here.  They
    are used to run the handlers on concrete sources; the general
    theorems hold for every instance of [JsUtils]. *)
Module Reference.

Definition is_blank (a : ascii) : bool :=
  Ascii.eqb a " " || Ascii.eqb a "009".
Definition is_newline (a : ascii) : bool :=
  Ascii.eqb a "010" || Ascii.eqb a "013".

(** What the scanner is inside of: code, a block comment that opened at
    [start], or a line comment. *)
Inductive scan_mode : Type :=
  | InCode
  | InBlock (start : nat)
  | InLine.

(** Modelled from the spec: the scan behind "the next non-whitespace,
    non-comment character" of [../common/util.js]: from position [i],
    skip blanks, newlines, block comments and line comments; an
    unterminated block comment is not skipped. *)
Fixpoint scan (mode : scan_mode) (s : string) (i : nat) : nat :=
  match s with
  | EmptyString =>
      match mode with InBlock start => start | _ => i end
  | String a s' =>
      match mode with
      | InCode =>
          if is_blank a || is_newline a then scan InCode s' (S i)
          else if Ascii.eqb a "/" then
            match s' with
            | String b s'' =>
                if Ascii.eqb b "*" then scan (InBlock i) s'' (S (S i))
                else if Ascii.eqb b "/" then scan InLine s'' (S (S i))
                else i
            | EmptyString => i
            end
          else i
      | InBlock start =>
          if Ascii.eqb a "*" then
            match s' with
            | String b s'' =>
                if Ascii.eqb b "/" then scan InCode s'' (S (S i))
                else scan (InBlock start) s' (S i)
            | EmptyString => start
            end
          else scan (InBlock start) s' (S i)
      | InLine =>
          if is_newline a then scan InCode s' (S i)
          else scan InLine s' (S i)
      end
  end.

(** The suffix of [s] from position [i], when [i] is within [s]. *)
Fixpoint suffix_from (s : string) (i : nat) : option string :=
  match i with
  | O => Some s
  | S i' =>
      match s with
      | EmptyString => None
      | String _ s' => suffix_from s' i'
      end
  end.

(** Modelled from the spec:
    [getNextNonSpaceNonCommentCharacterIndexWithStartIndex] of
    [../common/util.js]: the index of the next non-whitespace,
    non-comment character at or after [idx]; [false] when [idx] lies
    outside the text. *)
Definition getNextNonSpaceNonCommentCharacterIndexWithStartIndex
    (text : string) (idx : Z) : index :=
  if idx <? 0 then None else
  match suffix_from text (Z.to_nat idx) with
  | Some rest => Some (Z.of_nat (scan InCode rest (Z.to_nat idx)))
  | None => None
  end.

(** Modelled from the spec: [getNextNonSpaceNonCommentCharacterIndex] of
    [../common/util.js]: the scan started at the end of [node]. *)
Definition getNextNonSpaceNonCommentCharacterIndex
    (text : string) (node : located) (locEnd : located -> Z) : index :=
  getNextNonSpaceNonCommentCharacterIndexWithStartIndex text (locEnd node).

(** [text.charAt(i)], where [false] is converted to [0]. *)
Definition charAt (text : string) (i : index) : string :=
  match String.get (Z.to_nat (default 0 i)) text with
  | Some a => String a EmptyString
  | None => EmptyString
  end.

(** Modelled from the spec: [getNextNonSpaceNonCommentCharacter] of
    [../common/util.js]: the next non-whitespace, non-comment character
    after [node], the empty string at the end of the text. *)
Definition getNextNonSpaceNonCommentCharacter
    (text : string) (node : located) (locEnd : located -> Z) : string :=
  charAt text (getNextNonSpaceNonCommentCharacterIndex text node locEnd).

(** The first character of [s] that is not a blank, if any. *)
Fixpoint first_non_blank (s : string) : option ascii :=
  match s with
  | EmptyString => None
  | String a s' => if is_blank a then first_non_blank s' else Some a
  end.

(** Modelled from the spec: [hasNewline] of [../common/util.js]: only
    blanks separate position [idx] from a newline. *)
Definition hasNewline (text : string) (idx : Z) : bool :=
  if idx <? 0 then false else
  match suffix_from text (Z.to_nat idx) with
  | Some rest =>
      match first_non_blank rest with
      | Some a => is_newline a
      | None => false
      end
  | None => false
  end.

(** Modelled from the spec: [hasNewlineInRange] of [../common/util.js]:
    a line feed at a position from [start] up to [end_]. *)
Definition hasNewlineInRange (text : string) (start end_ : Z) : bool :=
  existsb (fun a => Ascii.eqb a "010")
    (list_ascii_of_string
       (substring (Z.to_nat start) (Z.to_nat (end_ - start)) text)).

(** Modelled from the spec: [getLast] of [../common/util.js]: the last
    element of an array. *)
Definition getLast (v : value) : value :=
  match v with
  | VArr l => ov (List.last (map Some l) None)
  | _ => VUndefined
  end.

(** Modelled from the spec: [isNonEmptyArray] of [../common/util.js]. *)
Definition isNonEmptyArray (v : value) : bool :=
  match v with
  | VArr (_ :: _) => true
  | _ => false
  end.

Definition array_of (v : value) : list node :=
  match v with VArr l => l | _ => [] end.

(** Modelled from the spec: [getFunctionParameters] of
    [./utils/index.js]: the parameter list of a function-like node. *)
Definition getFunctionParameters (n : node) : list node :=
  match prop "parameters" n with
  | VArr l => l
  | _ => array_of (prop "params" n)
  end.

(** Modelled from the spec: [getCallArguments] of [./utils/index.js]:
    the argument list of a call-like node. *)
Definition getCallArguments (n : node) : list node :=
  array_of (prop "arguments" n).

(** Modelled from the spec: [isCallExpression] of [./utils/index.js]. *)
Definition isCallExpression (o : option node) : bool :=
  type_is o "CallExpression" || type_is o "OptionalCallExpression".

(** Modelled from the spec: [isCallLikeExpression] of
    [./utils/index.js]: calls, [new] and [import()]. *)
Definition isCallLikeExpression (n : node) : bool :=
  isCallExpression (Some n) ||
  String.eqb (ntype n) "NewExpression" ||
  String.eqb (ntype n) "ImportExpression".

(** Modelled from the spec: [isMemberExpression] of
    [./utils/index.js]. *)
Definition isMemberExpression (o : option node) : bool :=
  type_is o "MemberExpression" || type_is o "OptionalMemberExpression".

(** Modelled from the spec: [isObjectProperty] of [./utils/index.js]:
    a property of an object literal that is not a method. *)
Definition isObjectProperty (o : option node) : bool :=
  type_is o "ObjectProperty" ||
  match o with
  | Some n => String.eqb (ntype n) "Property" && negb (truthy (prop "method" n))
  | None => false
  end.

(** Modelled from the spec: [isLineComment] of [./utils/index.js]: the
    comment kind is line-comment, under the tags the parsers use. *)
Definition isLineComment (c : Comment) : bool :=
  existsb (String.eqb (ctype c))
    [ "Line"; "CommentLine"; "SingleLine"; "HashbangComment";
      "HTMLOpen"; "HTMLClose" ].

(** Modelled from the spec: [isBlockComment] of
    [./utils/is-block-comment.js]: the comment kind is block-comment,
    under the tags the parsers use. *)
Definition isBlockComment (c : Comment) : bool :=
  existsb (String.eqb (ctype c)) [ "Block"; "CommentBlock"; "MultiLine" ].

(** [s] without its leading blanks and newlines. *)
Fixpoint trim_start (s : string) : string :=
  match s with
  | EmptyString => EmptyString
  | String a s' =>
      if is_blank a || is_newline a then trim_start s' else s
  end.

Definition rev_string (s : string) : string :=
  string_of_list_ascii (rev (list_ascii_of_string s)).

(** [s.trim()] *)
Definition trim (s : string) : string :=
  rev_string (trim_start (rev_string (trim_start s))).

(** Modelled from the spec: [isPrettierIgnoreComment] of
    [./utils/index.js]: the comment is the suppression marker. *)
Definition isPrettierIgnoreComment (c : Comment) : bool :=
  String.eqb (trim (cvalue c)) "prettier-ignore".

(** Modelled from the spec: [locStart] of [./loc.js]: the start of the
    byte range. *)
Definition locStart (x : located) : Z :=
  match x with
  | LComment c => fst (crange c)
  | LNode n => fst (nrange n)
  end.

(** Modelled from the spec: [locEnd] of [./loc.js]: the end of the byte
    range. *)
Definition locEnd (x : located) : Z :=
  match x with
  | LComment c => snd (crange c)
  | LNode n => snd (nrange n)
  end.

(** Modelled from the spec: the imports of [comments.js], with the
    object exported by [./options.js] left as a parameter and the marker
    "same-line, blockless conditional" as a string. *)
Definition utils (options : obj) : JsUtils :=
  Build_JsUtils
    getLast
    hasNewline
    getNextNonSpaceNonCommentCharacterIndexWithStartIndex
    getNextNonSpaceNonCommentCharacter
    hasNewlineInRange
    getNextNonSpaceNonCommentCharacterIndex
    isNonEmptyArray
    getFunctionParameters
    isPrettierIgnoreComment
    isCallLikeExpression
    getCallArguments
    isCallExpression
    isMemberExpression
    isObjectProperty
    isLineComment
    "ifWithoutBlockAndSameLineComment"
    locStart
    locEnd
    isBlockComment
    options.

End Reference.

(** ** Placement classes *)

(** Modelled from the spec: the three placement classes of a comment
    (own-line, end-of-line, remaining); the code that classifies a
    comment and calls the chain of its class is not part of
    [comments.js]. *)
Inductive Placement : Type := OwnLine | EndOfLine | Remaining.

(** The chain entry point consulted for a placement class. *)
Definition chain {U : JsUtils} (p : Placement) : CommentContext -> M bool :=
  match p with
  | OwnLine => handleOwnLineComment
  | EndOfLine => handleEndOfLineComment
  | Remaining => handleRemainingComment
  end.

(** ** What a run does to the comment lists *)

(** No comment list of any node differs between [st] and [st']. *)
Definition unchanged (st st' : Store) : Prop :=
  forall r n, node_comments st' r n = node_comments st r n.

(** Exactly one list (one role of one node) has grown from [st] to
    [st'], by one entry for comment [c] at its end; every other list is
    the same. *)
Definition appended_once (c : nat) (st st' : Store) : Prop :=
  exists r n mk, forall r' n',
    node_comments st' r' n' =
      if decide (r' = r /\ n' = n)
      then node_comments st r n ++ [mkEntry c mk]
      else node_comments st r' n'.

(** The situation in which [handleIgnoreComments] claims a comment: a
    suppression marker inside a mapped type, before a type parameter
    that has a constraint. *)
Definition ignore_claim {U : JsUtils} (ctx : CommentContext) : Prop :=
  isPrettierIgnoreComment (comment ctx) = true /\
  type_is (enclosingNode ctx) "TSMappedType" = true /\
  exists f, followingNode ctx = Some f /\
            ntype f = "TSTypeParameter" /\
            truthy (prop "constraint" f) = true.

(** ** The claim about type-cast comments, in the words of the spec *)

(** [v] starts with an asterisk. *)
Definition starts_with_star (v : string) : Prop :=
  exists rest, v = String "*" rest.

(** [v] contains [@type] at a word boundary: right after an occurrence
    the text ends or goes on with a character that is not a word
    character. *)
Definition contains_at_type_word (v : string) : Prop :=
  exists pre post,
    v = (pre ++ "@type" ++ post)%string /\
    (post = EmptyString \/
     exists a post', post = String a post' /\ is_word_char a = false).

(** ** Concrete sources *)

Module Examples.

Definition ident (i : nat) (s e : Z) : node :=
  Node i "Identifier" (s, e) 1 [].

(** [(a, b/*c*/) => x] *)
Module ArrowInside.
Definition source : string := "(a, b/*c*/) => x".
Definition a := ident 3 1 2.
Definition b := ident 4 4 5.
Definition x := ident 5 15 16.
Definition arrow : node :=
  Node 2 "ArrowFunctionExpression" (0, 16) 1
    [("params", VArr [a; b]); ("body", VNode x)].
Definition statement : node :=
  Node 1 "ExpressionStatement" (0, 16) 1 [("expression", VNode arrow)].
Definition program : node :=
  Node 0 "Program" (0, 16) 1 [("body", VArr [statement])].
Definition c : Comment := mkComment 100 "Block" "c" (5, 10) 1 1.
Definition context : CommentContext :=
  mkContext c (Some b) (Some arrow) (Some x) source [] (Some program) true.
End ArrowInside.

(** [(a, b) /*c*/ => x] *)
Module ArrowBefore.
Definition source : string := "(a, b) /*c*/ => x".
Definition a := ident 3 1 2.
Definition b := ident 4 4 5.
Definition x := ident 5 16 17.
Definition arrow : node :=
  Node 2 "ArrowFunctionExpression" (0, 17) 1
    [("params", VArr [a; b]); ("body", VNode x)].
Definition statement : node :=
  Node 1 "ExpressionStatement" (0, 17) 1 [("expression", VNode arrow)].
Definition program : node :=
  Node 0 "Program" (0, 17) 1 [("body", VArr [statement])].
Definition c : Comment := mkComment 100 "Block" "c" (7, 12) 1 1.
Definition context : CommentContext :=
  mkContext c (Some b) (Some arrow) (Some x) source [] (Some program) true.
End ArrowBefore.

(** [if (a /*c*/) {}] *)
Module IfCondition.
Definition source : string := "if (a /*c*/) {}".
Definition a := ident 2 4 5.
Definition block : node := Node 3 "BlockStatement" (13, 15) 1 [("body", VArr [])].
Definition ifStatement : node :=
  Node 1 "IfStatement" (0, 15) 1
    [("test", VNode a); ("consequent", VNode block); ("alternate", VNull)].
Definition program : node :=
  Node 0 "Program" (0, 15) 1 [("body", VArr [ifStatement])].
Definition c : Comment := mkComment 100 "Block" "c" (6, 11) 1 1.
Definition context : CommentContext :=
  mkContext c (Some a) (Some ifStatement) (Some block) source []
    (Some program) true.
End IfCondition.

(** [while (a /*c*/) {}] *)
Module WhileCondition.
Definition source : string := "while (a /*c*/) {}".
Definition a := ident 2 7 8.
Definition block : node := Node 3 "BlockStatement" (16, 18) 1 [("body", VArr [])].
Definition whileStatement : node :=
  Node 1 "WhileStatement" (0, 18) 1
    [("test", VNode a); ("body", VNode block)].
Definition program : node :=
  Node 0 "Program" (0, 18) 1 [("body", VArr [whileStatement])].
Definition c : Comment := mkComment 100 "Block" "c" (9, 14) 1 1.
Definition context : CommentContext :=
  mkContext c (Some a) (Some whileStatement) (Some block) source []
    (Some program) true.
End WhileCondition.

(** [foo(/* none */)] *)
Module EmptyCall.
Definition source : string := "foo(/* none */)".
Definition foo := ident 3 0 3.
Definition call : node :=
  Node 2 "CallExpression" (0, 15) 1
    [("callee", VNode foo); ("arguments", VArr [])].
Definition statement : node :=
  Node 1 "ExpressionStatement" (0, 15) 1 [("expression", VNode call)].
Definition program : node :=
  Node 0 "Program" (0, 15) 1 [("body", VArr [statement])].
Definition c : Comment := mkComment 100 "Block" " none " (4, 14) 1 1.
Definition context : CommentContext :=
  mkContext c (Some foo) (Some call) None source [] (Some program) true.
End EmptyCall.

Definition nl : string := String "010" EmptyString.

(** [class A { m(/* c */) {} }] *)
Module EmptyMethod.
Definition source : string := "class A { m(/* c */) {} }".
Definition key := ident 5 10 11.
Definition body : node := Node 7 "BlockStatement" (21, 23) 1 [("body", VArr [])].
Definition fn : node :=
  Node 6 "FunctionExpression" (11, 23) 1
    [("params", VArr []); ("body", VNode body)].
Definition method : node :=
  Node 4 "MethodDefinition" (10, 23) 1
    [("key", VNode key); ("value", VNode fn)].
Definition classBody : node :=
  Node 3 "ClassBody" (8, 25) 1 [("body", VArr [method])].
Definition classDeclaration : node :=
  Node 1 "ClassDeclaration" (0, 25) 1
    [("id", VNode (ident 2 6 7)); ("body", VNode classBody)].
Definition program : node :=
  Node 0 "Program" (0, 25) 1 [("body", VArr [classDeclaration])].
Definition c : Comment := mkComment 100 "Block" " c " (12, 19) 1 1.
Definition context : CommentContext :=
  mkContext c (Some key) (Some method) (Some body) source []
    (Some program) true.
End EmptyMethod.

(** [if (1) { x; } // c], a line break, [ else { y; }] *)
Module BeforeElse.
Definition source : string := "if (1) { x; } // c" ++ nl ++ " else { y; }".
Definition consequent : node :=
  Node 3 "BlockStatement" (7, 13) 1
    [("body", VArr [Node 4 "ExpressionStatement" (9, 11) 1
                      [("expression", VNode (ident 5 9 10))]])].
Definition alternate : node :=
  Node 6 "BlockStatement" (25, 31) 2
    [("body", VArr [Node 7 "ExpressionStatement" (27, 29) 2
                      [("expression", VNode (ident 8 27 28))]])].
Definition ifStatement : node :=
  Node 1 "IfStatement" (0, 31) 1
    [("test", VNode (Node 2 "NumericLiteral" (4, 5) 1 []));
     ("consequent", VNode consequent); ("alternate", VNode alternate)].
Definition program : node :=
  Node 0 "Program" (0, 31) 1 [("body", VArr [ifStatement])].
Definition c : Comment := mkComment 100 "CommentLine" " c" (14, 18) 1 1.
(** The context, with the [options] the caller passes in it. *)
Definition context (context_options : obj) : CommentContext :=
  mkContext c (Some consequent) (Some ifStatement) (Some alternate) source
    context_options (Some program) true.
End BeforeElse.

(** [if (a) /* c */ { ; x; }] *)
Module IfBody.
Definition source : string := "if (a) /* c */ { ; x; }".
Definition a := ident 2 4 5.
Definition empty : node := Node 4 "EmptyStatement" (17, 18) 1 [].
Definition statement : node :=
  Node 5 "ExpressionStatement" (19, 21) 1
    [("expression", VNode (ident 6 19 20))].
Definition block : node :=
  Node 3 "BlockStatement" (15, 23) 1 [("body", VArr [empty; statement])].
Definition ifStatement : node :=
  Node 1 "IfStatement" (0, 23) 1
    [("test", VNode a); ("consequent", VNode block); ("alternate", VNull)].
Definition program : node :=
  Node 0 "Program" (0, 23) 1 [("body", VArr [ifStatement])].
Definition c : Comment := mkComment 100 "Block" " c " (7, 14) 1 1.
Definition context : CommentContext :=
  mkContext c (Some a) (Some ifStatement) (Some block) source []
    (Some program) true.
End IfBody.

(** [switch (x) { default: // c], a line break, [ { stmt; } }] *)
Module DefaultBlock.
Definition source : string :=
  "switch (x) { default: // c" ++ nl ++ " { stmt; } }".
Definition statement : node :=
  Node 5 "ExpressionStatement" (30, 35) 2
    [("expression", VNode (ident 6 30 34))].
Definition block : node :=
  Node 4 "BlockStatement" (28, 37) 2 [("body", VArr [statement])].
Definition defaultCase : node :=
  Node 3 "SwitchCase" (13, 37) 1
    [("test", VNull); ("consequent", VArr [block])].
Definition switchStatement : node :=
  Node 1 "SwitchStatement" (0, 39) 1
    [("discriminant", VNode (ident 2 8 9)); ("cases", VArr [defaultCase])].
Definition program : node :=
  Node 0 "Program" (0, 39) 1 [("body", VArr [switchStatement])].
Definition c : Comment := mkComment 100 "Line" " c" (22, 26) 1 1.
Definition context : CommentContext :=
  mkContext c None (Some defaultCase) (Some block) source []
    (Some program) true.
End DefaultBlock.

(** An own-line comment in a default case:
  [switch (x) {], [ default:], [ // c], [ foo();], [}] on five lines. *)
Module DefaultOwnLine.
Definition source : string :=
  "switch (x) {" ++ nl ++ " default:" ++ nl ++ " // c" ++ nl ++
  " foo();" ++ nl ++ "}".
Definition statement : node :=
  Node 4 "ExpressionStatement" (30, 36) 4
    [("expression",
      VNode (Node 5 "CallExpression" (30, 35) 4
               [("callee", VNode (Node 6 "Identifier" (30, 33) 4 []));
                ("arguments", VArr [])]))].
Definition defaultCase : node :=
  Node 3 "SwitchCase" (14, 36) 2
    [("test", VNull); ("consequent", VArr [statement])].
Definition switchStatement : node :=
  Node 1 "SwitchStatement" (0, 38) 1
    [("discriminant", VNode (ident 2 8 9)); ("cases", VArr [defaultCase])].
Definition program : node :=
  Node 0 "Program" (0, 38) 1 [("body", VArr [switchStatement])].
Definition c : Comment := mkComment 100 "Line" " c" (24, 28) 3 3.
Definition context : CommentContext :=
  mkContext c None (Some defaultCase) (Some statement) source []
    (Some program) true.
End DefaultOwnLine.

(** A default case without statements and a comment before its colon:
  [switch (x) { default // c], a line break, [ : }] *)
Module DefaultAlone.
Definition source : string := "switch (x) { default // c" ++ nl ++ " : }".
Definition defaultCase : node :=
  Node 3 "SwitchCase" (13, 28) 1
    [("test", VNull); ("consequent", VArr [])].
Definition switchStatement : node :=
  Node 1 "SwitchStatement" (0, 30) 1
    [("discriminant", VNode (ident 2 8 9)); ("cases", VArr [defaultCase])].
Definition program : node :=
  Node 0 "Program" (0, 30) 1 [("body", VArr [switchStatement])].
Definition c : Comment := mkComment 100 "Line" " c" (21, 25) 1 1.
Definition context : CommentContext :=
  mkContext c None (Some defaultCase) None source [] (Some program) true.
End DefaultAlone.

(** A suppression marker on its own line inside a mapped type:
  [type A = {], [ // prettier-ignore], [ [K in keyof T]: T[K]], [}] *)
Module MappedType.
Definition source : string :=
  "type A = {" ++ nl ++ " // prettier-ignore" ++ nl ++
  " [K in keyof T]: T[K]" ++ nl ++ "}".
Definition constraint : node := Node 5 "TSTypeOperator" (38, 45) 3 [].
Definition typeParameter : node :=
  Node 4 "TSTypeParameter" (33, 45) 3
    [("name", VNode (Node 8 "Identifier" (33, 34) 3 []));
     ("constraint", VNode constraint)].
Definition mapped : node :=
  Node 3 "TSMappedType" (9, 54) 1
    [("typeParameter", VNode typeParameter);
     ("typeAnnotation", VNode (Node 6 "TSIndexedAccessType" (48, 52) 3 []))].
Definition alias : node :=
  Node 1 "TSTypeAliasDeclaration" (0, 54) 1
    [("id", VNode (ident 2 5 6)); ("typeAnnotation", VNode mapped)].
Definition program : node :=
  Node 0 "Program" (0, 54) 1 [("body", VArr [alias])].
Definition c : Comment :=
  mkComment 100 "Line" " prettier-ignore" (12, 30) 2 2.
Definition context : CommentContext :=
  mkContext c None (Some mapped) (Some typeParameter) source []
    (Some program) true.
End MappedType.

(** A context that the typedef admits: a suppression marker on its own
  line whose enclosing node is a union type, with a preceding member
  and nothing following. *)
Module UnionNoFollowing.
Definition source : string :=
  "type A = (" ++ nl ++ " | B" ++ nl ++ " // prettier-ignore" ++ nl ++ ");".
Definition member : node := Node 4 "TSTypeReference" (14, 15) 2 [].
Definition union : node :=
  Node 3 "TSUnionType" (9, 37) 1 [("types", VArr [member])].
Definition program : node :=
  Node 0 "Program" (0, 38) 1
    [("body", VArr [Node 1 "TSTypeAliasDeclaration" (0, 38) 1
                      [("id", VNode (ident 2 5 6));
                       ("typeAnnotation", VNode union)]])].
Definition c : Comment :=
  mkComment 100 "Line" " prettier-ignore" (17, 35) 3 3.
Definition context : CommentContext :=
  mkContext c (Some member) (Some union) None source [] (Some program) true.
End UnionNoFollowing.

(** [const x = /** @type {Foo} */], a line break, [ (y);] *)
Module TypeCast.
Definition source : string :=
  "const x = /** @type {Foo} */" ++ nl ++ " (y);".
Definition x : node := Node 3 "Identifier" (6, 7) 1 [].
Definition y : node := Node 4 "Identifier" (31, 32) 2 [].
Definition declarator : node :=
  Node 2 "VariableDeclarator" (6, 33) 1
    [("id", VNode x); ("init", VNode y)].
Definition program : node :=
  Node 0 "Program" (0, 34) 1
    [("body", VArr [Node 1 "VariableDeclaration" (0, 34) 1
                      [("declarations", VArr [declarator])]])].
Definition c : Comment :=
  mkComment 100 "Block" "* @type {Foo} " (10, 28) 1 1.
Definition context : CommentContext :=
  mkContext c (Some x) (Some declarator) (Some y) source []
    (Some program) true.
End TypeCast.

End Examples.

(** ** Vocabulary of the properties *)

(** [m] appends the comment [c] exactly once whenever it returns. *)
Definition appends (c : nat) (m : M unit) : Prop :=
  forall st0 st u st', unchanged st0 st -> m st = Ok (u, st') ->
    appended_once c st0 st'.

(** [m] is a handler for [c]: returning [true] it has appended [c]
    exactly once, or it is in the [silent] situation and has appended
    nothing; returning [false] it has appended nothing. *)
Definition claims (c : nat) (silent : Prop) (m : M bool) : Prop :=
  forall st0 st b st', unchanged st0 st -> m st = Ok (b, st') ->
    if b then appended_once c st0 st' \/ (silent /\ unchanged st0 st')
    else unchanged st0 st'.

(** The entry that stands for comment [c] in a comment list. *)
Definition entry (c : Comment) (marker : option string) : Entry :=
  mkEntry (cid c) marker.

(** [node.body || node.properties]: the children among which
    [addBlockStatementFirstComment] searches. *)
Definition block_children (n : node) : value :=
  if truthy (prop "body" n) then prop "body" n else prop "properties" n.

(** The first statement of a block that is not an [EmptyStatement]. *)
Definition first_non_empty (stmts : list node) : option node :=
  List.find (fun n => negb (String.eqb (ntype n) "EmptyStatement")) stmts.

(** The store after the comment went to a block with the statements
    [stmts]: leading on the first non-empty statement, dangling on the
    block when there is none. *)
Definition block_first_comment (block : node) (stmts : list node)
    (c : Comment) (st : Store) : Store :=
  match first_non_empty stmts with
  | Some first => attach Leading (nid first) (entry c None) st
  | None => attach Dangling (nid block) (entry c None) st
  end.

(** The root is a program without statements. *)
Definition program_is_empty (root : option node) : bool :=
  match root with
  | Some a => match prop "body" a with VArr [] => true | _ => false end
  | None => false
  end.

(** The two tests of lines 210-214. *)
Definition single_line (c : Comment) : bool :=
  String.eqb (ctype c) "SingleLine" || (cline_start c =? cline_end c).
Definition same_line (c : Comment) (n : node) : bool :=
  cline_start c =? nline n.

(** The decision of lines 207-227 for a comment between the consequent
    [p] and the alternate of the if-statement [e], given whether the
    cuddled style applies: trailing on a consequent block in the cuddled
    style; else dangling on the consequent, with the marker, for a
    single-line comment on the line of the consequent; else dangling on
    the if-statement. *)
Definition else_decision {U : JsUtils} (cuddled : bool) (c : Comment)
    (p e : node) (st : Store) : Store :=
  if String.eqb (ntype p) "BlockStatement" && cuddled then
    attach Trailing (nid p) (entry c None) st
  else if single_line c && same_line c p then
    attach Dangling (nid p)
      (entry c (Some markerForIfWithoutBlockAndSameLineComment)) st
  else
    attach Dangling (nid e) (entry c None) st.

(** The style as the code takes it: [!options.breakBeforeElse] on the
    module-level object that line 207 reads. *)
Definition module_cuddled {U : JsUtils} : bool :=
  negb (truthy (lookup_prop "breakBeforeElse" options)).

(** The style as the claim about comments before [else] takes it: the
    configuration carried in the context selects the cuddled style, that
    is, does not set [breakBeforeElse]. *)
Definition context_cuddled (ctx : CommentContext) : bool :=
  negb (truthy (lookup_prop "breakBeforeElse" (context_options ctx))).

(** The enclosing node is a statement of one of the three shapes whose
    rules are studied below. *)
Definition statement_shape (e : node) : Prop :=
  ntype e = "IfStatement" \/ ntype e = "WhileStatement" \/
  ntype e = "SwitchCase".

(** The context [ctx] with other [options]. *)
Definition with_context_options (ctx : CommentContext) (o : obj)
    : CommentContext :=
  mkContext (comment ctx) (precedingNode ctx) (enclosingNode ctx)
    (followingNode ctx) (text ctx) o (ast ctx) (isLastComment ctx).

(** The imports of the reference instance, with an [options] object
    that does not set [breakBeforeElse]. *)
Definition reference_utils : JsUtils := Reference.utils [].

(** The same imports, with [breakBeforeElse] set in the [options]
    object of [./options.js]. *)
Definition reference_utils_break : JsUtils :=
  Reference.utils [("breakBeforeElse", VBool true)].

(** ** The other exports of [comments.js] *)

(** The position of the printer in the tree (typedef [AstPath] of
    [../common/ast-path]): the node at the position and its parent,
    [null] when there is none. *)
Record AstPath : Type := mkPath {
  getValue : value;
  getParentNode : value
}.

(** [CommentCheckFlags] of [./utils/index.js], as far as
    [comments.js] names its members. *)
Module CommentCheckFlags.
Inductive t : Type := Leading | Trailing.
End CommentCheckFlags.

(** The functions that only [willPrintOwnComments] requires from
    [./utils/index.js], a file that is not verified here. *)
Class PrintUtils : Type := {
  isJsxNode : value -> bool;
  hasFlowShorthandAnnotationComment : value -> bool;
  hasFlowAnnotationComment : list Comment -> bool;
  getComments : value -> CommentCheckFlags.t -> list Comment;
  hasIgnoreComment : AstPath -> bool
}.

(** A value as the argument of a helper that takes a node or nothing. *)
Definition as_option (v : value) : option node :=
  match v with VNode n => Some n | _ => None end.

(** [v.k] on a value that has been tested to be truthy: [undefined] on
    a value without the property. *)
Definition field (k : string) (v : value) : value :=
  match v with
  | VNode n => prop k n
  | _ => VUndefined
  end.

(** [v.type === t] on a value that has been tested to be truthy. *)
Definition has_type (v : value) (t : string) : bool :=
  match v with
  | VNode n => String.eqb (ntype n) t
  | _ => false
  end.

Section Exports.

Context {U : JsUtils} {P : PrintUtils}.

(** [getCommentChildNodes], lines 928-953.  [parser] is
    [options.parser]; the result is [None] when the function ends
    without a [return].  The spread of [node.decorators] raises a type
    error on a truthy value that is no array. *)
Definition getCommentChildNodes (node : node) (parser : string)
    : result (option (list value)) :=
  if (String.eqb parser "typescript" ||
      String.eqb parser "flow" ||
      String.eqb parser "acorn" ||
      String.eqb parser "espree" ||
      String.eqb parser "meriyah" ||
      String.eqb parser "__babel_estree") &&
     String.eqb (ntype node) "MethodDefinition" &&
     match prop "value" node with
     | VNode value =>
         String.eqb (ntype value) "FunctionExpression" &&
         (Z.of_nat (length (getFunctionParameters value)) =? 0) &&
         negb (truthy (prop "returnType" value)) &&
         negb (isNonEmptyArray (prop "typeParameters" value)) &&
         truthy (prop "body" value)
     | _ => false
     end
  then
    match prop "value" node with
    | VNode value =>
        let rest := [prop "key" node; prop "body" value] in
        match prop "decorators" node with
        | VArr decorators => Ok (Some (map VNode decorators ++ rest))
        | VUndefined | VNull | VBool false => Ok (Some rest)
        | VNode _ | VBool true => TypeError
        end
    | _ => TypeError
    end
  else Ok None.

(** [willPrintOwnComments], lines 974-999.  The result is the value of
    the expression, which is the operand that decided it: a boolean, or
    the falsy node or parent. *)
Definition willPrintOwnComments (path : AstPath) : result value :=
  let node := getValue path in
  let parent := getParentNode path in
  let hasFlowAnnotations (node : value) :=
    hasFlowAnnotationComment (getComments node CommentCheckFlags.Leading) ||
    hasFlowAnnotationComment (getComments node CommentCheckFlags.Trailing) in
  let ofNode :=
    if truthy node then
      VBool (isJsxNode node ||
             hasFlowShorthandAnnotationComment node ||
             (isCallExpression (as_option parent) && hasFlowAnnotations node))
    else node in
  let ofParent :=
    if truthy parent then
      VBool (has_type parent "JSXSpreadAttribute" ||
             has_type parent "JSXSpreadChild" ||
             has_type parent "UnionTypeAnnotation" ||
             has_type parent "TSUnionType" ||
             ((has_type parent "ClassDeclaration" ||
               has_type parent "ClassExpression") &&
              strict_eq (field "superClass" parent) node))
    else parent in
  let printsOwn := if truthy ofNode then ofNode else ofParent in
  if truthy printsOwn then
    if negb (hasIgnoreComment path) then Ok (VBool true)
    else
      match parent with
      | VUndefined | VNull => TypeError
      | _ =>
          Ok (VBool (has_type parent "UnionTypeAnnotation" ||
                     has_type parent "TSUnionType"))
      end
  else Ok printsOwn.

End Exports.

(** ** Vocabulary of the invariants of a run *)

(** The flag sets are the same in [st] and [st']. *)
Definition flags_unchanged (st st' : Store) : Prop :=
  prettierIgnore st' = prettierIgnore st /\ unignore st' = unignore st.

(** [st'] is [st] after some pairs of flag writes
    [node.prettierIgnore = true; comment.unignore = true] for the comment
    [c]; such a pair is written only where [ok] holds. *)
Inductive flagged (ok : Prop) (c : nat) : Store -> Store -> Prop :=
  | flagged_refl st : flagged ok c st st
  | flagged_step st st1 n :
      ok -> flagged ok c st st1 ->
      flagged ok c st (flag_unignore c (flag_prettierIgnore n st1)).

(** The marker that a handler may put on the entry it appends to the
    list of role [r] of node [n]: none; or, on a dangling comment, the
    same-line marker on the preceding node inside an if-statement, or
    the name of a heritage list on the enclosing class-like node. *)
Definition marker_ok {U : JsUtils} (ctx : CommentContext)
    (r : Role) (n : nat) (mk : option string) : Prop :=
  match mk with
  | None => True
  | Some m =>
      r = Dangling /\
      ((m = markerForIfWithoutBlockAndSameLineComment /\
        type_is (enclosingNode ctx) "IfStatement" = true /\
        exists p, precedingNode ctx = Some p /\ n = nid p) \/
       (In m ["implements"; "extends"; "mixins"] /\
        set_has classLikeNodeTypes (enclosingNode ctx) = true /\
        exists e, enclosingNode ctx = Some e /\ n = nid e))
  end.

(** What a handler for the comment [c] does to the store it starts
    from: it writes flags only where [ok] holds; returning [true] it has
    appended one entry for [c], with an [allowed] role, owner and
    marker, or it is in the [silent] situation and has appended nothing;
    returning [false] it has appended nothing. *)
Definition effect (c : nat) (ok : Prop)
    (allowed : Role -> nat -> option string -> Prop) (silent : Prop)
    (m : M bool) : Prop :=
  forall st b st', m st = Ok (b, st') ->
    if b then
      (exists st1 r n mk,
         flagged ok c st st1 /\
         st' = attach r n (mkEntry c mk) st1 /\ allowed r n mk) \/
      (silent /\ flagged ok c st st')
    else flagged ok c st st'.

(** No marker. *)
Definition unmarked (r : Role) (n : nat) (mk : option string) : Prop :=
  mk = None.

(** The description that fits every handler of the three chains. *)
Definition chain_effect {U : JsUtils} (ctx : CommentContext) (m : M bool)
    : Prop :=
  effect (cid (comment ctx)) (isPrettierIgnoreComment (comment ctx) = true)
    (marker_ok ctx) (ignore_claim ctx) m.

(** [l] holds at most an entry of the comment [c1] followed by at most
    an entry of the comment [c2]. *)
Definition in_processing_order (c1 c2 : nat) (l : list Entry) : Prop :=
  map e_comment l = [] \/ map e_comment l = [c1] \/
  map e_comment l = [c2] \/ map e_comment l = [c1; c2].

(** ** Vocabulary of the further rules *)

(** The array [v] starts with the node [f]: [v && f === v[0]]. *)
Definition starts_with (v : value) (f : node) : bool :=
  match v with
  | VArr (x :: _) => Nat.eqb (nid x) (nid f)
  | _ => false
  end.

(** [p] is the [id], the [typeParameters] or the [superClass] of the
    class-like node [e]: the nodes after which a comment before a
    heritage list is kept. *)
Definition class_head (e p : node) : bool :=
  strict_eq (VNode p) (prop "id" e) ||
  strict_eq (VNode p) (prop "typeParameters" e) ||
  strict_eq (VNode p) (prop "superClass" e).

(** The three heritage lists, in the order of the loop of lines
    430-444. *)
Definition heritage_lists : list string := ["implements"; "extends"; "mixins"].

(** [e] is a union type. *)
Definition is_union (e : node) : bool :=
  String.eqb (ntype e) "UnionTypeAnnotation" ||
  String.eqb (ntype e) "TSUnionType".

(** ** Further sources *)

Module MoreExamples.

(** [while (a) break /* c */;] *)
Module Break.
Definition source : string := "while (a) break /* c */;".
Definition a := Examples.ident 2 7 8.
Definition breakStatement : node :=
  Node 3 "BreakStatement" (10, 24) 1 [("label", VNull)].
Definition whileStatement : node :=
  Node 1 "WhileStatement" (0, 24) 1
    [("test", VNode a); ("body", VNode breakStatement)].
Definition program : node :=
  Node 0 "Program" (0, 24) 1 [("body", VArr [whileStatement])].
Definition c : Comment := mkComment 100 "Block" " c " (16, 23) 1 1.
Definition context : CommentContext :=
  mkContext c None (Some breakStatement) None source [] (Some program) true.
End Break.

(** [foo(/* a */ /* b */)]: two comments, processed in this order. *)
Module TwoComments.
Definition source : string := "foo(/* a */ /* b */)".
Definition foo := Examples.ident 3 0 3.
Definition call : node :=
  Node 2 "CallExpression" (0, 20) 1
    [("callee", VNode foo); ("arguments", VArr [])].
Definition statement : node :=
  Node 1 "ExpressionStatement" (0, 20) 1 [("expression", VNode call)].
Definition program : node :=
  Node 0 "Program" (0, 20) 1 [("body", VArr [statement])].
Definition a : Comment := mkComment 100 "Block" " a " (4, 11) 1 1.
Definition b : Comment := mkComment 101 "Block" " b " (12, 19) 1 1.
Definition first : CommentContext :=
  mkContext a (Some foo) (Some call) None source [] (Some program) false.
Definition second : CommentContext :=
  mkContext b (Some foo) (Some call) None source [] (Some program) true.
End TwoComments.

(** [// only]: a program without statements. *)
Module EmptyProgram.
Definition source : string := "// only".
Definition program : node := Node 0 "Program" (0, 7) 1 [("body", VArr [])].
Definition c : Comment := mkComment 100 "Line" " only" (0, 7) 1 1.
Definition context : CommentContext :=
  mkContext c None (Some program) None source [] (Some program) true.
End EmptyProgram.

(** [try {} /* c */ catch (e) { x; }] *)
Module TryCatch.
Definition source : string := "try {} /* c */ catch (e) { x; }".
Definition block : node := Node 2 "BlockStatement" (4, 6) 1 [("body", VArr [])].
Definition statement : node :=
  Node 6 "ExpressionStatement" (27, 29) 1
    [("expression", VNode (Examples.ident 7 27 28))].
Definition body : node :=
  Node 5 "BlockStatement" (25, 31) 1 [("body", VArr [statement])].
Definition handler : node :=
  Node 3 "CatchClause" (15, 31) 1
    [("param", VNode (Examples.ident 4 22 23)); ("body", VNode body)].
Definition tryStatement : node :=
  Node 1 "TryStatement" (0, 31) 1
    [("block", VNode block); ("handler", VNode handler);
     ("finalizer", VNull)].
Definition program : node :=
  Node 0 "Program" (0, 31) 1 [("body", VArr [tryStatement])].
Definition c : Comment := mkComment 100 "Block" " c " (7, 14) 1 1.
Definition context : CommentContext :=
  mkContext c (Some block) (Some tryStatement) (Some handler) source []
    (Some program) true.
End TryCatch.

(** [(class /* c */ implements B {})] *)
Module Heritage.
Definition source : string := "(class /* c */ implements B {})".
Definition b : node := Node 3 "TSClassImplements" (26, 27) 1 [].
Definition classBody : node := Node 4 "ClassBody" (28, 30) 1 [("body", VArr [])].
Definition classExpression : node :=
  Node 2 "ClassExpression" (1, 30) 1
    [("id", VNull); ("superClass", VNull); ("implements", VArr [b]);
     ("body", VNode classBody)].
Definition statement : node :=
  Node 1 "ExpressionStatement" (0, 31) 1
    [("expression", VNode classExpression)].
Definition program : node :=
  Node 0 "Program" (0, 31) 1 [("body", VArr [statement])].
Definition c : Comment := mkComment 100 "Block" " c " (7, 14) 1 1.
Definition context : CommentContext :=
  mkContext c None (Some classExpression) (Some b) source []
    (Some program) true.
End Heritage.

(** A suppression marker before the first member of a union type:
  [type A =], [  // prettier-ignore], [  | B], [  | C;] on four lines. *)
Module UnionFirst.
Definition source : string :=
  "type A =" ++ Examples.nl ++ "  // prettier-ignore" ++ Examples.nl ++
  "  | B" ++ Examples.nl ++ "  | C;".
Definition b : node := Node 4 "TSTypeReference" (34, 35) 3 [].
Definition c' : node := Node 5 "TSTypeReference" (40, 41) 4 [].
Definition union : node :=
  Node 3 "TSUnionType" (32, 41) 3 [("types", VArr [b; c'])].
Definition program : node :=
  Node 0 "Program" (0, 42) 1
    [("body", VArr [Node 1 "TSTypeAliasDeclaration" (0, 42) 1
                      [("id", VNode (Examples.ident 2 5 6));
                       ("typeAnnotation", VNode union)]])].
Definition c : Comment :=
  mkComment 100 "Line" " prettier-ignore" (11, 29) 2 2.
Definition context : CommentContext :=
  mkContext c None (Some union) (Some b) source [] (Some program) false.
End UnionFirst.

(** [if (a) /* c */ b;] *)
Module IfPlain.
Definition source : string := "if (a) /* c */ b;".
Definition a := Examples.ident 2 4 5.
Definition statement : node :=
  Node 3 "ExpressionStatement" (15, 17) 1
    [("expression", VNode (Examples.ident 4 15 16))].
Definition ifStatement : node :=
  Node 1 "IfStatement" (0, 17) 1
    [("test", VNode a); ("consequent", VNode statement);
     ("alternate", VNull)].
Definition program : node :=
  Node 0 "Program" (0, 17) 1 [("body", VArr [ifStatement])].
Definition c : Comment := mkComment 100 "Block" " c " (7, 14) 1 1.
Definition context : CommentContext :=
  mkContext c (Some a) (Some ifStatement) (Some statement) source []
    (Some program) true.
End IfPlain.

(** [a: /* c */ x;] *)
Module Labeled.
Definition source : string := "a: /* c */ x;".
Definition label := Examples.ident 2 0 1.
Definition statement : node :=
  Node 3 "ExpressionStatement" (11, 13) 1
    [("expression", VNode (Examples.ident 4 11 12))].
Definition labeledStatement : node :=
  Node 1 "LabeledStatement" (0, 13) 1
    [("label", VNode label); ("body", VNode statement)].
Definition program : node :=
  Node 0 "Program" (0, 13) 1 [("body", VArr [labeledStatement])].
Definition c : Comment := mkComment 100 "Block" " c " (3, 10) 1 1.
Definition context : CommentContext :=
  mkContext c (Some label) (Some labeledStatement) (Some statement) source []
    (Some program) true.
End Labeled.

(** A plain comment on its own line inside a mapped type:
  [type A = {], [ // keys], [ [K in keyof T]: T[K]], [}] *)
Module MappedPlain.
Definition source : string :=
  "type A = {" ++ Examples.nl ++ " // keys" ++ Examples.nl ++
  " [K in keyof T]: T[K]" ++ Examples.nl ++ "}".
Definition name : node := Node 8 "Identifier" (22, 23) 3 [].
Definition constraint : node := Node 5 "TSTypeOperator" (27, 34) 3 [].
Definition typeParameter : node :=
  Node 4 "TSTypeParameter" (22, 34) 3
    [("name", VNode name); ("constraint", VNode constraint)].
Definition mapped : node :=
  Node 3 "TSMappedType" (9, 43) 1
    [("typeParameter", VNode typeParameter);
     ("typeAnnotation", VNode (Node 6 "TSIndexedAccessType" (37, 41) 3 []))].
Definition alias : node :=
  Node 1 "TSTypeAliasDeclaration" (0, 43) 1
    [("id", VNode (Examples.ident 2 5 6)); ("typeAnnotation", VNode mapped)].
Definition program : node :=
  Node 0 "Program" (0, 43) 1 [("body", VArr [alias])].
Definition c : Comment := mkComment 100 "Line" " keys" (12, 19) 2 2.
Definition context : CommentContext :=
  mkContext c None (Some mapped) (Some typeParameter) source []
    (Some program) true.
End MappedPlain.

(** A comment after the question mark of a conditional expression
  whose test ends on the line before: [a], [ ? // c], [ b : d;] on three
  lines. *)
Module Conditional.
Definition source : string :=
  "a" ++ Examples.nl ++ " ? // c" ++ Examples.nl ++ " b : d;".
Definition a : node := Node 3 "Identifier" (0, 1) 1 [].
Definition b : node := Node 4 "Identifier" (11, 12) 3 [].
Definition d : node := Node 5 "Identifier" (15, 16) 3 [].
Definition conditional : node :=
  Node 2 "ConditionalExpression" (0, 16) 1
    [("test", VNode a); ("consequent", VNode b); ("alternate", VNode d)].
Definition program : node :=
  Node 0 "Program" (0, 17) 1
    [("body", VArr [Node 1 "ExpressionStatement" (0, 17) 1
                      [("expression", VNode conditional)]])].
Definition c : Comment := mkComment 100 "Line" " c" (5, 9) 2 2.
Definition context : CommentContext :=
  mkContext c (Some a) (Some conditional) (Some b) source []
    (Some program) true.
End Conditional.

(** [const x = // c], a line break, [ {};] *)
Module Assignment.
Definition source : string := "const x = // c" ++ Examples.nl ++ " {};".
Definition x : node := Node 3 "Identifier" (6, 7) 1 [].
Definition object : node :=
  Node 4 "ObjectExpression" (16, 18) 2 [("properties", VArr [])].
Definition declarator : node :=
  Node 2 "VariableDeclarator" (6, 18) 1
    [("id", VNode x); ("init", VNode object)].
Definition program : node :=
  Node 0 "Program" (0, 19) 1
    [("body", VArr [Node 1 "VariableDeclaration" (0, 19) 1
                      [("declarations", VArr [declarator])]])].
Definition c : Comment := mkComment 100 "Line" " c" (10, 14) 1 1.
Definition context : CommentContext :=
  mkContext c (Some x) (Some declarator) (Some object) source []
    (Some program) true.
End Assignment.

(** [function f /* c */ () {}] *)
Module FunctionName.
Definition source : string := "function f /* c */ () {}".
Definition f : node := Node 2 "Identifier" (9, 10) 1 [].
Definition body : node :=
  Node 3 "BlockStatement" (22, 24) 1 [("body", VArr [])].
Definition declaration : node :=
  Node 1 "FunctionDeclaration" (0, 24) 1
    [("id", VNode f); ("params", VArr []); ("body", VNode body)].
Definition program : node :=
  Node 0 "Program" (0, 24) 1 [("body", VArr [declaration])].
Definition c : Comment := mkComment 100 "Block" " c " (11, 18) 1 1.
Definition context : CommentContext :=
  mkContext c (Some f) (Some declaration) (Some body) source []
    (Some program) true.
End FunctionName.

(** Stand-ins for the imports of [willPrintOwnComments], to run it on
    the paths below: a JSX node is an element or a fragment, no comment
    is a Flow annotation, and [ignored] tells whether a path has a
    suppression marker. *)
Definition print_utils (ignored : bool) : PrintUtils :=
  Build_PrintUtils
    (fun v => has_type v "JSXElement" || has_type v "JSXFragment")
    (fun _ => false)
    (fun _ => false)
    (fun _ _ => [])
    (fun _ => ignored).

(** A JSX element at the root of the tree, and a member of the union
    type of [UnionFirst]. *)
Definition jsx_root : AstPath :=
  mkPath (VNode (Node 1 "JSXElement" (0, 5) 1 [])) VNull.
Definition union_member : AstPath :=
  mkPath (VNode UnionFirst.b) (VNode UnionFirst.union).

End MoreExamples.

(** * Properties *)

Arguments attach : simpl never.
Arguments flag_prettierIgnore : simpl never.
Arguments flag_unignore : simpl never.
Arguments node_comments : simpl never.

(** ** The store relations *)

Lemma unchanged_refl st : unchanged st st.
Proof. by intros r n. Qed.

Lemma unchanged_trans st1 st2 st3 :
  unchanged st1 st2 -> unchanged st2 st3 -> unchanged st1 st3.
Proof. intros H12 H23 r n. by rewrite H23, H12. Qed.

Lemma flag_prettierIgnore_unchanged st st' n :
  unchanged st st' -> unchanged st (flag_prettierIgnore n st').
Proof. intros H r m. rewrite <- H. by destruct r. Qed.

Lemma flag_unignore_unchanged st st' c :
  unchanged st st' -> unchanged st (flag_unignore c st').
Proof. intros H r m. rewrite <- H. by destruct r. Qed.

Lemma node_comments_attach r n e st r' n' :
  node_comments (attach r n e st) r' n' =
    if decide (r' = r /\ n' = n)
    then node_comments st r n ++ [e]
    else node_comments st r' n'.
Proof.
  unfold node_comments.
  destruct (decide (r' = r /\ n' = n)) as [[-> ->]|Hne].
  - destruct r; simpl; by rewrite lookup_insert_eq.
  - destruct r, r'; simpl; try reflexivity;
      (rewrite lookup_insert_ne; [done | intros ->; by apply Hne]).
Qed.

Lemma attach_appended st st' r n c mk :
  unchanged st st' -> appended_once c st (attach r n (mkEntry c mk) st').
Proof.
  intros H. exists r, n, mk. intros r' n'.
  rewrite node_comments_attach. case_decide; by rewrite !H.
Qed.

(** A run that leaves every list as it was has not appended. *)
Lemma unchanged_not_appended c st st' :
  unchanged st st' -> ~ appended_once c st st'.
Proof.
  intros H (r & n & mk & Ha). specialize (Ha r n).
  rewrite decide_True in Ha by done. rewrite H in Ha.
  apply (f_equal length) in Ha. rewrite length_app in Ha. simpl in Ha. lia.
Qed.

(** An append grows the owner's list by one and no other list. *)
Lemma appended_once_length c st st' :
  appended_once c st st' ->
  exists r n,
    length (node_comments st' r n) = S (length (node_comments st r n)) /\
    forall r' n', (r', n') <> (r, n) ->
      node_comments st' r' n' = node_comments st r' n'.
Proof.
  intros (r & n & mk & Ha). exists r, n. split.
  - rewrite Ha, decide_True by done. rewrite length_app. simpl. lia.
  - intros r' n' Hne. rewrite Ha, decide_False; [done|].
    intros [-> ->]. by apply Hne.
Qed.

(** ** What each handler does to the comment lists *)

Section Commitment.

Context {U : JsUtils}.

Ltac unfold_js :=
  unfold andM, orM, notM, cond, getp, set_prettierIgnore, set_unignore,
    deref, get, get_type_is, get_length, get_first, as_node, find_node,
    bind, ret, throw, modify.

Ltac brute :=
  repeat first [ progress simplify_eq/= | case_match ].

Lemma addLeadingComment_appends v c : appends (cid c) (addLeadingComment v c).
Proof.
  intros st0 st u st' H0. unfold addLeadingComment. unfold_js.
  intros E; brute. by apply attach_appended.
Qed.

Lemma addTrailingComment_appends v c :
  appends (cid c) (addTrailingComment v c).
Proof.
  intros st0 st u st' H0. unfold addTrailingComment. unfold_js.
  intros E; brute. by apply attach_appended.
Qed.

Lemma addDanglingComment_appends v c mk :
  appends (cid c) (addDanglingComment v c mk).
Proof.
  intros st0 st u st' H0. unfold addDanglingComment. unfold_js.
  intros E; brute. by apply attach_appended.
Qed.

Lemma addBlockStatementFirstComment_appends v c :
  appends (cid c) (addBlockStatementFirstComment v c).
Proof.
  intros st0 st u st' H0. unfold addBlockStatementFirstComment. unfold_js.
  intros E. brute;
    first [ eapply addLeadingComment_appends; eassumption
          | eapply addDanglingComment_appends; eassumption ].
Qed.

Lemma addBlockOrNotComment_appends v c :
  appends (cid c) (addBlockOrNotComment v c).
Proof.
  intros st0 st u st' H0. unfold addBlockOrNotComment. unfold_js.
  intros E. brute;
    first [ eapply addLeadingComment_appends; eassumption
          | eapply addBlockStatementFirstComment_appends; eassumption ].
Qed.

Create HintDb commit.
#[local] Hint Resolve unchanged_refl flag_prettierIgnore_unchanged
  flag_unignore_unchanged : commit.

(** Close a leaf of the case analysis: the final store is the initial
    one after flag writes and at most one attachment. *)
Ltac finish :=
  try done;
  try (left;
       first [ eapply addLeadingComment_appends; [|eassumption]
             | eapply addTrailingComment_appends; [|eassumption]
             | eapply addDanglingComment_appends; [|eassumption]
             | eapply addBlockStatementFirstComment_appends; [|eassumption]
             | eapply addBlockOrNotComment_appends; [|eassumption] ]);
  eauto 6 with commit.

Tactic Notation "handler" reference(h) :=
  let st0 := fresh "st0" in
  let H0 := fresh "H0" in
  let E := fresh "E" in
  intros [comment0 preceding enclosing following text0 opts root lastFlag]
         st0 ? ? ? H0;
  unfold h; unfold_js; intros E; brute; finish.

Lemma handleClosureTypeCastComments_claims ctx :
  claims (cid (comment ctx)) False (handleClosureTypeCastComments ctx).
Proof. revert ctx. handler handleClosureTypeCastComments. Qed.

Lemma handleIfStatementComments_claims ctx :
  claims (cid (comment ctx)) False (handleIfStatementComments ctx).
Proof. revert ctx. handler handleIfStatementComments. Qed.

Lemma handleWhileComments_claims ctx :
  claims (cid (comment ctx)) False (handleWhileComments ctx).
Proof. revert ctx. handler handleWhileComments. Qed.

Lemma handleTryStatementComments_claims ctx :
  claims (cid (comment ctx)) False (handleTryStatementComments ctx).
Proof. revert ctx. handler handleTryStatementComments. Qed.

Lemma handleMemberExpressionComments_claims ctx :
  claims (cid (comment ctx)) False (handleMemberExpressionComments ctx).
Proof. revert ctx. handler handleMemberExpressionComments. Qed.

Lemma handleConditionalExpressionComments_claims ctx :
  claims (cid (comment ctx)) False (handleConditionalExpressionComments ctx).
Proof. revert ctx. handler handleConditionalExpressionComments. Qed.

Lemma handleObjectPropertyAssignment_claims ctx :
  claims (cid (comment ctx)) False (handleObjectPropertyAssignment ctx).
Proof. revert ctx. handler handleObjectPropertyAssignment. Qed.

Lemma handleClassComments_loop_claims propNames c p e f :
  claims (cid c) False (handleClassComments_loop propNames c p e f).
Proof.
  induction propNames as [|name propNames IH]; intros st0 st b st' H0; simpl.
  - unfold_js. intros; simplify_eq. done.
  - unfold_js. intros E. brute; finish;
      match goal with
      | H : handleClassComments_loop _ _ _ _ _ _ = Ok _ |- _ =>
          eapply IH in H; [exact H | eassumption]
      end.
Qed.

Lemma handleClassComments_claims ctx :
  claims (cid (comment ctx)) False (handleClassComments ctx).
Proof.
  destruct ctx as
    [comment0 preceding enclosing following text0 opts root lastFlag].
  intros st0 st b st' H0. unfold handleClassComments.
  generalize ["implements"; "extends"; "mixins"]. intros propNames.
  unfold_js. intros E. brute; finish;
    match goal with
    | H : handleClassComments_loop _ _ _ _ _ _ = Ok _ |- _ =>
        eapply handleClassComments_loop_claims in H; [exact H | eassumption]
    end.
Qed.

Lemma handleMethodNameComments_claims ctx :
  claims (cid (comment ctx)) False (handleMethodNameComments ctx).
Proof. revert ctx. handler handleMethodNameComments. Qed.

Lemma handleFunctionNameComments_claims ctx :
  claims (cid (comment ctx)) False (handleFunctionNameComments ctx).
Proof. revert ctx. handler handleFunctionNameComments. Qed.

Lemma handleCommentAfterArrowParams_claims ctx :
  claims (cid (comment ctx)) False (handleCommentAfterArrowParams ctx).
Proof. revert ctx. handler handleCommentAfterArrowParams. Qed.

Lemma handleCommentInEmptyParens_claims ctx :
  claims (cid (comment ctx)) False (handleCommentInEmptyParens ctx).
Proof. revert ctx. handler handleCommentInEmptyParens. Qed.

Lemma handleLastFunctionArgComments_claims ctx :
  claims (cid (comment ctx)) False (handleLastFunctionArgComments ctx).
Proof. revert ctx. handler handleLastFunctionArgComments. Qed.

Lemma handleLabeledStatementComments_claims ctx :
  claims (cid (comment ctx)) False (handleLabeledStatementComments ctx).
Proof. revert ctx. handler handleLabeledStatementComments. Qed.

Lemma handleBreakAndContinueStatementComments_claims ctx :
  claims (cid (comment ctx)) False
    (handleBreakAndContinueStatementComments ctx).
Proof. revert ctx. handler handleBreakAndContinueStatementComments. Qed.

Lemma handleCallExpressionComments_claims ctx :
  claims (cid (comment ctx)) False (handleCallExpressionComments ctx).
Proof. revert ctx. handler handleCallExpressionComments. Qed.

Lemma handleUnionTypeComments_claims ctx :
  claims (cid (comment ctx)) False (handleUnionTypeComments ctx).
Proof. revert ctx. handler handleUnionTypeComments. Qed.

Lemma handlePropertyComments_claims ctx :
  claims (cid (comment ctx)) False (handlePropertyComments ctx).
Proof. revert ctx. handler handlePropertyComments. Qed.

Lemma handleOnlyComments_claims ctx :
  claims (cid (comment ctx)) False (handleOnlyComments ctx).
Proof. revert ctx. handler handleOnlyComments. Qed.

Lemma handleForComments_claims ctx :
  claims (cid (comment ctx)) False (handleForComments ctx).
Proof. revert ctx. handler handleForComments. Qed.

Lemma handleModuleSpecifiersComments_claims ctx :
  claims (cid (comment ctx)) False (handleModuleSpecifiersComments ctx).
Proof. revert ctx. handler handleModuleSpecifiersComments. Qed.

Lemma handleAssignmentPatternComments_claims ctx :
  claims (cid (comment ctx)) False (handleAssignmentPatternComments ctx).
Proof. revert ctx. handler handleAssignmentPatternComments. Qed.

Lemma handleVariableDeclaratorComments_claims ctx :
  claims (cid (comment ctx)) False (handleVariableDeclaratorComments ctx).
Proof. revert ctx. handler handleVariableDeclaratorComments. Qed.

Lemma handleTSFunctionTrailingComments_claims ctx :
  claims (cid (comment ctx)) False (handleTSFunctionTrailingComments ctx).
Proof. revert ctx. handler handleTSFunctionTrailingComments. Qed.

Lemma handleTSMappedTypeComments_claims ctx :
  claims (cid (comment ctx)) False (handleTSMappedTypeComments ctx).
Proof. revert ctx. handler handleTSMappedTypeComments. Qed.

Lemma handleSwitchDefaultCaseComments_claims ctx :
  claims (cid (comment ctx)) False (handleSwitchDefaultCaseComments ctx).
Proof. revert ctx. handler handleSwitchDefaultCaseComments. Qed.

(** The one handler that claims a comment without attaching it. *)
Lemma handleIgnoreComments_claims ctx :
  claims (cid (comment ctx)) (ignore_claim ctx) (handleIgnoreComments ctx).
Proof.
  destruct ctx as
    [comment0 preceding enclosing following text0 opts root lastFlag].
  intros st0 st b st' H0. unfold handleIgnoreComments. unfold_js.
  intros E. brute; finish.
  right. split; [|eauto with commit].
  unfold ignore_claim; simpl. repeat split; try assumption.
  eexists. repeat split; try eassumption. by apply String.eqb_eq.
Qed.

(** ** The chains *)

Lemma claims_weaken c (silent : Prop) m : claims c False m -> claims c silent m.
Proof.
  intros H st0 st b st' H0 E. specialize (H st0 st b st' H0 E).
  destruct b; [|done]. destruct H as [H|[[] _]]. by left.
Qed.

(** A chain of handlers for [c] is a handler for [c]: the handlers that
    declined have appended nothing, and the first that claims ends the
    chain. *)
Lemma some_claims c silent handlers ctx :
  Forall (fun fn => claims c silent (fn ctx)) handlers ->
  claims c silent (some handlers ctx).
Proof.
  induction 1 as [|fn rest Hfn _ IH]; intros st0 st b st' H0; simpl.
  - unfold ret. intros; simplify_eq. done.
  - unfold bind, ret. intros E.
    destruct (fn ctx st) as [[[] st1]|] eqn:Efn; [| |done].
    + simplify_eq. exact (Hfn st0 st true st' H0 Efn).
    + apply (IH st0 st1); [|done]. exact (Hfn st0 st false st1 H0 Efn).
Qed.

Lemma handleOwnLineComment_claims ctx :
  claims (cid (comment ctx)) (ignore_claim ctx) (handleOwnLineComment ctx).
Proof.
  apply some_claims.
  repeat first
    [ apply List.Forall_nil
    | apply List.Forall_cons;
        [cbv beta; first [ apply handleIgnoreComments_claims
                         | apply claims_weaken ]|] ].
  - apply handleLastFunctionArgComments_claims.
  - apply handleMemberExpressionComments_claims.
  - apply handleIfStatementComments_claims.
  - apply handleWhileComments_claims.
  - apply handleTryStatementComments_claims.
  - apply handleClassComments_claims.
  - apply handleForComments_claims.
  - apply handleUnionTypeComments_claims.
  - apply handleOnlyComments_claims.
  - apply handleModuleSpecifiersComments_claims.
  - apply handleAssignmentPatternComments_claims.
  - apply handleMethodNameComments_claims.
  - apply handleLabeledStatementComments_claims.
  - apply handleBreakAndContinueStatementComments_claims.
Qed.

Lemma handleEndOfLineComment_claims ctx :
  claims (cid (comment ctx)) False (handleEndOfLineComment ctx).
Proof.
  apply some_claims.
  repeat first [ apply List.Forall_nil | apply List.Forall_cons; [cbv beta|] ].
  - apply handleClosureTypeCastComments_claims.
  - apply handleLastFunctionArgComments_claims.
  - apply handleConditionalExpressionComments_claims.
  - apply handleModuleSpecifiersComments_claims.
  - apply handleIfStatementComments_claims.
  - apply handleWhileComments_claims.
  - apply handleTryStatementComments_claims.
  - apply handleClassComments_claims.
  - apply handleLabeledStatementComments_claims.
  - apply handleCallExpressionComments_claims.
  - apply handlePropertyComments_claims.
  - apply handleOnlyComments_claims.
  - apply handleVariableDeclaratorComments_claims.
  - apply handleBreakAndContinueStatementComments_claims.
  - apply handleSwitchDefaultCaseComments_claims.
Qed.

Lemma handleRemainingComment_claims ctx :
  claims (cid (comment ctx)) (ignore_claim ctx) (handleRemainingComment ctx).
Proof.
  apply some_claims.
  repeat first
    [ apply List.Forall_nil
    | apply List.Forall_cons;
        [cbv beta; first [ apply handleIgnoreComments_claims
                         | apply claims_weaken ]|] ].
  - apply handleIfStatementComments_claims.
  - apply handleWhileComments_claims.
  - apply handleObjectPropertyAssignment_claims.
  - apply handleCommentInEmptyParens_claims.
  - apply handleMethodNameComments_claims.
  - apply handleOnlyComments_claims.
  - apply handleCommentAfterArrowParams_claims.
  - apply handleFunctionNameComments_claims.
  - apply handleTSMappedTypeComments_claims.
  - apply handleBreakAndContinueStatementComments_claims.
  - apply handleTSFunctionTrailingComments_claims.
Qed.

(** When [handleIgnoreComments] claims the comment it flags the
    enclosing mapped type and the comment, and attaches nothing. *)
Lemma handleIgnoreComments_claims_silently ctx st :
  ignore_claim ctx ->
  exists e,
    enclosingNode ctx = Some e /\
    handleIgnoreComments ctx st =
      Ok (true,
          flag_unignore (cid (comment ctx)) (flag_prettierIgnore (nid e) st)).
Proof.
  destruct ctx as
    [comment0 preceding enclosing following text0 opts root lastFlag].
  unfold ignore_claim. simpl.
  intros (Hignore & He & f & -> & Hf & Hconstraint).
  destruct enclosing as [e|]; [|discriminate]. exists e. split; [done|].
  unfold handleIgnoreComments. unfold_js. simpl in *.
  apply String.eqb_eq in Hf. by rewrite Hignore, He, Hf, Hconstraint.
Qed.

(** C1, as amended.  The own-line and the remaining chain start with
    [handleIgnoreComments]: when that rule claims the comment (a
    suppression marker inside a mapped type, before a type parameter
    with a constraint) the chain returns [true], has flagged the mapped
    type [prettierIgnore] and the comment [unignore], and has appended
    nothing.  In every other case, and always in the end-of-line chain,
    a chain that returns [true] has appended the comment exactly once,
    to one list of one node.  A chain that returns [false] has appended
    nothing. *)
Theorem chain_commits_once_or_ignores
    (p : Placement) (ctx : CommentContext) (st : Store) :
  let c := cid (comment ctx) in
  (p <> EndOfLine -> ignore_claim ctx ->
   exists e,
     enclosingNode ctx = Some e /\
     let st' := flag_unignore c (flag_prettierIgnore (nid e) st) in
     chain p ctx st = Ok (true, st') /\
     unchanged st st' /\
     nid e ∈ prettierIgnore st' /\ c ∈ unignore st') /\
  (forall b st',
     chain p ctx st = Ok (b, st') ->
     if b then
       p = EndOfLine \/ ~ ignore_claim ctx ->
       appended_once c st st'
     else unchanged st st').
Proof.
  split.
  - intros Hp Hclaim.
    destruct (handleIgnoreComments_claims_silently ctx st Hclaim)
      as (e & He & Hrule).
    exists e. split; [exact He|]. split; [|split; [|split]].
    + destruct p; [|done|]; simpl;
        [unfold handleOwnLineComment | unfold handleRemainingComment];
        cbn [some]; unfold bind at 1; by rewrite Hrule.
    + by apply flag_unignore_unchanged, flag_prettierIgnore_unchanged.
    + unfold flag_unignore, flag_prettierIgnore. simpl.
      apply elem_of_union_l. by apply elem_of_singleton.
    + unfold flag_unignore. simpl.
      apply elem_of_union_l. by apply elem_of_singleton.
  - intros b st' E.
    assert (H :
      if b then
        appended_once (cid (comment ctx)) st st' \/
        (p <> EndOfLine /\ ignore_claim ctx /\ unchanged st st')
      else unchanged st st').
    { destruct p; simpl in E.
      - pose proof (handleOwnLineComment_claims ctx st st b st'
                      (unchanged_refl st) E) as H.
        destruct b; [|done]. destruct H as [H|[H1 H2]]; [by left|by right].
      - pose proof (handleEndOfLineComment_claims ctx st st b st'
                      (unchanged_refl st) E) as H.
        destruct b; [|done]. destruct H as [H|[[] _]]. by left.
      - pose proof (handleRemainingComment_claims ctx st st b st'
                      (unchanged_refl st) E) as H.
        destruct b; [|done]. destruct H as [H|[H1 H2]]; [by left|by right]. }
    destruct b; [|exact H].
    intros Hother. destruct H as [H | (Hp & Hclaim & _)]; [exact H|].
    by destruct Hother.
Qed.

End Commitment.


(** ** Reading the rules off the handlers *)

Section HandlerRules.

Context {U : JsUtils}.

Ltac unfold_js :=
  unfold andM, orM, notM, cond, getp, set_prettierIgnore, set_unignore,
    deref, get, get_type_is, get_length, get_first, as_node, find_node,
    bind, ret, throw, modify.

(** One step of a chain. *)
Lemma some_cons fn rest ctx st :
  some (fn :: rest) ctx st =
    match fn ctx st with
    | Ok (true, st') => Ok (true, st')
    | Ok (false, st') => some rest ctx st'
    | TypeError => TypeError
    end.
Proof.
  simpl. unfold bind, ret. by destruct (fn ctx st) as [[[] ?]|].
Qed.

Lemma addBlockStatementFirstComment_block block stmts c st :
  block_children block = VArr stmts ->
  addBlockStatementFirstComment (VNode block) c st =
    Ok (tt, block_first_comment block stmts c st).
Proof.
  unfold block_children. intros Hbody.
  unfold addBlockStatementFirstComment, block_first_comment, first_non_empty.
  unfold_js. destruct (truthy (prop "body" block)); rewrite Hbody; simpl;
    by destruct (List.find _ stmts).
Qed.

(** *** Handlers that decline by the type of the enclosing node *)

(** The enclosing node is none of the shapes that the handlers before
    the conditional and loop rules look for. *)
Lemma handleIgnoreComments_declines ctx st e :
  enclosingNode ctx = Some e -> ntype e <> "TSMappedType" ->
  handleIgnoreComments ctx st = Ok (false, st).
Proof.
  destruct ctx as
    [comment0 preceding enclosing following text0 opts root lastFlag].
  simpl. intros -> He. apply String.eqb_neq in He.
  unfold handleIgnoreComments. unfold_js. simpl. rewrite He.
  by destruct (isPrettierIgnoreComment _).
Qed.

Lemma handleIfStatementComments_declines ctx st e :
  enclosingNode ctx = Some e -> ntype e <> "IfStatement" ->
  handleIfStatementComments ctx st = Ok (false, st).
Proof.
  destruct ctx as
    [comment0 preceding enclosing following text0 opts root lastFlag].
  simpl. intros -> He. apply String.eqb_neq in He.
  unfold handleIfStatementComments. simpl. by rewrite He.
Qed.

Lemma handleWhileComments_declines ctx st e :
  enclosingNode ctx = Some e -> ntype e <> "WhileStatement" ->
  handleWhileComments ctx st = Ok (false, st).
Proof.
  destruct ctx as
    [comment0 preceding enclosing following text0 opts root lastFlag].
  simpl. intros -> He. apply String.eqb_neq in He.
  unfold handleWhileComments. simpl. by rewrite He.
Qed.

Lemma handleLastFunctionArgComments_declines ctx st e :
  enclosingNode ctx = Some e -> statement_shape e ->
  handleLastFunctionArgComments ctx st = Ok (false, st).
Proof.
  destruct ctx as
    [comment0 preceding enclosing following text0 opts root lastFlag].
  simpl. intros -> He.
  unfold handleLastFunctionArgComments, isRealFunctionLikeNode. simpl.
  destruct He as [-> | [-> | ->]]; simpl; by rewrite !andb_false_r.
Qed.

Lemma handleConditionalExpressionComments_declines ctx st e :
  enclosingNode ctx = Some e -> statement_shape e ->
  handleConditionalExpressionComments ctx st = Ok (false, st).
Proof.
  destruct ctx as
    [comment0 preceding enclosing following text0 opts root lastFlag].
  simpl. intros -> He. unfold handleConditionalExpressionComments. simpl.
  destruct He as [-> | [-> | ->]]; simpl; by rewrite !andb_false_r.
Qed.

Lemma handleModuleSpecifiersComments_declines ctx st e :
  enclosingNode ctx = Some e -> statement_shape e ->
  handleModuleSpecifiersComments ctx st = Ok (false, st).
Proof.
  destruct ctx as
    [comment0 preceding enclosing following text0 opts root lastFlag].
  simpl. intros -> He. unfold handleModuleSpecifiersComments. simpl.
  destruct He as [-> | [-> | ->]]; simpl; by rewrite !andb_false_r.
Qed.

Lemma handleClosureTypeCastComments_declines ctx st :
  is_some (followingNode ctx) && isTypeCastComment (comment ctx) = false ->
  handleClosureTypeCastComments ctx st = Ok (false, st).
Proof.
  destruct ctx as
    [comment0 preceding enclosing following text0 opts root lastFlag].
  simpl. intros H. unfold handleClosureTypeCastComments. by rewrite H.
Qed.

Lemma handleMemberExpressionComments_declines ctx st :
  isMemberExpression (enclosingNode ctx) &&
  type_is (followingNode ctx) "Identifier" = false ->
  handleMemberExpressionComments ctx st = Ok (false, st).
Proof.
  destruct ctx as
    [comment0 preceding enclosing following text0 opts root lastFlag].
  simpl. intros H. unfold handleMemberExpressionComments. by rewrite H.
Qed.

(** *** Where the conditional and the loop rule sit in the chains

    A decision of [handleIfStatementComments] is the decision of the
    chain for remaining comments; of the end-of-line chain unless the
    comment is a type cast with a following node, which the first rule of
    that chain takes; and of the own-line chain unless the imports take
    the if-statement for a member expression. *)
Lemma if_rule_in_chains ctx st e st' :
  enclosingNode ctx = Some e ->
  ntype e = "IfStatement" ->
  handleIfStatementComments ctx st = Ok (true, st') ->
  handleRemainingComment ctx st = Ok (true, st') /\
  (is_some (followingNode ctx) && isTypeCastComment (comment ctx) = false ->
   handleEndOfLineComment ctx st = Ok (true, st')) /\
  (isMemberExpression (enclosingNode ctx) &&
   type_is (followingNode ctx) "Identifier" = false ->
   handleOwnLineComment ctx st = Ok (true, st')).
Proof.
  intros Henc He Hif.
  assert (Hshape : statement_shape e) by by left.
  assert (Hmapped : ntype e <> "TSMappedType") by (rewrite He; discriminate).
  split; [|split].
  - unfold handleRemainingComment.
    rewrite some_cons, (handleIgnoreComments_declines ctx st e) by done.
    by rewrite some_cons, Hif.
  - intros Hcast. unfold handleEndOfLineComment.
    rewrite some_cons, handleClosureTypeCastComments_declines by done.
    rewrite some_cons, (handleLastFunctionArgComments_declines ctx st e)
      by done.
    rewrite some_cons, (handleConditionalExpressionComments_declines ctx st e)
      by done.
    rewrite some_cons, (handleModuleSpecifiersComments_declines ctx st e)
      by done.
    by rewrite some_cons, Hif.
  - intros Hmember. unfold handleOwnLineComment.
    rewrite some_cons, (handleIgnoreComments_declines ctx st e) by done.
    rewrite some_cons, (handleLastFunctionArgComments_declines ctx st e)
      by done.
    rewrite some_cons, handleMemberExpressionComments_declines by done.
    by rewrite some_cons, Hif.
Qed.

(** The same for [handleWhileComments], which comes right after the
    conditional rule in all three chains. *)
Lemma while_rule_in_chains ctx st e st' :
  enclosingNode ctx = Some e ->
  ntype e = "WhileStatement" ->
  handleWhileComments ctx st = Ok (true, st') ->
  handleRemainingComment ctx st = Ok (true, st') /\
  (is_some (followingNode ctx) && isTypeCastComment (comment ctx) = false ->
   handleEndOfLineComment ctx st = Ok (true, st')) /\
  (isMemberExpression (enclosingNode ctx) &&
   type_is (followingNode ctx) "Identifier" = false ->
   handleOwnLineComment ctx st = Ok (true, st')).
Proof.
  intros Henc He Hwhile.
  assert (Hshape : statement_shape e) by (right; by left).
  assert (Hmapped : ntype e <> "TSMappedType") by (rewrite He; discriminate).
  assert (Hif : handleIfStatementComments ctx st = Ok (false, st)).
  { apply (handleIfStatementComments_declines ctx st e); [done|].
    rewrite He. discriminate. }
  split; [|split].
  - unfold handleRemainingComment.
    rewrite some_cons, (handleIgnoreComments_declines ctx st e) by done.
    rewrite some_cons, Hif. by rewrite some_cons, Hwhile.
  - intros Hcast. unfold handleEndOfLineComment.
    rewrite some_cons, handleClosureTypeCastComments_declines by done.
    rewrite some_cons, (handleLastFunctionArgComments_declines ctx st e)
      by done.
    rewrite some_cons, (handleConditionalExpressionComments_declines ctx st e)
      by done.
    rewrite some_cons, (handleModuleSpecifiersComments_declines ctx st e)
      by done.
    rewrite some_cons, Hif. by rewrite some_cons, Hwhile.
  - intros Hmember. unfold handleOwnLineComment.
    rewrite some_cons, (handleIgnoreComments_declines ctx st e) by done.
    rewrite some_cons, (handleLastFunctionArgComments_declines ctx st e)
      by done.
    rewrite some_cons, handleMemberExpressionComments_declines by done.
    rewrite some_cons, Hif. by rewrite some_cons, Hwhile.
Qed.

(** C4.  Inside an if-statement or a while-statement with a following
    node, a comment whose next non-whitespace, non-comment character is
    the closing parenthesis is attached as trailing on the preceding
    node: by [handleIfStatementComments], by [handleWhileComments], and
    so by the chain for remaining comments.  The end-of-line chain and
    the own-line chain decide the same, unless the comment is a type
    cast, which the end-of-line chain hands to its first rule, or the
    imports take the statement for a member expression. *)
Theorem condition_paren_comment_trails_preceding
    (ctx : CommentContext) (st : Store) (p e f : node) :
  enclosingNode ctx = Some e ->
  followingNode ctx = Some f ->
  precedingNode ctx = Some p ->
  ntype e = "IfStatement" \/ ntype e = "WhileStatement" ->
  getNextNonSpaceNonCommentCharacter (text ctx) (comment ctx) locEnd = ")" ->
  let committed :=
    Ok (true, attach Trailing (nid p) (entry (comment ctx) None) st) in
  (ntype e = "IfStatement" -> handleIfStatementComments ctx st = committed) /\
  (ntype e = "WhileStatement" -> handleWhileComments ctx st = committed) /\
  handleRemainingComment ctx st = committed /\
  (isTypeCastComment (comment ctx) = false ->
   handleEndOfLineComment ctx st = committed) /\
  (isMemberExpression (Some e) && String.eqb (ntype f) "Identifier" = false ->
   handleOwnLineComment ctx st = committed).
Proof.
  intros Henc Hfol Hpre Htype Hnext committed.
  assert (Hif : ntype e = "IfStatement" ->
                handleIfStatementComments ctx st = committed).
  { intros He. destruct ctx; simpl in *; subst.
    unfold handleIfStatementComments. simpl. by rewrite He, Hnext. }
  assert (Hwhile : ntype e = "WhileStatement" ->
                   handleWhileComments ctx st = committed).
  { intros He. destruct ctx; simpl in *; subst.
    unfold handleWhileComments. simpl. by rewrite He, Hnext. }
  split; [exact Hif|]. split; [exact Hwhile|].
  assert (Hchains :
    handleRemainingComment ctx st = committed /\
    (is_some (followingNode ctx) && isTypeCastComment (comment ctx) = false ->
     handleEndOfLineComment ctx st = committed) /\
    (isMemberExpression (enclosingNode ctx) &&
     type_is (followingNode ctx) "Identifier" = false ->
     handleOwnLineComment ctx st = committed)).
  { destruct Htype as [He | He].
    - by apply (if_rule_in_chains ctx st e); [| |apply Hif].
    - by apply (while_rule_in_chains ctx st e); [| |apply Hwhile]. }
  destruct Hchains as (Hrem & Heol & Hown).
  split; [exact Hrem|]. split.
  - intros Hcast. apply Heol. by rewrite Hfol.
  - intros Hmember. apply Hown. by rewrite Henc, Hfol.
Qed.

(** What the code does with a comment between the consequent of an
    if-statement (its preceding node) and the alternate (its following
    node): the decision [else_decision], with the style that the
    module-level [options] select.  Between a consequent and an
    alternate the next character is never a closing parenthesis.  This
    is the decision of [handleIfStatementComments] and of the chain for
    remaining comments, and of the other two chains under the provisos
    of C4. *)
Lemma else_rule_follows_module_style
    (ctx : CommentContext) (st : Store) (p e f : node) :
  precedingNode ctx = Some p ->
  enclosingNode ctx = Some e ->
  followingNode ctx = Some f ->
  ntype e = "IfStatement" ->
  strict_eq (VNode p) (prop "consequent" e) = true ->
  strict_eq (VNode f) (prop "alternate" e) = true ->
  getNextNonSpaceNonCommentCharacter (text ctx) (comment ctx) locEnd <> ")" ->
  let committed :=
    Ok (true, else_decision module_cuddled (comment ctx) p e st) in
  handleIfStatementComments ctx st = committed /\
  handleRemainingComment ctx st = committed /\
  (isTypeCastComment (comment ctx) = false ->
   handleEndOfLineComment ctx st = committed) /\
  (isMemberExpression (Some e) && String.eqb (ntype f) "Identifier" = false ->
   handleOwnLineComment ctx st = committed).
Proof.
  intros Hpre Henc Hfol He Hcons Halt Hnext committed.
  assert (Hif : handleIfStatementComments ctx st = committed).
  { destruct ctx as
      [comment0 preceding enclosing following text0 opts root lastFlag].
    unfold committed. clear committed.
    simpl in *. subst. apply String.eqb_neq in Hnext.
    unfold handleIfStatementComments, else_decision, module_cuddled,
      single_line, same_line.
    unfold_js. simpl. rewrite He, Hnext. simpl. rewrite Hcons, Halt. simpl.
    destruct (String.eqb (ntype p) "BlockStatement"); simpl.
    - destruct (truthy (lookup_prop "breakBeforeElse" options)); simpl;
        [|done].
      by destruct (_ && _).
    - by destruct (_ && _). }
  split; [exact Hif|].
  destruct (if_rule_in_chains ctx st e _ Henc He Hif) as (Hrem & Heol & Hown).
  split; [exact Hrem|]. split.
  - intros Hcast. apply Heol. by rewrite Hfol.
  - intros Hmember. apply Hown. by rewrite Henc, Hfol.
Qed.

(** C6.  A comment routed to a block goes to the block's first
    statement that is not an empty statement, as a leading comment, and
    to the block itself, as a dangling comment, when there is no such
    statement.  This is what [addBlockStatementFirstComment] does on
    every node whose [body] (or else [properties]) is an array, and what
    the conditional, loop, exception-handling and class rules do with a
    following block [b]. *)
Theorem comment_routed_to_block
    (ctx : CommentContext) (st : Store) (e b : node) (stmts : list node) :
  enclosingNode ctx = Some e ->
  followingNode ctx = Some b ->
  block_children b = VArr stmts ->
  let routed := Ok (true, block_first_comment b stmts (comment ctx) st) in
  (forall block stmts' c st',
     block_children block = VArr stmts' ->
     addBlockStatementFirstComment (VNode block) c st' =
       Ok (tt, block_first_comment block stmts' c st')) /\
  (ntype e = "IfStatement" -> ntype b = "BlockStatement" ->
   getNextNonSpaceNonCommentCharacter (text ctx) (comment ctx) locEnd <> ")" ->
   strict_eq (ov (precedingNode ctx)) (prop "consequent" e) &&
   strict_eq (VNode b) (prop "alternate" e) = false ->
   handleIfStatementComments ctx st = routed) /\
  (ntype e = "WhileStatement" -> ntype b = "BlockStatement" ->
   getNextNonSpaceNonCommentCharacter (text ctx) (comment ctx) locEnd <> ")" ->
   handleWhileComments ctx st = routed) /\
  (ntype e = "TryStatement" \/
   (ntype e = "CatchClause" /\ precedingNode ctx = None) ->
   ntype b = "BlockStatement" ->
   handleTryStatementComments ctx st = routed) /\
  (set_has classLikeNodeTypes (Some e) = true ->
   isNonEmptyArray (prop "decorators" e) &&
   negb (String.eqb (ntype b) "Decorator") = false ->
   prop "body" e = VNode b ->
   handleClassComments ctx st = routed).
Proof.
  destruct ctx as
    [comment0 preceding enclosing following text0 opts root lastFlag].
  simpl. intros -> -> Hbody.
  pose proof (addBlockStatementFirstComment_block b stmts comment0 st Hbody)
    as Hblock.
  split; [intros; by apply addBlockStatementFirstComment_block|].
  split; [|split; [|split]].
  - intros He Hb Hnext Hbetween. apply String.eqb_neq in Hnext.
    unfold handleIfStatementComments. unfold_js. simpl.
    rewrite He, Hnext. simpl.
    destruct (strict_eq (ov preceding) (prop "consequent" e)); simpl in *.
    + rewrite Hbetween, Hb. simpl. unfold bind. by rewrite Hblock.
    + rewrite Hb. simpl. unfold bind. by rewrite Hblock.
  - intros He Hb Hnext. apply String.eqb_neq in Hnext.
    unfold handleWhileComments. unfold_js. simpl.
    rewrite He, Hnext, Hb. simpl. unfold bind. by rewrite Hblock.
  - intros He Hb. unfold handleTryStatementComments. unfold_js. simpl.
    destruct He as [He | [He ->]]; rewrite He, Hb; simpl;
      unfold bind; by rewrite Hblock.
  - intros He Hdec Hprop. unfold handleClassComments.
    simpl in He. simpl. rewrite He. unfold_js. simpl.
    rewrite Hprop. simpl. rewrite Nat.eqb_refl.
    destruct (isNonEmptyArray (prop "decorators" e)); simpl in *.
    + rewrite Hdec. simpl. unfold bind. by rewrite Hblock.
    + unfold bind. by rewrite Hblock.
Qed.

Lemma handleObjectPropertyAssignment_declines ctx st :
  isObjectProperty (enclosingNode ctx) = false ->
  handleObjectPropertyAssignment ctx st = Ok (false, st).
Proof.
  destruct ctx as
    [comment0 preceding enclosing following text0 opts root lastFlag].
  simpl. intros H. unfold handleObjectPropertyAssignment. unfold_js.
  by rewrite H.
Qed.

(** A decision of [handleCommentInEmptyParens] is the decision of the
    chain for remaining comments, the only chain that has this rule,
    when the enclosing node is none of the shapes of the four rules
    before it. *)
Lemma empty_parens_rule_in_chain ctx st e st' :
  enclosingNode ctx = Some e ->
  ntype e <> "TSMappedType" ->
  ntype e <> "IfStatement" ->
  ntype e <> "WhileStatement" ->
  isObjectProperty (Some e) = false ->
  handleCommentInEmptyParens ctx st = Ok (true, st') ->
  handleRemainingComment ctx st = Ok (true, st').
Proof.
  intros Henc Hmapped Hif Hwhile Hprop Hrule. unfold handleRemainingComment.
  rewrite some_cons, (handleIgnoreComments_declines ctx st e) by done.
  rewrite some_cons, (handleIfStatementComments_declines ctx st e) by done.
  rewrite some_cons, (handleWhileComments_declines ctx st e) by done.
  rewrite some_cons, handleObjectPropertyAssignment_declines
    by by rewrite Henc.
  by rewrite some_cons, Hrule.
Qed.

(** C7.  A comment whose next non-whitespace, non-comment character is
    the closing parenthesis is attached as dangling on its enclosing
    node when that is a function-like node without parameters or a
    call-like node without arguments; when the enclosing node is a method
    definition whose function value has no parameters, the comment is
    attached as dangling on that function value.  This is the decision
    of [handleCommentInEmptyParens], and of the chain for remaining
    comments when the enclosing node is none of the shapes that the four
    rules before it look for. *)
Theorem comment_in_empty_parens
    (ctx : CommentContext) (st : Store) (e : node) :
  enclosingNode ctx = Some e ->
  getNextNonSpaceNonCommentCharacter (text ctx) (comment ctx) locEnd = ")" ->
  let reached committed :=
    ntype e <> "TSMappedType" -> ntype e <> "IfStatement" ->
    ntype e <> "WhileStatement" -> isObjectProperty (Some e) = false ->
    handleRemainingComment ctx st = committed in
  ((isRealFunctionLikeNode e = true /\ getFunctionParameters e = []) \/
   (isCallLikeExpression e = true /\ getCallArguments e = []) ->
   let committed :=
     Ok (true, attach Dangling (nid e) (entry (comment ctx) None) st) in
   handleCommentInEmptyParens ctx st = committed /\ reached committed) /\
  (forall fn,
     ntype e = "MethodDefinition" \/ ntype e = "TSAbstractMethodDefinition" ->
     isCallLikeExpression e = false ->
     prop "value" e = VNode fn ->
     getFunctionParameters fn = [] ->
     let committed :=
       Ok (true, attach Dangling (nid fn) (entry (comment ctx) None) st) in
     handleCommentInEmptyParens ctx st = committed /\ reached committed).
Proof.
  intros Henc Hnext reached.
  assert (Hreach : forall st',
            handleCommentInEmptyParens ctx st = Ok (true, st') ->
            reached (Ok (true, st'))).
  { intros st' Hrule ? ? ? ?.
    by apply (empty_parens_rule_in_chain ctx st e). }
  split.
  - intros Hempty committed.
    assert (Hrule : handleCommentInEmptyParens ctx st = committed).
    { destruct ctx as
        [comment0 preceding enclosing following text0 opts root lastFlag].
      simpl in *. subst enclosing.
      unfold handleCommentInEmptyParens. simpl. rewrite Hnext. simpl.
      assert (isRealFunctionLikeNode e &&
                (Z.of_nat (length (getFunctionParameters e)) =? 0)
              || isCallLikeExpression e &&
                (Z.of_nat (length (getCallArguments e)) =? 0) = true) as ->.
      { destruct Hempty as [[-> ->] | [-> ->]]; simpl; [done|].
        by rewrite orb_true_r. }
      reflexivity. }
    split; [exact Hrule | by apply Hreach].
  - intros fn He Hcall Hvalue Hparams committed.
    assert (Hrule : handleCommentInEmptyParens ctx st = committed).
    { destruct ctx as
        [comment0 preceding enclosing following text0 opts root lastFlag].
      simpl in *. subst enclosing.
      unfold handleCommentInEmptyParens. simpl. rewrite Hnext, Hcall. simpl.
      assert (isRealFunctionLikeNode e = false) as ->.
      { unfold isRealFunctionLikeNode. by destruct He as [-> | ->]. }
      simpl. unfold_js. simpl. rewrite Hvalue, Hparams. simpl.
      by destruct He as [-> | ->]. }
    split; [exact Hrule | by apply Hreach].
Qed.


(** *** Type-cast comments *)

Lemma strip_prefix_spec p s rest :
  strip_prefix p s = Some rest <-> s = (p ++ rest)%string.
Proof.
  revert s. induction p as [|a p IH]; intros s; simpl.
  - split; [by intros [= ->] | by intros ->].
  - destruct s as [|b s]; [done|].
    destruct (Ascii.eqb a b) eqn:Hab.
    + apply Ascii.eqb_eq in Hab as ->. rewrite IH.
      split; [by intros -> | by intros [= ->]].
    + apply Ascii.eqb_neq in Hab. split; [done | intros [= -> _]; done].
Qed.

Lemma boundary_after_word_spec post :
  boundary_after_word post = true <->
  (post = EmptyString \/
   exists a post', post = String a post' /\ is_word_char a = false).
Proof.
  destruct post as [|a post]; simpl.
  - split; [by left | done].
  - rewrite negb_true_iff. split.
    + intros H. right. by exists a, post.
    + by intros [? | (? & ? & [= -> ->] & ?)].
Qed.

Lemma match_at_type_here_spec s :
  match_at_type_here s = true <->
  exists post,
    s = ("@type" ++ post)%string /\
    (post = EmptyString \/
     exists a post', post = String a post' /\ is_word_char a = false).
Proof.
  unfold match_at_type_here.
  destruct (strip_prefix "@type" s) as [rest|] eqn:Hs.
  - apply strip_prefix_spec in Hs. rewrite boundary_after_word_spec. split.
    + intros H. by exists rest.
    + intros (post & Hpost & H). rewrite Hs in Hpost.
      simpl in Hpost. by simplify_eq.
  - split; [done|]. intros (post & Hpost & _).
    apply strip_prefix_spec in Hpost. congruence.
Qed.

(** The search of [/@type\b/] finds exactly the occurrences of [@type]
    at a word boundary. *)
Lemma test_at_type_spec s :
  test_at_type s = true <-> contains_at_type_word s.
Proof.
  unfold contains_at_type_word. induction s as [|a s IH]; simpl.
  - split; [done|]. intros (pre & post & H & _).
    destruct pre; simpl in H; discriminate.
  - rewrite orb_true_iff, IH, match_at_type_here_spec. split.
    + intros [(post & Hs & Hb) | (pre & post & Hs & Hb)].
      * exists EmptyString, post. by split.
      * exists (String a pre), post. split; [|done]. simpl. by rewrite Hs.
    + intros (pre & post & Hs & Hb). destruct pre as [|b pre].
      * left. by exists post.
      * right. simpl in Hs. injection Hs as -> Hs. by exists pre, post.
Qed.

(** C10.  [isTypeCastComment] holds exactly of the block comments whose
    text starts with an asterisk and contains [@type] at a word
    boundary; and an end-of-line comment of this kind that has a
    following node is attached as a leading comment of that node by the
    first rule of the end-of-line chain, [handleClosureTypeCastComments],
    so that no other rule of the chain is consulted. *)
Theorem type_cast_comment_leads_following
    (ctx : CommentContext) (st : Store) (f : node) :
  followingNode ctx = Some f ->
  (isTypeCastComment (comment ctx) = true <->
   isBlockComment (comment ctx) = true /\
   starts_with_star (cvalue (comment ctx)) /\
   contains_at_type_word (cvalue (comment ctx))) /\
  (isBlockComment (comment ctx) = true ->
   starts_with_star (cvalue (comment ctx)) ->
   contains_at_type_word (cvalue (comment ctx)) ->
   let committed :=
     Ok (true, attach Leading (nid f) (entry (comment ctx) None) st) in
   handleClosureTypeCastComments ctx st = committed /\
   handleEndOfLineComment ctx st = committed).
Proof.
  intros Hf.
  assert (Hspec : isTypeCastComment (comment ctx) = true <->
            isBlockComment (comment ctx) = true /\
            starts_with_star (cvalue (comment ctx)) /\
            contains_at_type_word (cvalue (comment ctx))).
  { unfold isTypeCastComment, starts_with_star.
    rewrite !andb_true_iff, test_at_type_spec.
    destruct (cvalue (comment ctx)) as [|a v]; simpl.
    - split; [intros [[_ ?] _]; done | intros (_ & [? ?] & _); done].
    - destruct (Ascii.eqb a "*") eqn:Ha.
      + apply Ascii.eqb_eq in Ha as ->. split.
        * intros [[Hb _] Ht]. split; [done|]. split; [by exists v | done].
        * intros (Hb & _ & Ht). done.
      + apply Ascii.eqb_neq in Ha. split.
        * intros [[_ ?] _]; done.
        * intros (_ & [rest [= -> _]] & _). done. }
  split; [exact Hspec|].
  intros Hblock Hstar Htype committed.
  assert (Hcast : isTypeCastComment (comment ctx) = true) by by apply Hspec.
  assert (Hrule : handleClosureTypeCastComments ctx st = committed).
  { destruct ctx; simpl in *; subst.
    unfold handleClosureTypeCastComments. simpl. by rewrite Hcast. }
  split; [exact Hrule|].
  unfold handleEndOfLineComment. by rewrite some_cons, Hrule.
Qed.

End HandlerRules.

(** ** Absent nodes and the configuration *)

Section AbsenceAndConfiguration.

Context {U : JsUtils}.

(** In a default case without a following node the rule reads
    [followingNode.type] of [undefined]. *)
Lemma handleSwitchDefaultCaseComments_raises ctx st e :
  enclosingNode ctx = Some e ->
  ntype e = "SwitchCase" ->
  truthy (prop "test" e) = false ->
  followingNode ctx = None ->
  handleSwitchDefaultCaseComments ctx st = TypeError.
Proof.
  destruct ctx as
    [comment0 preceding enclosing following text0 opts root lastFlag].
  simpl. intros -> He Htest ->.
  unfold handleSwitchDefaultCaseComments. simpl. by rewrite He, Htest.
Qed.

(** For a suppression marker inside a union type without a following
    node the rule writes [followingNode.prettierIgnore] of
    [undefined]. *)
Lemma handleUnionTypeComments_raises ctx st :
  type_is (enclosingNode ctx) "UnionTypeAnnotation" ||
  type_is (enclosingNode ctx) "TSUnionType" = true ->
  isPrettierIgnoreComment (comment ctx) = true ->
  followingNode ctx = None ->
  handleUnionTypeComments ctx st = TypeError.
Proof.
  destruct ctx as
    [comment0 preceding enclosing following text0 opts root lastFlag].
  simpl. intros He Hignore ->.
  unfold handleUnionTypeComments. by rewrite He, Hignore.
Qed.

(** No chain reads the [options] of its context. *)
Lemma context_options_not_read p ctx o st :
  chain p (with_context_options ctx o) st = chain p ctx st.
Proof. destruct ctx, p; reflexivity. Qed.

End AbsenceAndConfiguration.

(** ** The rules on concrete sources *)

(** The empty-call example of C7 through the whole chain for remaining
    comments: one dangling comment on the call node.  The suppression
    marker inside a mapped type through the own-line chain: claimed,
    with the two flags and no attachment. *)
Lemma chain_commits_once_or_ignores_witness :
  appended_once 100 empty_store
    (attach Dangling 2 (mkEntry 100 None) empty_store) /\
  exists e,
    enclosingNode Examples.MappedType.context = Some e /\
    handleOwnLineComment (U:=reference_utils) Examples.MappedType.context
      empty_store =
      Ok (true, flag_unignore 100 (flag_prettierIgnore (nid e) empty_store)).
Proof.
  split.
  - refine (proj2 (chain_commits_once_or_ignores (U:=reference_utils)
                     Remaining Examples.EmptyCall.context empty_store)
              true (attach Dangling 2 (mkEntry 100 None) empty_store) _ _).
    + vm_compute. reflexivity.
    + right. intros (Hignore & _). vm_compute in Hignore. discriminate.
  - assert (Hclaim :
      ignore_claim (U:=reference_utils) Examples.MappedType.context).
    { split; [vm_compute; reflexivity|]. split; [reflexivity|].
      exists Examples.MappedType.typeParameter.
      split; [reflexivity|]. split; reflexivity. }
    assert (Hp : OwnLine <> EndOfLine) by discriminate.
    destruct (proj1 (chain_commits_once_or_ignores (U:=reference_utils)
                       OwnLine Examples.MappedType.context empty_store)
                Hp Hclaim) as (e & He & Hrun & _).
    exists e. split; [exact He | exact Hrun].
Defined.

(** C1 fails as stated: on a suppression marker inside a mapped type the
    own-line chain returns [true] and no comment list has changed. *)
Lemma ignore_comment_claimed_without_attachment :
  handleOwnLineComment (U:=reference_utils) Examples.MappedType.context
    empty_store =
    Ok (true, flag_unignore 100 (flag_prettierIgnore 3 empty_store)) /\
  ~ appended_once 100 empty_store
      (flag_unignore 100 (flag_prettierIgnore 3 empty_store)).
Proof.
  split; [vm_compute; reflexivity|].
  apply unchanged_not_appended.
  apply flag_unignore_unchanged, flag_prettierIgnore_unchanged, unchanged_refl.
Qed.

(** C2.  Two handlers raise a [TypeError] when the following node is
    absent: [handleSwitchDefaultCaseComments] reads
    [followingNode.type] in a default case, and
    [handleUnionTypeComments] writes [followingNode.prettierIgnore] for
    a suppression marker inside a union type.  The chains that consult
    them raise with them. *)
Theorem handlers_raise_without_following_node (st : Store) :
  handleSwitchDefaultCaseComments (U:=reference_utils)
    Examples.DefaultAlone.context st = TypeError /\
  handleEndOfLineComment (U:=reference_utils)
    Examples.DefaultAlone.context st = TypeError /\
  handleUnionTypeComments (U:=reference_utils)
    Examples.UnionNoFollowing.context st = TypeError /\
  handleOwnLineComment (U:=reference_utils)
    Examples.UnionNoFollowing.context st = TypeError.
Proof. repeat split; vm_compute; reflexivity. Qed.

(** C3.  The decision for a comment before [else] follows the object
    bound to the module-level [options], not the [options] of the
    context: with one and the same context the decision changes with
    the module-level object, and it does not change with the context's
    [options]. *)
Theorem else_comment_follows_module_options
    (st : Store) (context_options : obj) :
  handleIfStatementComments (U:=reference_utils)
    (Examples.BeforeElse.context context_options) st =
    Ok (true, attach Trailing 3 (mkEntry 100 None) st) /\
  handleIfStatementComments (U:=reference_utils_break)
    (Examples.BeforeElse.context context_options) st =
    Ok (true,
        attach Dangling 3
          (mkEntry 100 (Some "ifWithoutBlockAndSameLineComment")) st) /\
  handleEndOfLineComment (U:=reference_utils)
    (Examples.BeforeElse.context [("breakBeforeElse", VBool true)]) st =
    Ok (true, attach Trailing 3 (mkEntry 100 None) st) /\
  handleEndOfLineComment (U:=reference_utils_break)
    (Examples.BeforeElse.context [("breakBeforeElse", VBool false)]) st =
    Ok (true,
        attach Dangling 3
          (mkEntry 100 (Some "ifWithoutBlockAndSameLineComment")) st).
Proof. repeat split; vm_compute; reflexivity. Qed.

(** C5.  The decision for a comment between the consequent and the
    alternate of an if-statement is the one the claim describes, but
    with the style read from the module-level [options] of line 34 and
    not from the configuration carried in the context: for every
    instance of the imports and every context of this kind the code
    decides [else_decision module_cuddled].  So the claim, which takes
    the style from the configuration, fails: whatever object the
    module-level [options] is, there is a configuration of the context
    for which the decision of the code on
    [if (1) { x; } // c], [ else { y; }] is not the claimed one. *)
Theorem else_comment_style_not_from_context :
  (forall (U : JsUtils) (ctx : CommentContext) (st : Store) (p e f : node),
     precedingNode ctx = Some p ->
     enclosingNode ctx = Some e ->
     followingNode ctx = Some f ->
     ntype e = "IfStatement" ->
     strict_eq (VNode p) (prop "consequent" e) = true ->
     strict_eq (VNode f) (prop "alternate" e) = true ->
     getNextNonSpaceNonCommentCharacter (text ctx) (comment ctx) locEnd
       <> ")" ->
     let committed :=
       Ok (true, else_decision module_cuddled (comment ctx) p e st) in
     handleIfStatementComments ctx st = committed /\
     handleRemainingComment ctx st = committed /\
     (isTypeCastComment (comment ctx) = false ->
      handleEndOfLineComment ctx st = committed) /\
     (isMemberExpression (Some e) && String.eqb (ntype f) "Identifier"
        = false ->
      handleOwnLineComment ctx st = committed)) /\
  (forall module_options : obj,
     exists context_options : obj,
       let U := Reference.utils module_options in
       let ctx := Examples.BeforeElse.context context_options in
       let claimed :=
         Ok (true,
             else_decision (U:=U) (context_cuddled ctx) (comment ctx)
               Examples.BeforeElse.consequent Examples.BeforeElse.ifStatement
               empty_store) in
       context_cuddled ctx = negb (module_cuddled (U:=U)) /\
       handleIfStatementComments (U:=U) ctx empty_store <> claimed /\
       handleEndOfLineComment (U:=U) ctx empty_store <> claimed).
Proof.
  split; [intros; by apply else_rule_follows_module_style|].
  intros module_options.
  set (U := Reference.utils module_options).
  assert (Hcode : forall context_options,
    handleIfStatementComments (U:=U)
      (Examples.BeforeElse.context context_options) empty_store =
      Ok (true,
          else_decision (U:=U) (module_cuddled (U:=U)) Examples.BeforeElse.c
            Examples.BeforeElse.consequent Examples.BeforeElse.ifStatement
            empty_store) /\
    handleEndOfLineComment (U:=U)
      (Examples.BeforeElse.context context_options) empty_store =
      Ok (true,
          else_decision (U:=U) (module_cuddled (U:=U)) Examples.BeforeElse.c
            Examples.BeforeElse.consequent Examples.BeforeElse.ifStatement
            empty_store)).
  { intros context_options.
    destruct (else_rule_follows_module_style (U:=U)
                (Examples.BeforeElse.context context_options) empty_store
                Examples.BeforeElse.consequent Examples.BeforeElse.ifStatement
                Examples.BeforeElse.alternate
                eq_refl eq_refl eq_refl eq_refl eq_refl eq_refl)
      as (Hif & _ & Heol & _).
    - vm_compute. discriminate.
    - split; [exact Hif|]. apply Heol. vm_compute. reflexivity. }
  pose (lists := fun r : result (bool * Store) =>
    match r with
    | Ok (_, s) => (node_comments s Trailing 3, node_comments s Dangling 3)
    | TypeError => ([], [])
    end).
  destruct (truthy (lookup_prop "breakBeforeElse" module_options)) eqn:Hmodule.
  - exists []. cbv zeta.
    destruct (Hcode []) as [Hif Heol]. rewrite Hif, Heol.
    unfold module_cuddled.
    change (options (JsUtils:=U)) with module_options. rewrite Hmodule.
    split; [reflexivity|].
    split; intros H; apply (f_equal lists) in H; vm_compute in H;
      discriminate.
  - exists [("breakBeforeElse", VBool true)]. cbv zeta.
    destruct (Hcode [("breakBeforeElse", VBool true)]) as [Hif Heol].
    rewrite Hif, Heol.
    unfold module_cuddled.
    change (options (JsUtils:=U)) with module_options. rewrite Hmodule.
    split; [reflexivity|].
    split; intros H; apply (f_equal lists) in H; vm_compute in H;
      discriminate.
Qed.

(** [if (a /*c*/) {}]: the comment is trailing on [a]. *)
Lemma condition_paren_comment_trails_preceding_witness :
  handleRemainingComment (U:=reference_utils) Examples.IfCondition.context
    empty_store =
    Ok (true, attach Trailing 2 (mkEntry 100 None) empty_store) /\
  handleWhileComments (U:=reference_utils) Examples.WhileCondition.context
    empty_store =
    Ok (true, attach Trailing 2 (mkEntry 100 None) empty_store).
Proof.
  split.
  - pose proof
      (condition_paren_comment_trails_preceding (U:=reference_utils)
         Examples.IfCondition.context empty_store
         Examples.IfCondition.a Examples.IfCondition.ifStatement
         Examples.IfCondition.block
         eq_refl eq_refl eq_refl (or_introl eq_refl)) as H.
    refine (proj1 (proj2 (proj2 (H _)))). vm_compute. reflexivity.
  - pose proof
      (condition_paren_comment_trails_preceding (U:=reference_utils)
         Examples.WhileCondition.context empty_store
         Examples.WhileCondition.a Examples.WhileCondition.whileStatement
         Examples.WhileCondition.block
         eq_refl eq_refl eq_refl (or_intror eq_refl)) as H.
    refine (proj1 (proj2 (H _)) eq_refl). vm_compute. reflexivity.
Defined.

(** [if (a) /* c */ { ; x; }]: the comment leads [x;], the first
    statement of the block that is not empty. *)
Lemma comment_routed_to_block_witness :
  handleIfStatementComments (U:=reference_utils) Examples.IfBody.context
    empty_store =
    Ok (true, attach Leading 5 (mkEntry 100 None) empty_store).
Proof.
  pose proof
    (comment_routed_to_block (U:=reference_utils)
       Examples.IfBody.context empty_store
       Examples.IfBody.ifStatement Examples.IfBody.block
       [Examples.IfBody.empty; Examples.IfBody.statement]
       eq_refl eq_refl eq_refl) as H.
  refine (proj1 (proj2 H) eq_refl eq_refl _ eq_refl).
  vm_compute. discriminate.
Defined.

(** [foo(/* none */)] and [class A { m(/* c */) {} }]: dangling on the
    call node, and dangling on the function value of the method. *)
Lemma comment_in_empty_parens_witness :
  handleRemainingComment (U:=reference_utils) Examples.EmptyCall.context
    empty_store =
    Ok (true, attach Dangling 2 (mkEntry 100 None) empty_store) /\
  handleCommentInEmptyParens (U:=reference_utils)
    Examples.EmptyMethod.context empty_store =
    Ok (true, attach Dangling 6 (mkEntry 100 None) empty_store).
Proof.
  split.
  - pose proof
      (comment_in_empty_parens (U:=reference_utils)
         Examples.EmptyCall.context empty_store Examples.EmptyCall.call
         eq_refl) as H.
    refine (proj2 (proj1 (H _) (or_intror (conj eq_refl eq_refl)))
              _ _ _ eq_refl); try discriminate.
    vm_compute. reflexivity.
  - pose proof
      (comment_in_empty_parens (U:=reference_utils)
         Examples.EmptyMethod.context empty_store Examples.EmptyMethod.method
         eq_refl) as H.
    refine (proj1 (proj2 (H _) Examples.EmptyMethod.fn
                     (or_introl eq_refl) eq_refl eq_refl eq_refl)).
    vm_compute. reflexivity.
Defined.

(** C8 fails as stated: on [(a, b/*c*/) => x] the chain for remaining
    comments declines and attaches nothing; in particular it does not
    attach the comment as dangling on the arrow function. *)
Lemma arrow_inside_params_not_claimed :
  handleRemainingComment (U:=reference_utils) Examples.ArrowInside.context
    empty_store = Ok (false, empty_store) /\
  handleRemainingComment (U:=reference_utils) Examples.ArrowInside.context
    empty_store <>
    Ok (true, attach Dangling 2 (mkEntry 100 None) empty_store).
Proof.
  assert (H : handleRemainingComment (U:=reference_utils)
                Examples.ArrowInside.context empty_store =
              Ok (false, empty_store)) by (vm_compute; reflexivity).
  split; [exact H|]. rewrite H. discriminate.
Qed.

(** C8, as amended.  On [(a, b/*c*/) => x] the next non-whitespace,
    non-comment character after the comment is the closing parenthesis,
    not [=>]: [handleCommentAfterArrowParams] declines, and so does the
    whole chain for remaining comments, without attaching the comment.
    On [(a, b) /*c*/ => x], where the comment comes right before [=>],
    the chain attaches it as dangling on the arrow function. *)
Theorem arrow_params_comment (st : Store) :
  Reference.getNextNonSpaceNonCommentCharacter
    Examples.ArrowInside.source Examples.ArrowInside.c Reference.locEnd = ")" /\
  handleCommentAfterArrowParams (U:=reference_utils)
    Examples.ArrowInside.context st = Ok (false, st) /\
  handleRemainingComment (U:=reference_utils)
    Examples.ArrowInside.context st = Ok (false, st) /\
  handleCommentAfterArrowParams (U:=reference_utils)
    Examples.ArrowBefore.context st =
    Ok (true, attach Dangling 2 (mkEntry 100 None) st) /\
  handleRemainingComment (U:=reference_utils)
    Examples.ArrowBefore.context st =
    Ok (true, attach Dangling 2 (mkEntry 100 None) st).
Proof. repeat split; vm_compute; reflexivity. Qed.



(** [/** @type {Foo} */] at the end of a line, before [(y)]: the
    comment leads [y]. *)
Lemma type_cast_comment_leads_following_witness :
  isTypeCastComment (U:=reference_utils) Examples.TypeCast.c = true /\
  handleEndOfLineComment (U:=reference_utils) Examples.TypeCast.context
    empty_store =
    Ok (true, attach Leading 4 (mkEntry 100 None) empty_store).
Proof.
  pose proof
    (type_cast_comment_leads_following (U:=reference_utils)
       Examples.TypeCast.context empty_store Examples.TypeCast.y eq_refl)
    as [Hiff Hrule].
  assert (Hstar : starts_with_star (cvalue Examples.TypeCast.c))
    by (by exists " @type {Foo} ").
  assert (Htype : contains_at_type_word (cvalue Examples.TypeCast.c)).
  { exists "* ", " {Foo} ". split; [reflexivity|].
    right. exists " "%char, "{Foo} ". by split. }
  split.
  - apply Hiff. by repeat split.
  - exact (proj2 (Hrule eq_refl Hstar Htype)).
Defined.

(** * Further properties *)

(** ** Flags, markers and order *)

Lemma flagged_lists ok c st st' : flagged ok c st st' -> unchanged st st'.
Proof.
  induction 1 as [|st st1 n _ _ IH]; [apply unchanged_refl|].
  by apply flag_unignore_unchanged, flag_prettierIgnore_unchanged.
Qed.

Lemma flagged_never st st' c : flagged False c st st' -> st' = st.
Proof. by destruct 1. Qed.

Lemma flagged_weaken (ok ok' : Prop) c st st' :
  (ok -> ok') -> flagged ok c st st' -> flagged ok' c st st'.
Proof.
  intros H. induction 1 as [|st st1 n Hok _ IH]; [apply flagged_refl|].
  apply flagged_step; auto.
Qed.

Lemma flagged_flags ok c st st' :
  flagged ok c st st' ->
  prettierIgnore st ⊆ prettierIgnore st' /\
  unignore st ⊆ unignore st' /\
  unignore st' ⊆ unignore st ∪ {[c]}.
Proof.
  induction 1 as [|st st1 n _ _ (IH1 & IH2 & IH3)].
  - split; [done|]. split; [done|]. apply union_subseteq_l.
  - unfold flag_unignore, flag_prettierIgnore. simpl.
    split; [|split].
    + etrans; [exact IH1|]. apply union_subseteq_r.
    + etrans; [exact IH2|]. apply union_subseteq_r.
    + apply union_least; [apply union_subseteq_r | exact IH3].
Qed.

Lemma prettierIgnore_attach r n e st :
  prettierIgnore (attach r n e st) = prettierIgnore st.
Proof. by destruct r. Qed.

Lemma unignore_attach r n e st : unignore (attach r n e st) = unignore st.
Proof. by destruct r. Qed.

Section Effects.

Context {U : JsUtils}.

Ltac unfold_js :=
  unfold andM, orM, notM, cond, getp, set_prettierIgnore, set_unignore,
    deref, get, get_type_is, get_length, get_first, as_node, find_node,
    bind, ret, throw, modify.

Ltac brute :=
  repeat first [ progress simplify_eq/= | case_match ].

Lemma addLeadingComment_inv v c s u st' :
  addLeadingComment v c s = Ok (u, st') ->
  exists n, v = VNode n /\
            st' = attach Leading (nid n) (mkEntry (cid c) None) s.
Proof. unfold addLeadingComment. unfold_js. intros E; brute. eauto. Qed.

Lemma addTrailingComment_inv v c s u st' :
  addTrailingComment v c s = Ok (u, st') ->
  exists n, v = VNode n /\
            st' = attach Trailing (nid n) (mkEntry (cid c) None) s.
Proof. unfold addTrailingComment. unfold_js. intros E; brute. eauto. Qed.

Lemma addDanglingComment_inv v c mk s u st' :
  addDanglingComment v c mk s = Ok (u, st') ->
  exists n, v = VNode n /\
            st' = attach Dangling (nid n) (mkEntry (cid c) mk) s.
Proof. unfold addDanglingComment. unfold_js. intros E; brute. eauto. Qed.

Lemma addBlockStatementFirstComment_inv v c s u st' :
  addBlockStatementFirstComment v c s = Ok (u, st') ->
  exists r n, st' = attach r n (mkEntry (cid c) None) s.
Proof.
  unfold addBlockStatementFirstComment. unfold_js. intros E; brute;
    match goal with
    | H : addLeadingComment _ _ _ = Ok _ |- _ =>
        apply addLeadingComment_inv in H as (? & _ & ->)
    | H : addDanglingComment _ _ _ _ = Ok _ |- _ =>
        apply addDanglingComment_inv in H as (? & _ & ->)
    end; eauto.
Qed.

Lemma addBlockOrNotComment_inv v c s u st' :
  addBlockOrNotComment v c s = Ok (u, st') ->
  exists r n, st' = attach r n (mkEntry (cid c) None) s.
Proof.
  unfold addBlockOrNotComment. unfold_js. intros E; brute;
    match goal with
    | H : addLeadingComment _ _ _ = Ok _ |- _ =>
        apply addLeadingComment_inv in H as (? & _ & ->)
    | H : addBlockStatementFirstComment _ _ _ = Ok _ |- _ =>
        apply addBlockStatementFirstComment_inv in H as (? & ? & ->)
    end; eauto.
Qed.

(** Turn every attachment in the hypotheses into its store. *)
Ltac invert_attachments :=
  repeat match goal with
  | H : addLeadingComment _ _ _ = Ok _ |- _ =>
      apply addLeadingComment_inv in H as (? & ? & ->)
  | H : addTrailingComment _ _ _ = Ok _ |- _ =>
      apply addTrailingComment_inv in H as (? & ? & ->)
  | H : addDanglingComment _ _ _ _ = Ok _ |- _ =>
      apply addDanglingComment_inv in H as (? & ? & ->)
  | H : addBlockStatementFirstComment _ _ _ = Ok _ |- _ =>
      apply addBlockStatementFirstComment_inv in H as (? & ? & ->)
  | H : addBlockOrNotComment _ _ _ = Ok _ |- _ =>
      apply addBlockOrNotComment_inv in H as (? & ? & ->)
  end.

(** A leaf of the case analysis of a handler. *)
Ltac split_conditions :=
  repeat match goal with
  | H : _ && _ = true |- _ => apply andb_true_iff in H as [? ?]
  end.

Ltac flag_goal :=
  first [ apply flagged_refl
        | apply flagged_step; [split_conditions; done | apply flagged_refl] ].

Ltac leaf :=
  invert_attachments;
  first [ done
        | flag_goal
        | left; do 4 eexists; (split; [|split; [reflexivity|]]);
          [flag_goal | done] ].

Tactic Notation "effect_of" reference(h) :=
  let E := fresh "E" in
  intros [comment0 preceding enclosing following text0 opts root lastFlag]
         ? ? ?;
  unfold h; unfold_js; intros E; brute; unfold unmarked; leaf.

Lemma handleClosureTypeCastComments_effect ctx :
  effect (cid (comment ctx)) False unmarked False
    (handleClosureTypeCastComments ctx).
Proof. revert ctx. effect_of handleClosureTypeCastComments. Qed.

Lemma handleWhileComments_effect ctx :
  effect (cid (comment ctx)) False unmarked False (handleWhileComments ctx).
Proof. revert ctx. effect_of handleWhileComments. Qed.

Lemma handleUnionTypeComments_effect ctx :
  effect (cid (comment ctx)) (isPrettierIgnoreComment (comment ctx) = true)
    unmarked False (handleUnionTypeComments ctx).
Proof. revert ctx. effect_of handleUnionTypeComments. Qed.


Lemma ov_node o n : ov o = VNode n -> o = Some n.
Proof. destruct o; simpl; congruence. Qed.

Ltac marked_leaf :=
  invert_attachments;
  first [ done
        | flag_goal
        | left; do 4 eexists; (split; [|split; [reflexivity|]]);
          [flag_goal | try exact I] ].

Lemma handleIfStatementComments_effect ctx :
  effect (cid (comment ctx)) False (marker_ok ctx) False
    (handleIfStatementComments ctx).
Proof.
  destruct ctx as
    [comment0 preceding enclosing following text0 opts root lastFlag].
  intros st b st'. unfold handleIfStatementComments. unfold_js.
  intros E. brute; marked_leaf;
    simplify_eq; (split; [done|]); left; (split; [done|]); simpl;
    (split; [|by eexists]);
    match goal with
    | H : negb _ || _ = false |- _ =>
        apply orb_false_iff in H as [H _]; by apply negb_false_iff in H
    end.
Qed.

Lemma handleClassComments_loop_effect propNames c p e f :
  effect (cid c) False
    (fun r n mk =>
       match mk with
       | None => True
       | Some m =>
           r = Dangling /\ In m propNames /\
           exists e', e = Some e' /\ n = nid e'
       end)
    False (handleClassComments_loop propNames c p e f).
Proof.
  induction propNames as [|name propNames IH]; intros st b st'; simpl.
  - unfold_js. intros; simplify_eq. apply flagged_refl.
  - unfold_js. intros E. brute;
      first
        [ match goal with
          | H : handleClassComments_loop _ _ _ _ _ _ = Ok (true, _) |- _ =>
              apply IH in H;
              destruct H as [(st1 & r & n' & mk & Hf & -> & Ha)|[[] _]];
              left; exists st1, r, n', mk; (split; [done|]); (split; [done|]);
              destruct mk; [simpl in *; tauto|done]
          | H : handleClassComments_loop _ _ _ _ _ _ = Ok (false, _) |- _ =>
              apply IH in H; exact H
          end
        | marked_leaf ];
      simplify_eq; simpl; (split; [done|]); (split; [by left|by eexists]).
Qed.



Lemma handleTryStatementComments_effect ctx :
  effect (cid (comment ctx)) False unmarked False
    (handleTryStatementComments ctx).
Proof. revert ctx. effect_of handleTryStatementComments. Qed.

Lemma handleMemberExpressionComments_effect ctx :
  effect (cid (comment ctx)) False unmarked False
    (handleMemberExpressionComments ctx).
Proof. revert ctx. effect_of handleMemberExpressionComments. Qed.

Lemma handleConditionalExpressionComments_effect ctx :
  effect (cid (comment ctx)) False unmarked False
    (handleConditionalExpressionComments ctx).
Proof. revert ctx. effect_of handleConditionalExpressionComments. Qed.

Lemma handleObjectPropertyAssignment_effect ctx :
  effect (cid (comment ctx)) False unmarked False
    (handleObjectPropertyAssignment ctx).
Proof. revert ctx. effect_of handleObjectPropertyAssignment. Qed.

Lemma handleMethodNameComments_effect ctx :
  effect (cid (comment ctx)) False unmarked False
    (handleMethodNameComments ctx).
Proof. revert ctx. effect_of handleMethodNameComments. Qed.

Lemma handleFunctionNameComments_effect ctx :
  effect (cid (comment ctx)) False unmarked False
    (handleFunctionNameComments ctx).
Proof. revert ctx. effect_of handleFunctionNameComments. Qed.

Lemma handleCommentAfterArrowParams_effect ctx :
  effect (cid (comment ctx)) False unmarked False
    (handleCommentAfterArrowParams ctx).
Proof. revert ctx. effect_of handleCommentAfterArrowParams. Qed.

Lemma handleCommentInEmptyParens_effect ctx :
  effect (cid (comment ctx)) False unmarked False
    (handleCommentInEmptyParens ctx).
Proof. revert ctx. effect_of handleCommentInEmptyParens. Qed.

Lemma handleLastFunctionArgComments_effect ctx :
  effect (cid (comment ctx)) False unmarked False
    (handleLastFunctionArgComments ctx).
Proof. revert ctx. effect_of handleLastFunctionArgComments. Qed.

Lemma handleLabeledStatementComments_effect ctx :
  effect (cid (comment ctx)) False unmarked False
    (handleLabeledStatementComments ctx).
Proof. revert ctx. effect_of handleLabeledStatementComments. Qed.

Lemma handleBreakAndContinueStatementComments_effect ctx :
  effect (cid (comment ctx)) False unmarked False
    (handleBreakAndContinueStatementComments ctx).
Proof. revert ctx. effect_of handleBreakAndContinueStatementComments. Qed.

Lemma handleCallExpressionComments_effect ctx :
  effect (cid (comment ctx)) False unmarked False
    (handleCallExpressionComments ctx).
Proof. revert ctx. effect_of handleCallExpressionComments. Qed.

Lemma handlePropertyComments_effect ctx :
  effect (cid (comment ctx)) False unmarked False
    (handlePropertyComments ctx).
Proof. revert ctx. effect_of handlePropertyComments. Qed.

Lemma handleOnlyComments_effect ctx :
  effect (cid (comment ctx)) False unmarked False
    (handleOnlyComments ctx).
Proof. revert ctx. effect_of handleOnlyComments. Qed.

Lemma handleForComments_effect ctx :
  effect (cid (comment ctx)) False unmarked False
    (handleForComments ctx).
Proof. revert ctx. effect_of handleForComments. Qed.

Lemma handleModuleSpecifiersComments_effect ctx :
  effect (cid (comment ctx)) False unmarked False
    (handleModuleSpecifiersComments ctx).
Proof. revert ctx. effect_of handleModuleSpecifiersComments. Qed.

Lemma handleAssignmentPatternComments_effect ctx :
  effect (cid (comment ctx)) False unmarked False
    (handleAssignmentPatternComments ctx).
Proof. revert ctx. effect_of handleAssignmentPatternComments. Qed.

Lemma handleVariableDeclaratorComments_effect ctx :
  effect (cid (comment ctx)) False unmarked False
    (handleVariableDeclaratorComments ctx).
Proof. revert ctx. effect_of handleVariableDeclaratorComments. Qed.

Lemma handleTSFunctionTrailingComments_effect ctx :
  effect (cid (comment ctx)) False unmarked False
    (handleTSFunctionTrailingComments ctx).
Proof. revert ctx. effect_of handleTSFunctionTrailingComments. Qed.

Lemma handleTSMappedTypeComments_effect ctx :
  effect (cid (comment ctx)) False unmarked False
    (handleTSMappedTypeComments ctx).
Proof. revert ctx. effect_of handleTSMappedTypeComments. Qed.

Lemma handleSwitchDefaultCaseComments_effect ctx :
  effect (cid (comment ctx)) False unmarked False
    (handleSwitchDefaultCaseComments ctx).
Proof. revert ctx. effect_of handleSwitchDefaultCaseComments. Qed.

Lemma handleClassComments_effect ctx :
  effect (cid (comment ctx)) False (marker_ok ctx) False
    (handleClassComments ctx).
Proof.
  destruct ctx as
    [comment0 preceding enclosing following text0 opts root lastFlag].
  intros st b st'. unfold handleClassComments.
  assert (Hnames : forall m, In m ["implements"; "extends"; "mixins"] ->
                             In m ["implements"; "extends"; "mixins"])
    by done.
  revert Hnames. generalize ["implements"; "extends"; "mixins"] at 1 3.
  intros propNames Hnames. unfold_js. intros E.
  brute;
    first
      [ match goal with
        | H : handleClassComments_loop _ _ _ _ _ _ = Ok (true, _) |- _ =>
            apply handleClassComments_loop_effect in H;
            destruct H as [(st1 & r & n' & mk & Hf & -> & Ha)|[[] _]];
            left; exists st1, r, n', mk; (split; [done|]); (split; [done|]);
            destruct mk; [|done];
            destruct Ha as (-> & Hin & e' & He & ->); simplify_eq;
            split; [done|]; right; split; [by apply Hnames|];
            split; [done | by eexists]
        | H : handleClassComments_loop _ _ _ _ _ _ = Ok (false, _) |- _ =>
            by apply handleClassComments_loop_effect in H
        end
      | marked_leaf ].
Qed.

Lemma handleIgnoreComments_effect ctx :
  effect (cid (comment ctx)) (isPrettierIgnoreComment (comment ctx) = true)
    unmarked (ignore_claim ctx) (handleIgnoreComments ctx).
Proof.
  destruct ctx as
    [comment0 preceding enclosing following text0 opts root lastFlag].
  intros st b st'. unfold handleIgnoreComments. unfold_js.
  intros E. brute; try flag_goal.
  right. split; [|flag_goal].
  unfold ignore_claim; simpl. repeat split; try assumption.
  eexists. repeat split; try eassumption. by apply String.eqb_eq.
Qed.

(** One handler's effect, under weaker descriptions. *)
Lemma effect_weaken c (ok ok' : Prop) (allowed allowed' : _ -> _ -> _ -> Prop)
    (silent silent' : Prop) m :
  (ok -> ok') ->
  (forall r n mk, allowed r n mk -> allowed' r n mk) ->
  (silent -> silent') ->
  effect c ok allowed silent m -> effect c ok' allowed' silent' m.
Proof.
  intros Hok Hallowed Hsilent H st b st' E. specialize (H st b st' E).
  destruct b.
  - destruct H as [(st1 & r & n & mk & Hf & -> & Ha)|[Hs Hf]].
    + left. exists st1, r, n, mk. eauto using flagged_weaken.
    + right. eauto using flagged_weaken.
  - eauto using flagged_weaken.
Qed.

Lemma unmarked_marker_ok ctx r n mk : unmarked r n mk -> marker_ok ctx r n mk.
Proof. by intros ->. Qed.

Lemma flagged_trans ok c st1 st2 st3 :
  flagged ok c st1 st2 -> flagged ok c st2 st3 -> flagged ok c st1 st3.
Proof.
  intros H12. induction 1 as [|st2 st3 n Hok _ IH]; [done|].
  apply flagged_step; auto.
Qed.

(** The effect of a chain: the handlers that decline write at most
    flags, and the first that claims ends the chain. *)
Lemma some_effect c ok allowed silent handlers ctx :
  Forall (fun fn => effect c ok allowed silent (fn ctx)) handlers ->
  effect c ok allowed silent (some handlers ctx).
Proof.
  induction 1 as [|fn rest Hfn _ IH]; intros st b st'; simpl.
  - unfold ret. intros; simplify_eq. apply flagged_refl.
  - unfold bind, ret. intros E.
    destruct (fn ctx st) as [[[] st1]|] eqn:Efn; [| |done].
    + simplify_eq. exact (Hfn st true st' Efn).
    + pose proof (Hfn st false st1 Efn) as H1. simpl in H1.
      specialize (IH st1 b st' E). destruct b.
      * destruct IH as [(st2 & r & n & mk & Hf & -> & Ha)|[Hs Hf]].
        -- left. exists st2, r, n, mk. eauto using flagged_trans.
        -- right. eauto using flagged_trans.
      * eauto using flagged_trans.
Qed.

Ltac chain_member :=
  first
    [ eapply effect_weaken; [| | |
        first [ apply handleIgnoreComments_effect
              | apply handleUnionTypeComments_effect
              | apply handleIfStatementComments_effect
              | apply handleClassComments_effect
              | apply handleClosureTypeCastComments_effect
              | apply handleWhileComments_effect
              | apply handleTryStatementComments_effect
              | apply handleMemberExpressionComments_effect
              | apply handleConditionalExpressionComments_effect
              | apply handleObjectPropertyAssignment_effect
              | apply handleMethodNameComments_effect
              | apply handleFunctionNameComments_effect
              | apply handleCommentAfterArrowParams_effect
              | apply handleCommentInEmptyParens_effect
              | apply handleLastFunctionArgComments_effect
              | apply handleLabeledStatementComments_effect
              | apply handleBreakAndContinueStatementComments_effect
              | apply handleCallExpressionComments_effect
              | apply handlePropertyComments_effect
              | apply handleOnlyComments_effect
              | apply handleForComments_effect
              | apply handleModuleSpecifiersComments_effect
              | apply handleAssignmentPatternComments_effect
              | apply handleVariableDeclaratorComments_effect
              | apply handleTSFunctionTrailingComments_effect
              | apply handleTSMappedTypeComments_effect
              | apply handleSwitchDefaultCaseComments_effect
              ] ];
      [ tauto | first [ apply unmarked_marker_ok | done ] | tauto ] ].

Lemma chain_has_effect p ctx : chain_effect ctx (chain p ctx).
Proof.
  destruct p; apply some_effect;
    repeat first [ apply List.Forall_nil
                 | apply List.Forall_cons; [cbv beta; chain_member|] ].
Qed.


Lemma effect_unmarked ctx c m :
  effect c False unmarked False m -> effect c False (marker_ok ctx) False m.
Proof.
  apply effect_weaken; [done | apply unmarked_marker_ok | done].
Qed.

(** The end-of-line chain has neither of the two handlers that write
    flags. *)
Lemma handleEndOfLineComment_effect ctx :
  effect (cid (comment ctx)) False (marker_ok ctx) False
    (handleEndOfLineComment ctx).
Proof.
  apply some_effect.
  repeat first
    [ apply List.Forall_nil
    | apply List.Forall_cons;
        [cbv beta;
         first [ apply handleIfStatementComments_effect
               | apply handleClassComments_effect
               | apply effect_unmarked ]|] ].
  - apply handleClosureTypeCastComments_effect.
  - apply handleLastFunctionArgComments_effect.
  - apply handleConditionalExpressionComments_effect.
  - apply handleModuleSpecifiersComments_effect.
  - apply handleWhileComments_effect.
  - apply handleTryStatementComments_effect.
  - apply handleLabeledStatementComments_effect.
  - apply handleCallExpressionComments_effect.
  - apply handlePropertyComments_effect.
  - apply handleOnlyComments_effect.
  - apply handleVariableDeclaratorComments_effect.
  - apply handleBreakAndContinueStatementComments_effect.
  - apply handleSwitchDefaultCaseComments_effect.
Qed.

(** The store at the end of a run with a given effect has the lists of
    the store it started from, but for the appended entry. *)
Lemma effect_lists c ok allowed silent m st b st' :
  effect c ok allowed silent m -> m st = Ok (b, st') ->
  unchanged st st' \/
  exists st1 r n mk,
    unchanged st st1 /\ flagged ok c st st1 /\
    st' = attach r n (mkEntry c mk) st1 /\ allowed r n mk /\ b = true.
Proof.
  intros H E. specialize (H st b st' E). destruct b.
  - destruct H as [(st1 & r & n & mk & Hf & -> & Ha)|[_ Hf]].
    + right. exists st1, r, n, mk. eauto 10 using flagged_lists.
    + left. eauto using flagged_lists.
  - left. eauto using flagged_lists.
Qed.

Lemma effect_flags c ok allowed silent m st b st' :
  effect c ok allowed silent m -> m st = Ok (b, st') ->
  exists st1, flagged ok c st st1 /\
    prettierIgnore st' = prettierIgnore st1 /\ unignore st' = unignore st1.
Proof.
  intros H E. specialize (H st b st' E). destruct b.
  - destruct H as [(st1 & r & n & mk & Hf & -> & Ha)|[_ Hf]].
    + exists st1. by rewrite prettierIgnore_attach, unignore_attach.
    + by exists st'.
  - by exists st'.
Qed.

(** X1.  A run of a chain never clears a flag, and the only [unignore]
    flag it can set is that of its own comment.  It writes no flag at
    all when the comment is not a suppression marker, and the
    end-of-line chain writes none even for a suppression marker. *)
Theorem chain_flag_writes
    (p : Placement) (ctx : CommentContext) (st st' : Store) (b : bool) :
  chain p ctx st = Ok (b, st') ->
  prettierIgnore st ⊆ prettierIgnore st' /\
  unignore st ⊆ unignore st' /\
  unignore st' ⊆ unignore st ∪ {[cid (comment ctx)]} /\
  (p = EndOfLine \/ isPrettierIgnoreComment (comment ctx) = false ->
   flags_unchanged st st').
Proof.
  intros E.
  destruct (effect_flags _ _ _ _ _ _ _ _ (chain_has_effect p ctx) E)
    as (st1 & Hf & Hp & Hu).
  destruct (flagged_flags _ _ _ _ Hf) as (H1 & H2 & H3).
  rewrite Hp, Hu. split; [done|]. split; [done|]. split; [done|].
  unfold flags_unchanged. rewrite Hp, Hu.
  intros [-> | Hno].
  - destruct (effect_flags _ _ _ _ _ _ _ _
                (handleEndOfLineComment_effect ctx) E)
      as (st2 & Hf2 & Hp2 & Hu2).
    apply flagged_never in Hf2 as ->. split; congruence.
  - assert (st1 = st) as ->; [|done].
    apply (flagged_never _ _ (cid (comment ctx))).
    eapply flagged_weaken; [|exact Hf]. congruence.
Qed.

(** What one run does to a list. *)
Lemma chain_run_lists p ctx st b st' :
  chain p ctx st = Ok (b, st') ->
  forall r n,
    node_comments st' r n = node_comments st r n \/
    exists mk,
      node_comments st' r n =
        node_comments st r n ++ [mkEntry (cid (comment ctx)) mk] /\
      marker_ok ctx r n mk.
Proof.
  intros E r n.
  destruct (effect_lists _ _ _ _ _ _ _ _ (chain_has_effect p ctx) E)
    as [H | (st1 & r1 & n1 & mk & H1 & _ & -> & Ha & _)]; [by left|].
  rewrite node_comments_attach.
  case_decide as Hd; [|left; apply H1].
  destruct Hd as [-> ->]. right. exists mk. by rewrite H1.
Qed.

(** X2.  The entry by which a run of a chain has grown a list is an
    entry of the context's comment, and its marker is under the
    discipline [marker_ok]: leading and trailing comments carry no
    marker; a dangling comment carries none, or the same-line marker on
    the preceding node inside an if-statement, or the name of the
    heritage list ([implements], [extends], [mixins]) on the enclosing
    class-like node. *)
Theorem chain_marker_discipline
    (p : Placement) (ctx : CommentContext) (st st' : Store) (b : bool)
    (r : Role) (n : nat) (e : Entry) :
  chain p ctx st = Ok (b, st') ->
  node_comments st' r n = node_comments st r n ++ [e] ->
  e_comment e = cid (comment ctx) /\ marker_ok ctx r n (e_marker e).
Proof.
  intros E Hgrown.
  destruct (chain_run_lists p ctx st b st' E r n) as [H | (mk & H & Ha)].
  - rewrite H in Hgrown. apply (f_equal length) in Hgrown.
    rewrite length_app in Hgrown. simpl in Hgrown. lia.
  - rewrite H in Hgrown. apply app_inv_head in Hgrown.
    by injection Hgrown as <-.
Qed.

(** X3.  Runs append in processing order.  After a run for one comment
    and then a run for another, every list of every node is the list
    from before the two runs followed by at most the entry of the first
    comment and then at most the entry of the second: nothing is
    removed, nothing is reordered, nothing is inserted before an older
    entry. *)
Theorem chain_runs_append_in_order
    (p1 p2 : Placement) (ctx1 ctx2 : CommentContext)
    (st st1 st2 : Store) (b1 b2 : bool) (r : Role) (n : nat) :
  chain p1 ctx1 st = Ok (b1, st1) ->
  chain p2 ctx2 st1 = Ok (b2, st2) ->
  exists l,
    node_comments st2 r n = node_comments st r n ++ l /\
    in_processing_order (cid (comment ctx1)) (cid (comment ctx2)) l.
Proof.
  intros E1 E2. unfold in_processing_order.
  destruct (chain_run_lists p1 ctx1 st b1 st1 E1 r n)
    as [H1 | (mk1 & H1 & _)];
  destruct (chain_run_lists p2 ctx2 st1 b2 st2 E2 r n)
    as [H2 | (mk2 & H2 & _)]; rewrite H2, H1.
  - exists []. rewrite app_nil_r. auto.
  - eexists [_]. split; [done|]. simpl. auto.
  - eexists [_]. split; [done|]. simpl. auto.
  - eexists [_; _]. rewrite <- app_assoc. split; [done|]. simpl. auto.
Qed.

End Effects.

(** ** Further rules, read off the handlers *)

Section FurtherRules.

Context {U : JsUtils}.

Ltac unfold_js :=
  unfold andM, orM, notM, cond, getp, set_prettierIgnore, set_unignore,
    deref, get, get_type_is, get_length, get_first, as_node, find_node,
    bind, ret, throw, modify.

Ltac brute := repeat first [progress simplify_eq/= | case_match].

(** Rewrite with what is known of the types of the context nodes. *)
Ltac known_types :=
  repeat match goal with
         | H : ntype ?n = _ |- context [ntype ?n] => rewrite !H
         end.

Ltac eqb_facts :=
  repeat match goal with
         | H : String.eqb _ _ = true |- _ => apply String.eqb_eq in H
         | H : String.eqb _ _ = false |- _ => apply String.eqb_neq in H
         end.

Ltac split_conditions :=
  repeat match goal with
         | H : _ && _ = true |- _ => apply andb_true_iff in H as [? ?]
         | H : _ || _ = false |- _ => apply orb_false_iff in H as [? ?]
         | H : negb _ = true |- _ => apply negb_true_iff in H
         | H : negb _ = false |- _ => apply negb_false_iff in H
         end.

(** The handler of the goal, once unfolded, declines on the context of
    the goal. *)
Ltac declined :=
  repeat match goal with
         | H : _ = Ok _ |- _ => clear H
         | H : _ \/ _ |- _ => clear H
         end;
  unfold isRealFunctionLikeNode; unfold_js;
  simpl; known_types; simpl;
  rewrite ?andb_false_r, ?orb_false_r; simpl;
  brute;
  first [done | congruence | split_conditions; eqb_facts; congruence].

(** [handleOnlyComments] declines on a program with statements. *)
Lemma handleOnlyComments_declines ctx st :
  program_is_empty (ast ctx) = false ->
  type_is (enclosingNode ctx) "Program" = false ->
  type_is (followingNode ctx) "Program" = false ->
  handleOnlyComments ctx st = Ok (false, st).
Proof.
  destruct ctx as
    [comment0 preceding enclosing following text0 opts root lastFlag].
  unfold program_is_empty. simpl. intros Hast He Hf.
  unfold handleOnlyComments. unfold_js. rewrite He, Hf.
  destruct root as [a|]; simpl; [|done].
  destruct (prop "body" a) as [| |[]|?|[|? ?]]; simpl; done.
Qed.

(** A handler that declines hands the context on to the rest of the
    chain. *)
Lemma some_skip fn rest ctx st :
  fn ctx st = Ok (false, st) -> some (fn :: rest) ctx st = some rest ctx st.
Proof. intros H. by rewrite some_cons, H. Qed.

Ltac skip_only :=
  rewrite some_skip
    by (apply handleOnlyComments_declines; simpl; known_types; done).

Tactic Notation "skip" reference(h) :=
  rewrite some_skip by (unfold h; declined).

(** X4.  A comment inside a [break] or [continue] statement without a
    label trails the statement.  Such a statement has no child node, so
    the comment has neither a preceding nor a following node, and then,
    in a program with statements, this is the decision of all three
    chains, unless the imports take the statement for an object
    property or a call. *)
Theorem comment_in_unlabeled_jump
    (ctx : CommentContext) (st : Store) (e : node) :
  enclosingNode ctx = Some e ->
  ntype e = "BreakStatement" \/ ntype e = "ContinueStatement" ->
  truthy (prop "label" e) = false ->
  let committed :=
    Ok (true, attach Trailing (nid e) (entry (comment ctx) None) st) in
  handleBreakAndContinueStatementComments ctx st = committed /\
  (precedingNode ctx = None -> followingNode ctx = None ->
   program_is_empty (ast ctx) = false ->
   handleOwnLineComment ctx st = committed /\
   (isObjectProperty (Some e) = false ->
    handleEndOfLineComment ctx st = committed) /\
   (isObjectProperty (Some e) = false -> isCallLikeExpression e = false ->
    handleRemainingComment ctx st = committed)).
Proof.
  destruct ctx as
    [comment0 preceding enclosing following text0 opts root lastFlag].
  simpl. intros -> He Hlabel.
  assert (Hjump :
    handleBreakAndContinueStatementComments
      (mkContext comment0 preceding (Some e) following text0 opts root lastFlag)
      st = Ok (true, attach Trailing (nid e) (entry comment0 None) st)).
  { unfold handleBreakAndContinueStatementComments. unfold_js. simpl.
    destruct He as [He | He]; rewrite He; simpl; by rewrite Hlabel. }
  split; [exact Hjump|]. intros -> -> Hast.
  split; [|split].
  - unfold handleOwnLineComment.
    destruct He as [He | He];
      (skip handleIgnoreComments;
       skip handleLastFunctionArgComments;
       skip handleMemberExpressionComments;
       skip handleIfStatementComments;
       skip handleWhileComments;
       skip handleTryStatementComments;
       skip handleClassComments;
       skip handleForComments;
       skip handleUnionTypeComments;
       skip_only;
       skip handleModuleSpecifiersComments;
       skip handleAssignmentPatternComments;
       skip handleMethodNameComments;
       skip handleLabeledStatementComments;
       by rewrite some_cons, Hjump).
  - intros Hproperty. unfold handleEndOfLineComment.
    destruct He as [He | He];
      (skip handleClosureTypeCastComments;
       skip handleLastFunctionArgComments;
       skip handleConditionalExpressionComments;
       skip handleModuleSpecifiersComments;
       skip handleIfStatementComments;
       skip handleWhileComments;
       skip handleTryStatementComments;
       skip handleClassComments;
       skip handleLabeledStatementComments;
       skip handleCallExpressionComments;
       skip handlePropertyComments;
       skip_only;
       skip handleVariableDeclaratorComments;
       by rewrite some_cons, Hjump).
  - intros Hproperty Hcall. unfold handleRemainingComment.
    destruct He as [He | He];
      (skip handleIgnoreComments;
       skip handleIfStatementComments;
       skip handleWhileComments;
       skip handleObjectPropertyAssignment;
       skip handleCommentInEmptyParens;
       skip handleMethodNameComments;
       skip_only;
       skip handleCommentAfterArrowParams;
       skip handleFunctionNameComments;
       skip handleTSMappedTypeComments;
       by rewrite some_cons, Hjump).
Qed.

(** X5.  A comment in a program without statements goes to the program
    node: dangling when it is the last comment, leading otherwise.  The
    program node is the root when the root has an empty [body], and else
    the enclosing [Program] node with an empty [body] and no directives
    (the root is then a wrapper without a [body] of its own).  With no
    preceding and no following node this is the decision of the
    own-line chain, and of the other two chains unless the imports take
    the enclosing node for an object property or, for the chain of
    remaining comments, a closing parenthesis comes next. *)
Theorem comment_in_empty_program
    (ctx : CommentContext) (st : Store) (owner : node) :
  precedingNode ctx = None ->
  followingNode ctx = None ->
  (program_is_empty (ast ctx) = true /\ ast ctx = Some owner /\
   (enclosingNode ctx = None \/
    type_is (enclosingNode ctx) "Program" = true)) \/
  (program_is_empty (ast ctx) = false /\ enclosingNode ctx = Some owner /\
   ntype owner = "Program" /\ prop "body" owner = VArr [] /\
   isNonEmptyArray (prop "directives" owner) = false) ->
  let committed :=
    Ok (true,
        attach (if isLastComment ctx then Dangling else Leading) (nid owner)
          (entry (comment ctx) None) st) in
  handleOnlyComments ctx st = committed /\
  handleOwnLineComment ctx st = committed /\
  (isObjectProperty (enclosingNode ctx) = false ->
   handleEndOfLineComment ctx st = committed) /\
  (isObjectProperty (enclosingNode ctx) = false ->
   getNextNonSpaceNonCommentCharacter (text ctx) (comment ctx) locEnd <> ")" ->
   handleRemainingComment ctx st = committed).
Proof.
  destruct ctx as
    [comment0 preceding enclosing following text0 opts root lastFlag].
  simpl. intros -> -> Hcase.
  assert (Henc : enclosing = None \/
                 exists e, enclosing = Some e /\ ntype e = "Program").
  { destruct Hcase as [(_ & _ & [-> | He]) | (_ & -> & He & _)].
    - by left.
    - destruct enclosing as [e|]; [|discriminate]. right. exists e.
      split; [done|]. by apply String.eqb_eq.
    - right. by exists owner. }
  assert (Honly :
    handleOnlyComments
      (mkContext comment0 None enclosing None text0 opts root lastFlag) st =
    Ok (true,
        attach (if lastFlag then Dangling else Leading) (nid owner)
          (entry comment0 None) st)).
  { unfold handleOnlyComments, program_is_empty in *. unfold_js.
    destruct Hcase as [(Hast & -> & _) | (Hast & -> & He & Hbody & Hdir)].
    - simpl in *. destruct (prop "body" owner) as [| |?|?|[|? ?]]; try done.
      simpl. by destruct lastFlag.
    - simpl. rewrite He, Hbody, Hdir. simpl.
      destruct root as [a|]; simpl.
      + destruct (prop "body" a) as [| |[]|?|[|? ?]]; simpl in *;
          try done; by destruct lastFlag.
      + by destruct lastFlag. }
  split; [exact Honly|].
  split; [|split].
  - unfold handleOwnLineComment.
    destruct Henc as [-> | (e & -> & He)];
      (skip handleIgnoreComments;
       skip handleLastFunctionArgComments;
       skip handleMemberExpressionComments;
       skip handleIfStatementComments;
       skip handleWhileComments;
       skip handleTryStatementComments;
       skip handleClassComments;
       skip handleForComments;
       skip handleUnionTypeComments;
       by rewrite some_cons, Honly).
  - intros Hproperty. unfold handleEndOfLineComment.
    destruct Henc as [-> | (e & -> & He)];
      (skip handleClosureTypeCastComments;
       skip handleLastFunctionArgComments;
       skip handleConditionalExpressionComments;
       skip handleModuleSpecifiersComments;
       skip handleIfStatementComments;
       skip handleWhileComments;
       skip handleTryStatementComments;
       skip handleClassComments;
       skip handleLabeledStatementComments;
       skip handleCallExpressionComments;
       skip handlePropertyComments;
       by rewrite some_cons, Honly).
  - intros Hproperty Hnext. apply String.eqb_neq in Hnext.
    unfold handleRemainingComment.
    destruct Henc as [-> | (e & -> & He)];
      (skip handleIgnoreComments;
       skip handleIfStatementComments;
       skip handleWhileComments;
       skip handleObjectPropertyAssignment;
       skip handleCommentInEmptyParens;
       skip handleMethodNameComments;
       by rewrite some_cons, Honly).
Qed.

(** X6.  A comment after the last parameter trails that parameter: in
    a Flow function type, when the preceding node is a
    [FunctionTypeParam] and the following node is not one; and in a
    function or a TypeScript function type, when the preceding node is
    an identifier or an assignment pattern and a closing parenthesis
    comes next.  This is the decision of the own-line chain, and of the
    end-of-line chain unless the comment is a type cast before a
    following node. *)
Theorem comment_after_last_parameter
    (ctx : CommentContext) (st : Store) (p e : node) :
  precedingNode ctx = Some p ->
  enclosingNode ctx = Some e ->
  (ntype p = "FunctionTypeParam" /\ ntype e = "FunctionTypeAnnotation" /\
   type_is (followingNode ctx) "FunctionTypeParam" = false) \/
  ((ntype p = "Identifier" \/ ntype p = "AssignmentPattern") /\
   isRealFunctionLikeNode e = true /\
   getNextNonSpaceNonCommentCharacter (text ctx) (comment ctx) locEnd = ")") ->
  let committed :=
    Ok (true, attach Trailing (nid p) (entry (comment ctx) None) st) in
  handleLastFunctionArgComments ctx st = committed /\
  handleOwnLineComment ctx st = committed /\
  (is_some (followingNode ctx) && isTypeCastComment (comment ctx) = false ->
   handleEndOfLineComment ctx st = committed).
Proof.
  destruct ctx as
    [comment0 preceding enclosing following text0 opts root lastFlag].
  simpl. intros -> -> Hcase.
  assert (Hlast :
    handleLastFunctionArgComments
      (mkContext comment0 (Some p) (Some e) following text0 opts root lastFlag)
      st = Ok (true, attach Trailing (nid p) (entry comment0 None) st)).
  { unfold handleLastFunctionArgComments. simpl.
    destruct Hcase as [(Hp & He & Hf) | (Hp & He & Hnext)].
    - by rewrite Hp, He, Hf.
    - rewrite He, Hnext. simpl.
      destruct Hp as [Hp | Hp]; by rewrite Hp. }
  assert (Hmapped : ntype e <> "TSMappedType").
  { intros Heq.
    destruct Hcase as [(_ & He & _) | (_ & He & _)]; [congruence|].
    unfold isRealFunctionLikeNode in He. by rewrite Heq in He. }
  split; [exact Hlast|]. split.
  - unfold handleOwnLineComment.
    rewrite some_skip
      by (by apply (handleIgnoreComments_declines _ st e)).
    by rewrite some_cons, Hlast.
  - intros Hcast. unfold handleEndOfLineComment.
    rewrite some_skip by (by apply handleClosureTypeCastComments_declines).
    by rewrite some_cons, Hlast.
Qed.

(** A handler that does not decline decides for the chain. *)
Lemma some_decides fn rest ctx st :
  (forall st', fn ctx st <> Ok (false, st')) ->
  some (fn :: rest) ctx st = fn ctx st.
Proof.
  intros H. rewrite some_cons.
  destruct (fn ctx st) as [[[] st']|]; [done| |done]. by destruct (H st').
Qed.

(** X7.  Comments in a try statement or a catch clause, before a
    following node.  In a catch clause a comment with a preceding node
    (the parameter) trails it.  Otherwise a comment before a catch
    clause goes into the block of the clause, as the leading comment of
    its first statement that is not empty or as a dangling comment of
    the block; before a try statement it goes to the finalizer of that
    statement, and the rule raises a type error when there is none; and
    before a node that is no block, try statement or catch clause the
    rule declines.  What the rule decides when it does not decline is
    the decision of the own-line chain, unless the imports take the
    enclosing node for a member expression, and of the end-of-line
    chain, unless the comment is a type cast. *)
Theorem comment_in_try_statement
    (ctx : CommentContext) (st : Store) (e f : node) :
  enclosingNode ctx = Some e ->
  followingNode ctx = Some f ->
  ntype e = "TryStatement" \/ ntype e = "CatchClause" ->
  let rule := handleTryStatementComments ctx st in
  (ntype e = "CatchClause" ->
   forall p, precedingNode ctx = Some p ->
     rule = Ok (true, attach Trailing (nid p) (entry (comment ctx) None) st)) /\
  (ntype e = "TryStatement" \/ precedingNode ctx = None ->
   (ntype f = "CatchClause" ->
    forall b stmts,
      prop "body" f = VNode b -> ntype b = "BlockStatement" ->
      block_children b = VArr stmts ->
      rule = Ok (true, block_first_comment b stmts (comment ctx) st)) /\
   (ntype f = "TryStatement" -> truthy (prop "finalizer" f) = false ->
    rule = TypeError) /\
   (ntype f <> "BlockStatement" -> ntype f <> "TryStatement" ->
    ntype f <> "CatchClause" -> rule = Ok (false, st))) /\
  ((forall st', rule <> Ok (false, st')) ->
   (isMemberExpression (Some e) && String.eqb (ntype f) "Identifier" = false ->
    handleOwnLineComment ctx st = rule) /\
   (isTypeCastComment (comment ctx) = false ->
    handleEndOfLineComment ctx st = rule)).
Proof.
  destruct ctx as
    [comment0 preceding enclosing following text0 opts root lastFlag].
  simpl. intros -> -> He.
  split; [|split].
  - intros Hcatch p ->. unfold handleTryStatementComments. unfold_js. simpl.
    by rewrite Hcatch.
  - intros Hguard.
    assert (Hfirst :
      (String.eqb (ntype e) "CatchClause" && is_some preceding) = false).
    { destruct Hguard as [Htry | ->]; [by rewrite Htry|].
      apply andb_false_r. }
    assert (Henter :
      (negb (String.eqb (ntype e) "TryStatement") &&
       negb (String.eqb (ntype e) "CatchClause") || false) = false).
    { by destruct He as [-> | ->]. }
    split; [|split].
    + intros Hf b stmts Hbody Hb Hstmts.
      unfold handleTryStatementComments, addBlockOrNotComment.
      unfold_js. simpl. rewrite Henter. simpl.
      destruct (String.eqb (ntype e) "CatchClause"); simpl in *;
        rewrite ?Hfirst, Hf; simpl; rewrite Hbody, Hb; simpl; unfold bind;
        by rewrite (addBlockStatementFirstComment_block b stmts comment0 st
                      Hstmts).
    + intros Hf Hfin.
      unfold handleTryStatementComments, addBlockOrNotComment,
        addLeadingComment.
      unfold_js. simpl. rewrite Henter. simpl.
      destruct (String.eqb (ntype e) "CatchClause"); simpl in *;
        rewrite ?Hfirst, Hf; simpl;
        by destruct (prop "finalizer" f) as [| |[]|?|?].
    + intros H1 H2 H3. apply String.eqb_neq in H1, H2, H3.
      unfold handleTryStatementComments. unfold_js. simpl.
      rewrite Henter. simpl.
      destruct (String.eqb (ntype e) "CatchClause"); simpl in *;
        by rewrite ?Hfirst, H1, H2, H3.
  - intros Hrule. split.
    + intros Hmember. unfold handleOwnLineComment.
      destruct He as [He | He];
        (skip handleIgnoreComments;
         skip handleLastFunctionArgComments;
         skip handleMemberExpressionComments;
         skip handleIfStatementComments;
         skip handleWhileComments;
         by apply some_decides).
    + intros Hcast. unfold handleEndOfLineComment.
      destruct He as [He | He];
        (skip handleClosureTypeCastComments;
         skip handleLastFunctionArgComments;
         skip handleConditionalExpressionComments;
         skip handleModuleSpecifiersComments;
         skip handleIfStatementComments;
         skip handleWhileComments;
         by apply some_decides).
Qed.

(** X8.  A comment inside a for-in or for-of statement leads the
    statement in the own-line chain, wherever it stands in the
    statement, unless the imports take the statement for a member
    expression; a comment inside a labeled statement leads the
    statement in the end-of-line chain, unless it is a type cast before
    a following node. *)
Theorem comment_leads_enclosing_statement
    (ctx : CommentContext) (st : Store) (e : node) :
  enclosingNode ctx = Some e ->
  let committed :=
    Ok (true, attach Leading (nid e) (entry (comment ctx) None) st) in
  (ntype e = "ForInStatement" \/ ntype e = "ForOfStatement" ->
   handleForComments ctx st = committed /\
   (isMemberExpression (Some e) &&
    type_is (followingNode ctx) "Identifier" = false ->
    handleOwnLineComment ctx st = committed)) /\
  (ntype e = "LabeledStatement" ->
   handleLabeledStatementComments ctx st = committed /\
   (is_some (followingNode ctx) && isTypeCastComment (comment ctx) = false ->
    handleEndOfLineComment ctx st = committed)).
Proof.
  destruct ctx as
    [comment0 preceding enclosing following text0 opts root lastFlag].
  simpl. intros ->. split.
  - intros He.
    assert (Hfor :
      handleForComments
        (mkContext comment0 preceding (Some e) following text0 opts root
           lastFlag) st =
      Ok (true, attach Leading (nid e) (entry comment0 None) st)).
    { unfold handleForComments. simpl. by destruct He as [-> | ->]. }
    split; [exact Hfor|]. intros Hmember. unfold handleOwnLineComment.
    destruct He as [He | He];
      (skip handleIgnoreComments;
       skip handleLastFunctionArgComments;
       skip handleMemberExpressionComments;
       skip handleIfStatementComments;
       skip handleWhileComments;
       skip handleTryStatementComments;
       skip handleClassComments;
       by rewrite some_cons, Hfor).
  - intros He.
    assert (Hlabel :
      handleLabeledStatementComments
        (mkContext comment0 preceding (Some e) following text0 opts root
           lastFlag) st =
      Ok (true, attach Leading (nid e) (entry comment0 None) st)).
    { unfold handleLabeledStatementComments. simpl. by rewrite He. }
    split; [exact Hlabel|]. intros Hcast. unfold handleEndOfLineComment.
    skip handleClosureTypeCastComments.
    skip handleLastFunctionArgComments.
    skip handleConditionalExpressionComments.
    skip handleModuleSpecifiersComments.
    skip handleIfStatementComments.
    skip handleWhileComments.
    skip handleTryStatementComments.
    skip handleClassComments.
    by rewrite some_cons, Hlabel.
Qed.

(** The loop over the heritage lists, when the following node starts
    exactly the list [name]. *)
Lemma handleClassComments_loop_heritage names c preceding e f name st :
  In name names ->
  starts_with (prop name e) f = true ->
  (forall other, In other names -> other <> name ->
     starts_with (prop other e) f = false) ->
  handleClassComments_loop names c preceding (Some e) (Some f) st =
    Ok (true,
        match preceding with
        | Some p =>
            if class_head e p
            then attach Trailing (nid p) (entry c None) st
            else attach Dangling (nid e) (entry c (Some name)) st
        | None => attach Dangling (nid e) (entry c (Some name)) st
        end).
Proof.
  unfold starts_with, class_head.
  induction names as [|x names IH]; [done|].
  intros Hin Hname Hothers.
  destruct (decide (x = name)) as [-> | Hne].
  - clear IH Hin Hothers. simpl.
    unfold addTrailingComment, addDanglingComment, entry. unfold_js. simpl.
    destruct (prop name e) as [| |?|?|[|first rest]]; try done.
    simpl. rewrite Nat.eqb_sym, Hname. simpl.
    destruct preceding as [p|]; simpl; [|done].
    destruct (prop "id" e) as [| |?|?|?],
      (prop "typeParameters" e) as [| |?|?|?],
      (prop "superClass" e) as [| |?|?|?]; simpl;
      repeat match goal with
             | |- context [Nat.eqb ?a ?b] => destruct (Nat.eqb a b); simpl
             end; done.
  - destruct Hin as [-> | Hin]; [done|].
    change (handleClassComments_loop (x :: names) c preceding
              (Some e) (Some f) st)
      with ((ifM (list <- getp x (Some e) ;; cond (truthy list)) &&&
                 (list <- getp x (Some e) ;;
                  first <- get_first list ;;
                  cond (strict_eq (ov (Some f)) first))
             then
               (ifM cond (is_some preceding) &&&
                    ((id <- getp "id" (Some e) ;;
                      cond (strict_eq (ov preceding) id)) |||
                     (typeParameters <- getp "typeParameters" (Some e) ;;
                      cond (strict_eq (ov preceding) typeParameters)) |||
                     (superClass <- getp "superClass" (Some e) ;;
                      cond (strict_eq (ov preceding) superClass)))
                then addTrailingComment (ov preceding) c
                else addDanglingComment (ov (Some e)) c (Some x)) ;;;
               ret true
             else
               handleClassComments_loop names c preceding (Some e) (Some f))
            st).
    assert (Hx : starts_with (prop x e) f = false)
      by (apply Hothers; [by left|done]).
    unfold starts_with in Hx.
    assert (Hskip :
      ((list <- getp x (Some e) ;; cond (truthy list)) &&&
       (list <- getp x (Some e) ;;
        first <- get_first list ;;
        cond (strict_eq (ov (Some f)) first))) st = Ok (false, st)).
    { unfold_js. simpl.
      destruct (prop x e) as [| |[]|?|[|first rest]]; try done.
      simpl. by rewrite Nat.eqb_sym, Hx. }
    unfold bind at 1. rewrite Hskip.
    apply IH; [done|done|]. intros other Ho. apply Hothers. by right.
Qed.

(** X9.  A comment before the first entry of a heritage list of a class
    or an interface ([implements], [extends] or [mixins]) that has no
    decorators: it trails the preceding node when that is the name, the
    type parameters or the superclass; otherwise it dangles on the class
    with the name of the list as its marker.  This is the decision of
    [handleClassComments], of the own-line chain unless the imports
    take the class for a member expression, and of the end-of-line chain
    unless the comment is a type cast. *)
Theorem comment_before_heritage_list
    (ctx : CommentContext) (st : Store) (e f : node) (name : string) :
  enclosingNode ctx = Some e ->
  followingNode ctx = Some f ->
  set_has classLikeNodeTypes (Some e) = true ->
  isNonEmptyArray (prop "decorators" e) = false ->
  strict_eq (VNode f) (prop "body" e) = false ->
  strict_eq (VNode f) (prop "superClass" e) = false ->
  In name heritage_lists ->
  starts_with (prop name e) f = true ->
  (forall other, In other heritage_lists -> other <> name ->
     starts_with (prop other e) f = false) ->
  let committed :=
    Ok (true,
        match precedingNode ctx with
        | Some p =>
            if class_head e p
            then attach Trailing (nid p) (entry (comment ctx) None) st
            else attach Dangling (nid e) (entry (comment ctx) (Some name)) st
        | None => attach Dangling (nid e) (entry (comment ctx) (Some name)) st
        end) in
  handleClassComments ctx st = committed /\
  (isMemberExpression (Some e) && String.eqb (ntype f) "Identifier" = false ->
   handleOwnLineComment ctx st = committed) /\
  (isTypeCastComment (comment ctx) = false ->
   handleEndOfLineComment ctx st = committed).
Proof.
  destruct ctx as
    [comment0 preceding enclosing following text0 opts root lastFlag].
  simpl. intros -> -> Hclass Hdec Hbody Hsuper Hin Hname Hothers.
  assert (Hrule :
    handleClassComments
      (mkContext comment0 preceding (Some e) (Some f) text0 opts root lastFlag)
      st =
    Ok (true,
        match preceding with
        | Some p =>
            if class_head e p
            then attach Trailing (nid p) (entry comment0 None) st
            else attach Dangling (nid e) (entry comment0 (Some name)) st
        | None => attach Dangling (nid e) (entry comment0 (Some name)) st
        end)).
  { rewrite <- (handleClassComments_loop_heritage heritage_lists comment0
                  preceding e f name st Hin Hname Hothers).
    unfold handleClassComments, heritage_lists.
    generalize ["implements"; "extends"; "mixins"]. intros names.
    simpl in Hclass. simpl. rewrite Hclass.
    unfold_js. simpl. rewrite Hdec, Hbody, Hsuper. simpl.
    destruct (truthy (prop "body" e)), (truthy (prop "superClass" e)); done. }
  split; [exact Hrule|].
  assert (Htypes :
    In (ntype e) classLikeNodeTypes).
  { unfold classLikeNodeTypes. simpl.
    repeat (apply orb_true_iff in Hclass as [Hclass | Hclass]);
      try discriminate; apply String.eqb_eq in Hclass; rewrite Hclass;
      auto 10. }
  clear Hclass Hdec Hbody Hsuper Hin Hname Hothers.
  split.
  - intros Hmember. unfold handleOwnLineComment.
    unfold classLikeNodeTypes in Htypes. simpl in Htypes.
    destruct Htypes as [He|[He|[He|[He|[He|[He|[]]]]]]]; symmetry in He;
      (skip handleIgnoreComments;
       skip handleLastFunctionArgComments;
       skip handleMemberExpressionComments;
       skip handleIfStatementComments;
       skip handleWhileComments;
       skip handleTryStatementComments;
       by rewrite some_cons, Hrule).
  - intros Hcast. unfold handleEndOfLineComment.
    unfold classLikeNodeTypes in Htypes. simpl in Htypes.
    destruct Htypes as [He|[He|[He|[He|[He|[He|[]]]]]]]; symmetry in He;
      (skip handleClosureTypeCastComments;
       skip handleLastFunctionArgComments;
       skip handleConditionalExpressionComments;
       skip handleModuleSpecifiersComments;
       skip handleIfStatementComments;
       skip handleWhileComments;
       skip handleTryStatementComments;
       by rewrite some_cons, Hrule).
Qed.

(** X10.  Comments in and before a union type, in the own-line chain,
    the only chain with this rule.  Inside a union type a suppression
    marker flags the following member and itself; then the comment
    trails the preceding member, and with no preceding member the rule
    declines: the flags stay, and the chain as a whole declines with
    them (in a program with statements, before a member that is no
    program, and unless the imports take the union for a member
    expression).  Before a union type a suppression marker flags the
    first member of the union and itself, and the rule declines. *)
Theorem comment_in_union_type
    (ctx : CommentContext) (st : Store) (f : node) :
  followingNode ctx = Some f ->
  let c := comment ctx in
  (forall e,
     enclosingNode ctx = Some e -> is_union e = true ->
     let flagged_store :=
       if isPrettierIgnoreComment c
       then flag_unignore (cid c) (flag_prettierIgnore (nid f) st)
       else st in
     let reached decision :=
       isMemberExpression (Some e) && String.eqb (ntype f) "Identifier" = false ->
       handleOwnLineComment ctx st = decision in
     (forall p,
        precedingNode ctx = Some p ->
        let committed :=
          Ok (true, attach Trailing (nid p) (entry c None) flagged_store) in
        handleUnionTypeComments ctx st = committed /\ reached committed) /\
     (precedingNode ctx = None ->
      handleUnionTypeComments ctx st = Ok (false, flagged_store) /\
      (program_is_empty (ast ctx) = false -> ntype f <> "Program" ->
       reached (Ok (false, flagged_store))))) /\
  (type_is (enclosingNode ctx) "UnionTypeAnnotation" = false ->
   type_is (enclosingNode ctx) "TSUnionType" = false ->
   is_union f = true ->
   forall first rest,
     prop "types" f = VArr (first :: rest) ->
     handleUnionTypeComments ctx st =
       Ok (false,
           if isPrettierIgnoreComment c
           then flag_unignore (cid c) (flag_prettierIgnore (nid first) st)
           else st)).
Proof.
  destruct ctx as
    [comment0 preceding enclosing following text0 opts root lastFlag].
  simpl. intros ->. split.
  - intros e -> Hunion.
    assert (Htype : ntype e = "UnionTypeAnnotation" \/ ntype e = "TSUnionType").
    { unfold is_union in Hunion.
      apply orb_true_iff in Hunion as [H | H]; apply String.eqb_eq in H; auto. }
    split.
    + intros p ->.
      assert (Hrule :
        handleUnionTypeComments
          (mkContext comment0 (Some p) (Some e) (Some f) text0 opts root
             lastFlag) st =
        Ok (true,
            attach Trailing (nid p) (entry comment0 None)
              (if isPrettierIgnoreComment comment0
               then flag_unignore (cid comment0)
                      (flag_prettierIgnore (nid f) st)
               else st))).
      { unfold handleUnionTypeComments, is_union in *. simpl.
        rewrite Hunion. by destruct (isPrettierIgnoreComment comment0). }
      split; [exact Hrule|]. intros Hmember. clear Hunion.
      unfold handleOwnLineComment.
      destruct Htype as [He | He];
        (skip handleIgnoreComments;
         skip handleLastFunctionArgComments;
         skip handleMemberExpressionComments;
         skip handleIfStatementComments;
         skip handleWhileComments;
         skip handleTryStatementComments;
         skip handleClassComments;
         skip handleForComments;
         by rewrite some_cons, Hrule).
    + intros ->.
      assert (Hrule :
        handleUnionTypeComments
          (mkContext comment0 None (Some e) (Some f) text0 opts root lastFlag)
          st =
        Ok (false,
            if isPrettierIgnoreComment comment0
            then flag_unignore (cid comment0)
                   (flag_prettierIgnore (nid f) st)
            else st)).
      { unfold handleUnionTypeComments, is_union in *. simpl.
        rewrite Hunion. by destruct (isPrettierIgnoreComment comment0). }
      split; [exact Hrule|]. intros Hast Hprogram Hmember. clear Hunion.
      apply String.eqb_neq in Hprogram.
      unfold handleOwnLineComment.
      destruct Htype as [He | He];
        (skip handleIgnoreComments;
         skip handleLastFunctionArgComments;
         skip handleMemberExpressionComments;
         skip handleIfStatementComments;
         skip handleWhileComments;
         skip handleTryStatementComments;
         skip handleClassComments;
         skip handleForComments;
         rewrite some_cons, Hrule;
         skip_only;
         skip handleModuleSpecifiersComments;
         skip handleAssignmentPatternComments;
         skip handleMethodNameComments;
         skip handleLabeledStatementComments;
         skip handleBreakAndContinueStatementComments;
         done).
  - intros H1 H2 Hunion first rest Htypes.
    unfold handleUnionTypeComments, is_union in *. unfold_js. simpl.
    rewrite H1, H2, Hunion. simpl.
    destruct (isPrettierIgnoreComment comment0); [|done].
    simpl. by rewrite Htypes.
Qed.

(** X11.  The rest of the conditional rule: a comment in an
    if-statement that comes neither before the closing parenthesis of
    the condition nor between the consequent and the alternate, before
    a following node that is no block.  Before a nested if-statement it
    goes to the consequent of that statement: into its block, or as
    the leading comment of a consequent that is no block.  Before any
    other node it leads that node when it is the consequent, and else
    the rule declines: a comment before the condition is left to the
    caller.  A positive decision of the rule is the decision of the
    chains, as in C4. *)
Theorem comment_before_consequent
    (ctx : CommentContext) (st : Store) (e f : node) :
  enclosingNode ctx = Some e ->
  followingNode ctx = Some f ->
  ntype e = "IfStatement" ->
  getNextNonSpaceNonCommentCharacter (text ctx) (comment ctx) locEnd <> ")" ->
  strict_eq (ov (precedingNode ctx)) (prop "consequent" e) &&
  strict_eq (VNode f) (prop "alternate" e) = false ->
  ntype f <> "BlockStatement" ->
  let rule := handleIfStatementComments ctx st in
  let leads n := Ok (true, attach Leading (nid n) (entry (comment ctx) None) st) in
  (ntype f = "IfStatement" ->
   forall s, prop "consequent" f = VNode s ->
     (ntype s <> "BlockStatement" -> rule = leads s) /\
     (ntype s = "BlockStatement" ->
      forall stmts, block_children s = VArr stmts ->
        rule = Ok (true, block_first_comment s stmts (comment ctx) st))) /\
  (ntype f <> "IfStatement" ->
   rule = if strict_eq (prop "consequent" e) (VNode f)
          then leads f else Ok (false, st)) /\
  (forall st', rule = Ok (true, st') ->
   handleRemainingComment ctx st = rule /\
   (isTypeCastComment (comment ctx) = false ->
    handleEndOfLineComment ctx st = rule) /\
   (isMemberExpression (Some e) && String.eqb (ntype f) "Identifier" = false ->
    handleOwnLineComment ctx st = rule)).
Proof.
  intros Henc Hfol He Hnext Hbetween Hblock rule leads.
  split; [|split].
  - intros Hf s Hcons. unfold rule, leads. clear rule leads.
    destruct ctx as
      [comment0 preceding enclosing following text0 opts root lastFlag].
    simpl in Henc, Hfol, Hnext, Hbetween. subst enclosing following.
    apply String.eqb_neq in Hnext. clear Hblock.
    assert (Hstart :
      handleIfStatementComments
        (mkContext comment0 preceding (Some e) (Some f) text0 opts root lastFlag)
        st =
      (addBlockOrNotComment (VNode s) comment0 ;;; ret true) st).
    { unfold handleIfStatementComments. unfold_js. simpl.
      rewrite He, Hnext, Hf. simpl.
      destruct (strict_eq (ov preceding) (prop "consequent" e));
        simpl in *; rewrite ?Hbetween, Hcons; simpl; done. }
    rewrite Hstart. clear Hstart. cbn [comment].
    split.
    + intros Hs. apply String.eqb_neq in Hs.
      unfold addBlockOrNotComment, addLeadingComment. unfold_js. simpl.
      by rewrite Hs.
    + intros Hs stmts Hstmts.
      unfold addBlockOrNotComment. unfold_js. simpl. rewrite Hs. simpl.
      by rewrite (addBlockStatementFirstComment_block s stmts comment0 st
                    Hstmts).
  - intros Hf. unfold rule, leads. clear rule leads.
    destruct ctx as
      [comment0 preceding enclosing following text0 opts root lastFlag].
    simpl in *. subst.
    apply String.eqb_neq in Hnext, Hblock, Hf.
    unfold handleIfStatementComments. unfold_js. simpl.
    rewrite He, Hnext, Hblock, Hf. simpl.
    destruct (strict_eq (ov preceding) (prop "consequent" e));
      simpl in *; rewrite ?Hbetween; simpl;
      by destruct (strict_eq (prop "consequent" e) (VNode f)).
  - intros st' Hrule. rewrite Hrule.
    destruct (if_rule_in_chains ctx st e st' Henc He Hrule)
      as (Hrem & Heol & Hown).
    split; [exact Hrem|]. rewrite Hfol, Henc in *. simpl in *. by split.
Qed.

(** X12.  Comments in a mapped type, in the chain of remaining
    comments, the only chain with this rule.  Before a type parameter
    with a name the comment leads the name; otherwise, after a type
    parameter with a constraint, it trails the constraint.  A
    suppression marker before a type parameter with a constraint never
    gets there: the first rule of the chain claims it without
    attaching it.  Otherwise a positive decision of the rule is the
    decision of the chain, unless the imports take the mapped type for
    an object property or a call, the program has no statements, or
    the following node is a program. *)
Theorem comment_in_mapped_type
    (ctx : CommentContext) (st : Store) (e : node) :
  enclosingNode ctx = Some e ->
  ntype e = "TSMappedType" ->
  let rule := handleTSMappedTypeComments ctx st in
  let c := comment ctx in
  (forall f name,
     followingNode ctx = Some f -> ntype f = "TSTypeParameter" ->
     prop "name" f = VNode name ->
     rule = Ok (true, attach Leading (nid name) (entry c None) st)) /\
  (forall p constraint,
     type_is (followingNode ctx) "TSTypeParameter" = false ->
     precedingNode ctx = Some p -> ntype p = "TSTypeParameter" ->
     prop "constraint" p = VNode constraint ->
     rule = Ok (true, attach Trailing (nid constraint) (entry c None) st)) /\
  (ignore_claim ctx ->
   handleRemainingComment ctx st =
     Ok (true, flag_unignore (cid c) (flag_prettierIgnore (nid e) st))) /\
  (~ ignore_claim ctx ->
   isObjectProperty (Some e) = false -> isCallLikeExpression e = false ->
   program_is_empty (ast ctx) = false ->
   type_is (followingNode ctx) "Program" = false ->
   forall st', rule = Ok (true, st') ->
     handleRemainingComment ctx st = rule).
Proof.
  destruct ctx as
    [comment0 preceding enclosing following text0 opts root lastFlag].
  unfold ignore_claim. simpl. intros -> He.
  split; [|split; [|split]].
  - intros f name -> Hf Hname.
    unfold handleTSMappedTypeComments. unfold_js. simpl.
    by rewrite He, Hf, Hname.
  - intros p constraint Hf -> Hp Hconstraint.
    unfold handleTSMappedTypeComments. unfold_js. simpl.
    by rewrite He, Hf, Hp, Hconstraint.
  - intros (Hignore & _ & f & -> & Hf & Hconstraint).
    unfold handleRemainingComment. rewrite some_cons.
    unfold handleIgnoreComments. unfold_js. simpl.
    by rewrite Hignore, He, Hf, Hconstraint.
  - intros Hno Hproperty Hcall Hast Hprogram st' Hrule. rewrite Hrule.
    assert (Hignore :
      handleIgnoreComments
        (mkContext comment0 preceding (Some e) following text0 opts root
           lastFlag) st = Ok (false, st)).
    { unfold handleIgnoreComments. unfold_js. simpl. rewrite He. simpl.
      destruct (isPrettierIgnoreComment comment0) eqn:Hi; [|done].
      destruct following as [f|]; [|done]. simpl.
      destruct (String.eqb (ntype f) "TSTypeParameter") eqn:Hf; [|done].
      destruct (truthy (prop "constraint" f)) eqn:Hc; [|done].
      destruct Hno. split; [done|]. split; [simpl; by rewrite He|].
      exists f. by apply String.eqb_eq in Hf. }
    clear Hno. unfold handleRemainingComment.
    rewrite some_skip by exact Hignore. clear Hignore.
    skip handleIfStatementComments.
    skip handleWhileComments.
    skip handleObjectPropertyAssignment.
    skip handleCommentInEmptyParens.
    skip handleMethodNameComments.
    skip_only.
    skip handleCommentAfterArrowParams.
    skip handleFunctionNameComments.
    rewrite some_cons.
    change (handleTSMappedTypeComments
              (mkContext comment0 preceding (Some e) following text0 opts
                 root lastFlag) st = Ok (true, st')) in Hrule.
    by rewrite Hrule.
Qed.

End FurtherRules.

(** ** Rules for expressions and names *)

Section ExpressionRules.

Context {U : JsUtils}.

Ltac unfold_js :=
  unfold andM, orM, notM, cond, getp, set_prettierIgnore, set_unignore,
    deref, get, get_type_is, get_length, get_first, as_node, find_node,
    bind, ret, throw, modify.

Ltac brute := repeat first [progress simplify_eq/= | case_match].

Ltac known_types :=
  repeat match goal with
         | H : ntype ?n = _ |- context [ntype ?n] => rewrite !H
         end.

Ltac eqb_facts :=
  repeat match goal with
         | H : String.eqb _ _ = true |- _ => apply String.eqb_eq in H
         | H : String.eqb _ _ = false |- _ => apply String.eqb_neq in H
         end.

Ltac split_conditions :=
  repeat match goal with
         | H : _ && _ = true |- _ => apply andb_true_iff in H as [? ?]
         | H : _ || _ = false |- _ => apply orb_false_iff in H as [? ?]
         | H : negb _ = true |- _ => apply negb_true_iff in H
         | H : negb _ = false |- _ => apply negb_false_iff in H
         end.

Ltac declined :=
  repeat match goal with
         | H : _ = Ok _ |- _ => clear H
         | H : _ \/ _ |- _ => clear H
         end;
  unfold isRealFunctionLikeNode; unfold_js;
  simpl; known_types; simpl;
  rewrite ?andb_false_r, ?orb_false_r; simpl;
  brute;
  first [done | congruence | split_conditions; eqb_facts; congruence].

Ltac skip_only :=
  rewrite some_skip
    by (apply handleOnlyComments_declines; simpl; known_types; done).

Tactic Notation "skip" reference(h) :=
  rewrite some_skip by (unfold h; declined).

(** X13.  A comment in a conditional expression or a conditional type
    that does not stand on the line where the preceding node ends leads
    the following node; one on that line is declined by the rule.  The
    end-of-line chain, the only chain with this rule, decides the same
    for a comment that is off the line, type cast or not.  An own-line
    comment inside a member expression before an identifier leads the
    member expression. *)
Theorem comment_in_conditional_or_member_expression
    (ctx : CommentContext) (st : Store) (e f : node) :
  enclosingNode ctx = Some e ->
  followingNode ctx = Some f ->
  let c := comment ctx in
  let on_line :=
    match precedingNode ctx with
    | Some p => negb (hasNewlineInRange (text ctx) (locEnd p) (locStart c))
    | None => false
    end in
  (ntype e = "ConditionalExpression" \/ ntype e = "TSConditionalType" ->
   let committed := Ok (true, attach Leading (nid f) (entry c None) st) in
   handleConditionalExpressionComments ctx st =
     (if on_line then Ok (false, st) else committed) /\
   (on_line = false -> handleEndOfLineComment ctx st = committed)) /\
  (ntype e = "MemberExpression" \/ ntype e = "OptionalMemberExpression" ->
   isMemberExpression (Some e) = true ->
   ntype f = "Identifier" ->
   let committed := Ok (true, attach Leading (nid e) (entry c None) st) in
   handleMemberExpressionComments ctx st = committed /\
   handleOwnLineComment ctx st = committed).
Proof.
  destruct ctx as
    [comment0 preceding enclosing following text0 opts root lastFlag].
  simpl. intros -> ->. split.
  - intros He.
    assert (Hrule :
      handleConditionalExpressionComments
        (mkContext comment0 preceding (Some e) (Some f) text0 opts root
           lastFlag) st =
      if match preceding with
         | Some p =>
             negb (hasNewlineInRange text0 (locEnd p) (locStart comment0))
         | None => false
         end
      then Ok (false, st)
      else Ok (true, attach Leading (nid f) (entry comment0 None) st)).
    { unfold handleConditionalExpressionComments. simpl.
      destruct preceding as [p|]; simpl;
        destruct He as [-> | ->]; simpl; rewrite ?andb_true_r;
        by try destruct (hasNewlineInRange _ _ _). }
    split; [exact Hrule|]. intros Hline. rewrite Hline in Hrule.
    unfold handleEndOfLineComment.
    destruct (isTypeCastComment comment0) eqn:Hcast.
    { rewrite some_cons. unfold handleClosureTypeCastComments at 1.
      cbn [is_some andb ov]. by rewrite Hcast. }
    destruct He as [He | He];
      (skip handleClosureTypeCastComments;
       skip handleLastFunctionArgComments;
       by rewrite some_cons, Hrule).
  - intros He Hmember Hf.
    assert (Hrule :
      handleMemberExpressionComments
        (mkContext comment0 preceding (Some e) (Some f) text0 opts root
           lastFlag) st =
      Ok (true, attach Leading (nid e) (entry comment0 None) st)).
    { unfold handleMemberExpressionComments. simpl. by rewrite Hmember, Hf. }
    split; [exact Hrule|]. clear Hmember.
    unfold handleOwnLineComment.
    destruct He as [He | He];
      (skip handleIgnoreComments;
       skip handleLastFunctionArgComments;
       by rewrite some_cons, Hrule).
Qed.


(** X15.  Comments after a name, in the chain of remaining comments.
    A comment between the key of a method and its opening parenthesis
    trails the key; a comment after a decorator of a class member
    trails the decorator; a comment between the name of a function and
    its opening parenthesis trails the preceding node.  The provisos
    name what the rules earlier in the chain must not take the comment
    for. *)
Theorem comment_after_name
    (ctx : CommentContext) (st : Store) (p e : node) :
  precedingNode ctx = Some p ->
  enclosingNode ctx = Some e ->
  let c := comment ctx in
  let next := getNextNonSpaceNonCommentCharacter (text ctx) c locEnd in
  let committed := Ok (true, attach Trailing (nid p) (entry c None) st) in
  (ntype e = "Property" \/ ntype e = "TSDeclareMethod" \/
   ntype e = "TSAbstractMethodDefinition" ->
   next = "(" -> ntype p = "Identifier" ->
   strict_eq (prop "key" e) (VNode p) = true ->
   getNextNonSpaceNonCommentCharacter (text ctx) p locEnd <> ":" ->
   handleMethodNameComments ctx st = committed /\
   (isObjectProperty (Some e) = false ->
    handleRemainingComment ctx st = committed)) /\
  (ntype p = "Decorator" ->
   set_has propertyLikeNodeTypes (Some e) = true ->
   handleMethodNameComments ctx st = committed /\
   (isObjectProperty (Some e) = false -> next <> ")" ->
    handleRemainingComment ctx st = committed)) /\
  (set_has functionLikeNodeTypes (Some e) = true -> next = "(" ->
   handleFunctionNameComments ctx st = committed /\
   (isObjectProperty (Some e) = false ->
    program_is_empty (ast ctx) = false ->
    type_is (followingNode ctx) "Program" = false ->
    handleRemainingComment ctx st = committed)).
Proof.
  destruct ctx as
    [comment0 preceding enclosing following text0 opts root lastFlag].
  simpl. intros -> ->. split; [|split].
  - intros He Hnext Hp Hkey Hcolon.
    assert (Hrule :
      handleMethodNameComments
        (mkContext comment0 (Some p) (Some e) following text0 opts root
           lastFlag) st =
      Ok (true, attach Trailing (nid p) (entry comment0 None) st)).
    { apply String.eqb_neq in Hcolon.
      unfold handleMethodNameComments. simpl.
      rewrite Hnext, Hp, Hkey, Hcolon. simpl.
      by destruct He as [-> | [-> | ->]]. }
    split; [exact Hrule|]. intros Hproperty. clear Hkey Hcolon.
    unfold handleRemainingComment.
    destruct He as [He | [He | He]];
      (skip handleIgnoreComments;
       skip handleIfStatementComments;
       skip handleWhileComments;
       skip handleObjectPropertyAssignment;
       skip handleCommentInEmptyParens;
       by rewrite some_cons, Hrule).
  - intros Hp Hlike.
    assert (Htypes : In (ntype e) propertyLikeNodeTypes).
    { unfold propertyLikeNodeTypes. simpl in Hlike |- *.
      repeat (apply orb_true_iff in Hlike as [Hlike | Hlike]);
        try discriminate; apply String.eqb_eq in Hlike; rewrite Hlike;
        auto 10. }
    assert (Hrule :
      handleMethodNameComments
        (mkContext comment0 (Some p) (Some e) following text0 opts root
           lastFlag) st =
      Ok (true, attach Trailing (nid p) (entry comment0 None) st)).
    { unfold handleMethodNameComments. simpl in Hlike |- *.
      rewrite Hp, Hlike. simpl. rewrite !andb_false_r. done. }
    split; [exact Hrule|]. intros Hproperty Hnext. clear Hlike.
    apply String.eqb_neq in Hnext.
    unfold handleRemainingComment.
    unfold propertyLikeNodeTypes in Htypes. simpl in Htypes.
    destruct Htypes as [He|[He|[He|[He|[He|[He|[He|[]]]]]]]]; symmetry in He;
      (skip handleIgnoreComments;
       skip handleIfStatementComments;
       skip handleWhileComments;
       skip handleObjectPropertyAssignment;
       skip handleCommentInEmptyParens;
       by rewrite some_cons, Hrule).
  - intros Hlike Hnext.
    assert (Htypes : In (ntype e) functionLikeNodeTypes).
    { unfold functionLikeNodeTypes. simpl in Hlike |- *.
      repeat (apply orb_true_iff in Hlike as [Hlike | Hlike]);
        try discriminate; apply String.eqb_eq in Hlike; rewrite Hlike;
        auto 10. }
    assert (Hrule :
      handleFunctionNameComments
        (mkContext comment0 (Some p) (Some e) following text0 opts root
           lastFlag) st =
      Ok (true, attach Trailing (nid p) (entry comment0 None) st)).
    { unfold handleFunctionNameComments. simpl in Hlike |- *.
      by rewrite Hnext, Hlike. }
    split; [exact Hrule|]. intros Hproperty Hast Hprogram. clear Hlike.
    assert (Hmethod :
      handleMethodNameComments
        (mkContext comment0 (Some p) (Some e) following text0 opts root
           lastFlag) st = Ok (false, st) \/
      handleMethodNameComments
        (mkContext comment0 (Some p) (Some e) following text0 opts root
           lastFlag) st =
      Ok (true, attach Trailing (nid p) (entry comment0 None) st)).
    { unfold handleMethodNameComments. simpl.
      unfold functionLikeNodeTypes in Htypes. simpl in Htypes.
      destruct Htypes as [He|[He|[He|[He|[He|[]]]]]]; rewrite <- He; simpl;
        rewrite ?andb_false_r; simpl;
        destruct (String.eqb (ntype p) "Decorator"); simpl; auto. }
    unfold handleRemainingComment.
    unfold functionLikeNodeTypes in Htypes. simpl in Htypes.
    destruct Htypes as [He|[He|[He|[He|[He|[]]]]]]; symmetry in He;
      (skip handleIgnoreComments;
       skip handleIfStatementComments;
       skip handleWhileComments;
       skip handleObjectPropertyAssignment;
       skip handleCommentInEmptyParens;
       rewrite some_cons;
       destruct Hmethod as [Hmethod | Hmethod]; rewrite Hmethod; [|done];
       skip_only;
       skip handleCommentAfterArrowParams;
       by rewrite some_cons, Hrule).
Qed.

End ExpressionRules.

(** ** The other exports *)

Section ExportRules.

Context {U : JsUtils} {P : PrintUtils}.

(** X16.  Where the traversal skips the function of a method, the rule
    for empty parentheses reaches it.  When [getCommentChildNodes]
    lists the children of a node, the parser is one of the six ESTree
    parsers, the node is a method definition whose value is a function
    expression without parameters, and the children are the decorators
    in order, then the key, then the body of the function: the function
    itself is passed over, so that a comment in the parentheses of the
    method has the method as its enclosing node.  For such a comment,
    one before the closing parenthesis, [handleCommentInEmptyParens]
    attaches it as dangling on the function, and so does the chain of
    remaining comments, unless the imports take the method for a call
    or an object property. *)
Theorem skipped_function_gets_parens_comment
    (ctx : CommentContext) (st : Store) (n : node) (parser : string)
    (children : list value) :
  getCommentChildNodes n parser = Ok (Some children) ->
  enclosingNode ctx = Some n ->
  getNextNonSpaceNonCommentCharacter (text ctx) (comment ctx) locEnd = ")" ->
  isCallLikeExpression n = false ->
  In parser ["typescript"; "flow"; "acorn"; "espree"; "meriyah";
             "__babel_estree"] /\
  ntype n = "MethodDefinition" /\
  exists fn decorators,
    prop "value" n = VNode fn /\
    ntype fn = "FunctionExpression" /\
    getFunctionParameters fn = [] /\
    children = map VNode decorators ++ [prop "key" n; prop "body" fn] /\
    (forall l, prop "decorators" n = VArr l -> decorators = l) /\
    let committed :=
      Ok (true, attach Dangling (nid fn) (entry (comment ctx) None) st) in
    handleCommentInEmptyParens ctx st = committed /\
    (isObjectProperty (Some n) = false ->
     handleRemainingComment ctx st = committed).
Proof.
  intros Hchildren Henc Hnext Hcall.
  unfold getCommentChildNodes in Hchildren.
  destruct (_ && _) eqn:Hcond in Hchildren; [|discriminate].
  apply andb_true_iff in Hcond as [Hcond Hvalue].
  apply andb_true_iff in Hcond as [Hparser Hmethod].
  apply String.eqb_eq in Hmethod.
  destruct (prop "value" n) as [| |?|fn|?] eqn:Hfn; try discriminate.
  repeat (apply andb_true_iff in Hvalue as [Hvalue ?]).
  apply String.eqb_eq in Hvalue.
  assert (Hparams : getFunctionParameters fn = []).
  { destruct (getFunctionParameters fn); [done|]. simpl in *. lia. }
  split.
  { repeat (apply orb_true_iff in Hparser as [Hparser | Hparser]);
      apply String.eqb_eq in Hparser; rewrite Hparser; simpl; auto 10. }
  split; [done|].
  assert (Hrule :
    handleCommentInEmptyParens ctx st =
    Ok (true, attach Dangling (nid fn) (entry (comment ctx) None) st)).
  { destruct ctx as
      [comment0 preceding enclosing following text0 opts root lastFlag].
    simpl in *. subst enclosing.
    unfold handleCommentInEmptyParens, isRealFunctionLikeNode.
    unfold andM, cond, getp, deref, as_node, addDanglingComment, bind, ret,
      modify.
    simpl. rewrite Hnext, Hmethod, Hcall, Hfn. simpl. by rewrite Hparams. }
  assert (Hchain :
    isObjectProperty (Some n) = false ->
    handleRemainingComment ctx st =
    Ok (true, attach Dangling (nid fn) (entry (comment ctx) None) st)).
  { intros Hproperty.
    apply (empty_parens_rule_in_chain ctx st n); try done;
      rewrite Hmethod; discriminate. }
  exists fn.
  destruct (prop "decorators" n) as [| |[]|?|l] eqn:Hdec; try discriminate;
    injection Hchildren as <-.
  - exists []. repeat split; try done.
  - exists []. repeat split; try done.
  - exists []. repeat split; try done.
  - exists l. repeat split; try done. by intros ? [= ->].
Qed.

(** X17.  Suppression and own comments.  Under a union type
    [willPrintOwnComments] answers [true] whatever the node and whether
    or not it has a suppression marker.  Under any other parent node a
    suppression marker makes the answer falsy.  The function raises a
    type error exactly when there is no parent, the path has a
    suppression marker, and the node is one that prints its own
    comments by itself (a JSX node or a node with a Flow annotation
    comment). *)
Theorem own_comments_under_suppression (path : AstPath) :
  let node := getValue path in
  let parent := getParentNode path in
  (forall p, parent = VNode p -> is_union p = true ->
     willPrintOwnComments path = Ok (VBool true)) /\
  (forall p, parent = VNode p -> is_union p = false ->
     hasIgnoreComment path = true ->
     exists v, willPrintOwnComments path = Ok v /\ truthy v = false) /\
  (willPrintOwnComments path = TypeError <->
   (parent = VUndefined \/ parent = VNull) /\
   hasIgnoreComment path = true /\
   truthy node = true /\
   isJsxNode node ||
   hasFlowShorthandAnnotationComment node ||
   (isCallExpression None &&
    (hasFlowAnnotationComment (getComments node CommentCheckFlags.Leading) ||
     hasFlowAnnotationComment (getComments node CommentCheckFlags.Trailing)))
   = true).
Proof.
  destruct path as [node parent]. simpl.
  unfold willPrintOwnComments, is_union. simpl.
  split; [|split].
  - intros p -> Hunion. simpl.
    generalize (isJsxNode node || hasFlowShorthandAnnotationComment node ||
                isCallExpression (Some p) &&
                (hasFlowAnnotationComment
                   (getComments node CommentCheckFlags.Leading) ||
                 hasFlowAnnotationComment
                   (getComments node CommentCheckFlags.Trailing))).
    intros own.
    destruct (String.eqb (ntype p) "UnionTypeAnnotation"),
      (String.eqb (ntype p) "TSUnionType"); try discriminate;
      rewrite ?orb_true_r; simpl;
      destruct (truthy node) eqn:Hnode, own, (hasIgnoreComment _); simpl;
      by rewrite ?Hnode.
  - intros p -> Hunion Hignore. rewrite Hignore. simpl.
    apply orb_false_iff in Hunion as [H1 H2]. rewrite H1, H2. simpl.
    repeat case_match; simplify_eq/=; eauto.
  - split.
    + intros Herror.
      destruct parent as [| |?|?|?]; simpl in *;
        destruct (truthy node) eqn:Hnode; simpl in *;
        rewrite ?Hnode in *; simpl in *;
        repeat case_match; simplify_eq/=;
        rewrite ?negb_false_iff in *; auto.
    + intros ([-> | ->] & Hignore & Hnode & Hown); simpl;
        by rewrite Hnode, Hown, Hignore.
Qed.

End ExportRules.

(** ** The further rules on concrete sources *)

(** A suppression marker inside a mapped type: the own-line chain sets
    the flag of the mapped type and the flag of the comment, and no
    other. *)
Lemma chain_flag_writes_witness :
  let st' := flag_unignore 100 (flag_prettierIgnore 3 empty_store) in
  prettierIgnore empty_store ⊆ prettierIgnore st' /\
  unignore empty_store ⊆ unignore st' /\
  unignore st' ⊆ unignore empty_store ∪ {[100%nat]} /\
  (OwnLine = EndOfLine \/
   isPrettierIgnoreComment (JsUtils:=reference_utils)
     Examples.MappedType.c = false ->
   flags_unchanged empty_store st').
Proof.
  apply (chain_flag_writes (U:=reference_utils) OwnLine
           Examples.MappedType.context empty_store
           (flag_unignore 100 (flag_prettierIgnore 3 empty_store)) true).
  vm_compute. reflexivity.
Defined.

(** [(class /* c */ implements B {})]: the entry that the own-line
    chain appends to the dangling list of the class carries the name of
    the heritage list. *)
Lemma chain_marker_discipline_witness :
  e_comment (mkEntry 100 (Some "implements")) = 100%nat /\
  marker_ok (U:=reference_utils) MoreExamples.Heritage.context Dangling 2
    (Some "implements").
Proof.
  apply (chain_marker_discipline (U:=reference_utils) OwnLine
           MoreExamples.Heritage.context empty_store
           (attach Dangling 2 (mkEntry 100 (Some "implements")) empty_store)
           true Dangling 2 (mkEntry 100 (Some "implements")));
    vm_compute; reflexivity.
Defined.

(** [foo(/* a */ /* b */)]: after the two runs the dangling list of the
    call holds the first comment and then the second. *)
Lemma chain_runs_append_in_order_witness :
  exists l,
    node_comments
      (attach Dangling 2 (mkEntry 101 None)
         (attach Dangling 2 (mkEntry 100 None) empty_store)) Dangling 2 =
      node_comments empty_store Dangling 2 ++ l /\
    in_processing_order 100 101 l.
Proof.
  apply (chain_runs_append_in_order (U:=reference_utils) Remaining Remaining
           MoreExamples.TwoComments.first MoreExamples.TwoComments.second
           empty_store (attach Dangling 2 (mkEntry 100 None) empty_store)
           (attach Dangling 2 (mkEntry 101 None)
              (attach Dangling 2 (mkEntry 100 None) empty_store))
           true true Dangling 2);
    vm_compute; reflexivity.
Defined.

(** [// only]: the last comment of a program without statements
    dangles on the program. *)
Lemma comment_in_empty_program_witness :
  handleOwnLineComment (U:=reference_utils)
    MoreExamples.EmptyProgram.context empty_store =
    Ok (true, attach Dangling 0 (mkEntry 100 None) empty_store).
Proof.
  pose proof
    (comment_in_empty_program (U:=reference_utils)
       MoreExamples.EmptyProgram.context empty_store
       MoreExamples.EmptyProgram.program eq_refl eq_refl
       (or_introl (conj eq_refl (conj eq_refl (or_intror eq_refl))))) as H.
  exact (proj1 (proj2 H)).
Defined.

(** [(a, b/*c*/) => x]: the comment trails [b] in the end-of-line
    chain. *)
Lemma comment_after_last_parameter_witness :
  handleEndOfLineComment (U:=reference_utils) Examples.ArrowInside.context
    empty_store =
    Ok (true, attach Trailing 4 (mkEntry 100 None) empty_store).
Proof.
  assert (Hnext :
    getNextNonSpaceNonCommentCharacter (JsUtils:=reference_utils)
      (text Examples.ArrowInside.context)
      (comment Examples.ArrowInside.context)
      (locEnd (JsUtils:=reference_utils)) = ")")
    by (vm_compute; reflexivity).
  pose proof
    (comment_after_last_parameter (U:=reference_utils)
       Examples.ArrowInside.context empty_store
       Examples.ArrowInside.b Examples.ArrowInside.arrow eq_refl eq_refl
       (or_intror (conj (or_introl eq_refl) (conj eq_refl Hnext)))) as H.
  refine (proj2 (proj2 H) _). vm_compute. reflexivity.
Defined.

(** [while (a) break /* c */;]: the comment trails the [break]. *)
Lemma comment_in_unlabeled_jump_witness :
  handleRemainingComment (U:=reference_utils) MoreExamples.Break.context
    empty_store =
    Ok (true, attach Trailing 3 (mkEntry 100 None) empty_store).
Proof.
  pose proof
    (comment_in_unlabeled_jump (U:=reference_utils)
       MoreExamples.Break.context empty_store
       MoreExamples.Break.breakStatement eq_refl (or_introl eq_refl) eq_refl)
    as H.
  exact (proj2 (proj2 (proj2 H eq_refl eq_refl eq_refl)) eq_refl eq_refl).
Defined.

(** [try {} /* c */ catch (e) { x; }]: the comment leads [x;]. *)
Lemma comment_in_try_statement_witness :
  handleTryStatementComments MoreExamples.TryCatch.context empty_store =
    Ok (true, attach Leading 6 (mkEntry 100 None) empty_store) /\
  handleOwnLineComment (U:=reference_utils)
    MoreExamples.TryCatch.context empty_store =
    Ok (true, attach Leading 6 (mkEntry 100 None) empty_store).
Proof.
  pose proof
    (comment_in_try_statement (U:=reference_utils)
       MoreExamples.TryCatch.context empty_store
       MoreExamples.TryCatch.tryStatement MoreExamples.TryCatch.handler
       eq_refl eq_refl (or_introl eq_refl)) as H.
  pose proof
    (proj1 (proj1 (proj2 H) (or_introl eq_refl)) eq_refl
       MoreExamples.TryCatch.body [MoreExamples.TryCatch.statement]
       eq_refl eq_refl eq_refl) as Hblock.
  assert (Hrule :
    handleTryStatementComments MoreExamples.TryCatch.context empty_store =
    Ok (true, attach Leading 6 (mkEntry 100 None) empty_store))
    by exact Hblock.
  split; [exact Hrule|].
  rewrite <- Hrule. apply (proj2 (proj2 H)).
  - intros st'. rewrite Hrule. discriminate.
  - vm_compute. reflexivity.
Defined.

(** [(class /* c */ implements B {})]: the comment dangles on the class
    with the marker [implements]. *)
Lemma comment_before_heritage_list_witness :
  handleOwnLineComment (U:=reference_utils) MoreExamples.Heritage.context
    empty_store =
    Ok (true,
        attach Dangling 2 (mkEntry 100 (Some "implements")) empty_store).
Proof.
  assert (Hothers :
    forall other, In other heritage_lists -> other <> "implements" ->
      starts_with (prop other MoreExamples.Heritage.classExpression)
        MoreExamples.Heritage.b = false).
  { intros other [<- | [<- | [<- | []]]] Hne;
      [by destruct Hne | reflexivity | reflexivity]. }
  pose proof
    (comment_before_heritage_list (U:=reference_utils)
       MoreExamples.Heritage.context empty_store
       MoreExamples.Heritage.classExpression MoreExamples.Heritage.b
       "implements" eq_refl eq_refl eq_refl eq_refl eq_refl eq_refl
       (or_introl eq_refl) eq_refl Hothers) as H.
  refine (proj1 (proj2 H) _). vm_compute. reflexivity.
Defined.

(** A suppression marker before the first member of a union type: the
    own-line chain declines, and the member and the comment are
    flagged. *)
Lemma comment_in_union_type_witness :
  handleOwnLineComment (U:=reference_utils) MoreExamples.UnionFirst.context
    empty_store =
    Ok (false, flag_unignore 100 (flag_prettierIgnore 4 empty_store)).
Proof.
  pose proof
    (comment_in_union_type (U:=reference_utils)
       MoreExamples.UnionFirst.context empty_store MoreExamples.UnionFirst.b
       eq_refl) as H.
  pose proof
    (proj2 (proj1 H MoreExamples.UnionFirst.union eq_refl eq_refl)) as Hnone.
  refine (proj2 (Hnone eq_refl) eq_refl _ _).
  - discriminate.
  - vm_compute. reflexivity.
Defined.

(** [if (a) /* c */ b;]: the comment leads the consequent [b;]. *)
Lemma comment_before_consequent_witness :
  handleRemainingComment (U:=reference_utils) MoreExamples.IfPlain.context
    empty_store =
    Ok (true, attach Leading 3 (mkEntry 100 None) empty_store).
Proof.
  assert (Hnext :
    getNextNonSpaceNonCommentCharacter (JsUtils:=reference_utils)
      (text MoreExamples.IfPlain.context)
      (comment MoreExamples.IfPlain.context)
      (locEnd (JsUtils:=reference_utils)) <> ")")
    by (vm_compute; discriminate).
  assert (Hblock : ntype MoreExamples.IfPlain.statement <> "BlockStatement")
    by discriminate.
  pose proof
    (comment_before_consequent (U:=reference_utils)
       MoreExamples.IfPlain.context empty_store
       MoreExamples.IfPlain.ifStatement MoreExamples.IfPlain.statement
       eq_refl eq_refl eq_refl Hnext eq_refl Hblock) as H.
  assert (Hif : ntype MoreExamples.IfPlain.statement <> "IfStatement")
    by discriminate.
  pose proof (proj1 (proj2 H) Hif) as Hrule.
  rewrite (proj1 (proj2 (proj2 H) _ Hrule)). exact Hrule.
Defined.

(** A plain comment before the type parameter of a mapped type leads
    the name of the parameter; a suppression marker there is claimed
    by the first rule of the chain. *)
Lemma comment_in_mapped_type_witness :
  handleRemainingComment (U:=reference_utils) MoreExamples.MappedPlain.context
    empty_store =
    Ok (true, attach Leading 8 (mkEntry 100 None) empty_store) /\
  handleRemainingComment (U:=reference_utils) Examples.MappedType.context
    empty_store =
    Ok (true, flag_unignore 100 (flag_prettierIgnore 3 empty_store)).
Proof.
  split.
  - pose proof
      (comment_in_mapped_type (U:=reference_utils)
         MoreExamples.MappedPlain.context empty_store
         MoreExamples.MappedPlain.mapped eq_refl eq_refl) as H.
    pose proof
      (proj1 H MoreExamples.MappedPlain.typeParameter
         MoreExamples.MappedPlain.name eq_refl eq_refl eq_refl) as Hrule.
    assert (Hno : ~ ignore_claim (U:=reference_utils)
                      MoreExamples.MappedPlain.context).
    { intros (Hignore & _). vm_compute in Hignore. discriminate. }
    rewrite (proj2 (proj2 (proj2 H)) Hno eq_refl eq_refl eq_refl eq_refl
               _ Hrule).
    exact Hrule.
  - pose proof
      (comment_in_mapped_type (U:=reference_utils)
         Examples.MappedType.context empty_store
         Examples.MappedType.mapped eq_refl eq_refl) as H.
    apply (proj1 (proj2 (proj2 H))).
    split; [vm_compute; reflexivity|]. split; [reflexivity|].
    exists Examples.MappedType.typeParameter. by repeat split.
Defined.

(** [a: /* c */ x;]: the comment leads the labeled statement. *)
Lemma comment_leads_enclosing_statement_witness :
  handleEndOfLineComment (U:=reference_utils) MoreExamples.Labeled.context
    empty_store =
    Ok (true, attach Leading 1 (mkEntry 100 None) empty_store).
Proof.
  pose proof
    (comment_leads_enclosing_statement (U:=reference_utils)
       MoreExamples.Labeled.context empty_store
       MoreExamples.Labeled.labeledStatement eq_refl) as H.
  refine (proj2 (proj2 H eq_refl) _). vm_compute. reflexivity.
Defined.

(** [class A { m(/* c */) {} }] under the [typescript] parser: the
    children of the method are its key and the body of its function,
    and the comment dangles on the function. *)
Lemma skipped_function_gets_parens_comment_witness :
  getCommentChildNodes (U:=reference_utils) Examples.EmptyMethod.method
    "typescript" =
    Ok (Some [VNode Examples.EmptyMethod.key; VNode Examples.EmptyMethod.body])
  /\
  handleRemainingComment (U:=reference_utils) Examples.EmptyMethod.context
    empty_store =
    Ok (true, attach Dangling 6 (mkEntry 100 None) empty_store).
Proof.
  assert (Hchildren :
    getCommentChildNodes (U:=reference_utils) Examples.EmptyMethod.method
      "typescript" =
    Ok (Some [VNode Examples.EmptyMethod.key;
              VNode Examples.EmptyMethod.body]))
    by (vm_compute; reflexivity).
  split; [exact Hchildren|].
  assert (Hnext :
    getNextNonSpaceNonCommentCharacter (JsUtils:=reference_utils)
      (text Examples.EmptyMethod.context)
      (comment Examples.EmptyMethod.context)
      (locEnd (JsUtils:=reference_utils)) = ")")
    by (vm_compute; reflexivity).
  destruct
    (skipped_function_gets_parens_comment (U:=reference_utils)
       Examples.EmptyMethod.context empty_store Examples.EmptyMethod.method
       "typescript" _ Hchildren eq_refl Hnext eq_refl)
    as (_ & _ & fn & decorators & Hfn & _ & _ & _ & _ & _ & Hchain).
  injection Hfn as <-. apply Hchain. vm_compute. reflexivity.
Defined.

(** A JSX element at the root with a suppression marker raises a type
    error; a member of a union type prints its own comments, marker or
    not. *)
Lemma own_comments_under_suppression_witness :
  willPrintOwnComments (U:=reference_utils)
    (P:=MoreExamples.print_utils true) MoreExamples.jsx_root = TypeError /\
  willPrintOwnComments (U:=reference_utils)
    (P:=MoreExamples.print_utils true) MoreExamples.union_member =
    Ok (VBool true).
Proof.
  split.
  - apply (proj2 (proj2 (proj2
             (own_comments_under_suppression (U:=reference_utils)
                (P:=MoreExamples.print_utils true) MoreExamples.jsx_root)))).
    repeat split; auto.
  - apply (proj1
             (own_comments_under_suppression (U:=reference_utils)
                (P:=MoreExamples.print_utils true) MoreExamples.union_member)
             MoreExamples.UnionFirst.union); reflexivity.
Defined.

(** The comment after [?] stands on a line after the test [a]: it leads
    the consequent [b]. *)
Lemma comment_in_conditional_or_member_expression_witness :
  handleEndOfLineComment (U:=reference_utils)
    MoreExamples.Conditional.context empty_store =
    Ok (true, attach Leading 4 (mkEntry 100 None) empty_store).
Proof.
  pose proof
    (comment_in_conditional_or_member_expression (U:=reference_utils)
       MoreExamples.Conditional.context empty_store
       MoreExamples.Conditional.conditional MoreExamples.Conditional.b
       eq_refl eq_refl) as H.
  refine (proj2 (proj1 H (or_introl eq_refl)) _). vm_compute. reflexivity.
Defined.


(** [function f /* c */ () {}]: the comment trails the name [f]. *)
Lemma comment_after_name_witness :
  handleRemainingComment (U:=reference_utils)
    MoreExamples.FunctionName.context empty_store =
    Ok (true, attach Trailing 2 (mkEntry 100 None) empty_store).
Proof.
  pose proof
    (comment_after_name (U:=reference_utils)
       MoreExamples.FunctionName.context empty_store
       MoreExamples.FunctionName.f MoreExamples.FunctionName.declaration
       eq_refl eq_refl) as H.
  refine (proj2 (proj2 (proj2 H) eq_refl _) eq_refl eq_refl eq_refl).
  vm_compute. reflexivity.
Defined.
